(** * CFO-Agent: the scenario engine, the forecast simulator and the retrieval index

    A shallow embedding of the Python back end
    ([backend/main.py], [backend/app/services/rag_agent.py],
    [backend/app/services/llm_rag_agent.py],
    [backend/app/api/endpoints/rag.py], [backend/app/pathway_realtime.py],
    [backend/app/pathway_integration.py]).

    Python [float] is IEEE binary64 and is embedded as Rocq's primitive
    [float]; Python [int] is embedded as [Z]; dictionaries are [gmap]s,
    except the [changes] mapping of a scenario, whose iteration order the
    merge loop observes and which is an association list with distinct keys.
    Exceptions are explicit: fallible code returns a [result]. *)

From Stdlib Require Import ZArith Floats Lia.
From stdpp Require Import gmap strings pretty list.

Local Open Scope Z_scope.

(** ** Exceptions and the error monad *)

Inductive exn : Type :=
| ValueError (msg : string)
| ValidationError            (* pydantic.ValidationError, a subclass of ValueError *)
| TypeError
| OverflowError
| ZeroDivisionError
| KeyError (key : string)
| IndexError
| AssertionError.

Inductive result (A : Type) : Type :=
| Ok (a : A)
| Raise (e : exn).
Arguments Ok {A} a.
Arguments Raise {A} e.

#[global] Instance result_ret : MRet result := λ A a, Ok a.
#[global] Instance result_bind : MBind result :=
  λ A B f m, match m with Ok a => f a | Raise e => Raise e end.

Definition is_ok {A} (r : result A) : bool :=
  match r with Ok _ => true | Raise _ => false end.

(** ** Python numbers *)

Module PyNum.

(** [float(z)] for a Python int: the nearest binary64 value (ties to even),
    [OverflowError] when it does not fit. *)
Definition float_of_int (z : Z) : result float :=
  match binary_normalize prec emax z 0 false with
  | S754_infinity _ => Raise OverflowError
  | sf => Ok (SF2Prim sf)
  end.

(** [int(f)] for a Python float: truncation toward zero; [None] on a NaN
    ([ValueError]) or an infinity ([OverflowError]). *)
Definition int_of_float (f : float) : option Z :=
  match Prim2SF f with
  | S754_zero _ => Some 0
  | S754_finite s m e =>
      let a := Z.shiftl (Z.pos m) e in
      Some (if s then - a else a)
  | S754_infinity _ | S754_nan => None
  end.

(** [a / b] on two floats: Python raises on a zero divisor of either sign. *)
Definition float_truediv (a b : float) : result float :=
  if PrimFloat.eqb b 0 then Raise ZeroDivisionError else Ok (a / b)%float.

(** [a / b] on two ints: the correctly rounded quotient; [ZeroDivisionError]
    on [b = 0], [OverflowError] when the quotient is too large for a float. *)
Definition int_truediv (a b : Z) : result float :=
  if b =? 0 then Raise ZeroDivisionError
  else
    let negate := xorb (a <? 0) (b <? 0) in
    if a =? 0 then Ok (if negate then (-0)%float else 0%float)
    else
      let n := Z.abs a in
      let d := Z.abs b in
      let k := Z.max 0 (64 + Z.log2 d - Z.log2 n) in
      let q := Z.shiftl n k / d in
      let r := Z.shiftl n k mod d in
      let loc := if r =? 0 then loc_Exact else loc_Inexact (2 * r ?= d) in
      match q with
      | Z.pos mq =>
          match binary_round_aux prec emax negate q (- k) loc with
          | S754_infinity _ => Raise OverflowError
          | sf => Ok (SF2Prim sf)
          end
      | _ => Ok 0%float
      end.

End PyNum.

(** ** Forecast simulator: [calculate_runway] of [main.py] *)

Module Forecast.

Record ScenarioInput : Type := {
  current_cash : float;
  monthly_revenue : float;
  monthly_expenses : float;
  new_hires : Z;
  salary_per_hire : float;
  marketing_spend : float;
  price_increase_percent : float;
  months_to_forecast : Z
}.

(** One element of [monthly_data]: a dict with these five keys. *)
Record ForecastEntry : Type := {
  month : Z;
  revenue : float;
  expenses : float;
  net_income : float;
  balance : float
}.

Record ScenarioResult : Type := {
  scenario_id : string;
  timestamp : string;
  input : ScenarioInput;
  monthly_forecast : list ForecastEntry;
  total_months_of_runway : Z;
  final_cash_balance : float
}.

(** The local variables the loop updates. *)
Record locals : Type := {
  monthly_data : list ForecastEntry;
  current_balance : float;
  months_of_runway : Z
}.

(** [range(lo, hi)]. *)
Definition range (lo hi : Z) : list Z := seqZ lo (hi - lo).

Section loop.
Variable scenario : ScenarioInput.
Variables adjusted_revenue hiring_costs : float.

Definition monthly_net : float :=
  (adjusted_revenue - monthly_expenses scenario - hiring_costs
     - marketing_spend scenario)%float.

(** The loop body up to (not including) the [break] test. *)
Definition body (m : Z) (st : locals) : locals :=
  let current_balance := (current_balance st + monthly_net)%float in
  let monthly_data :=
    monthly_data st ++
      [ {| month := m;
           revenue := adjusted_revenue;
           expenses := (monthly_expenses scenario + hiring_costs
                          + marketing_spend scenario)%float;
           net_income := monthly_net;
           balance := current_balance |} ] in
  let months_of_runway :=
    if (0 <? current_balance)%float then m else months_of_runway st in
  {| monthly_data := monthly_data;
     current_balance := current_balance;
     months_of_runway := months_of_runway |}.

(** [for month in months: body; if current_balance <= 0: break]. *)
Fixpoint for_months (months : list Z) (st : locals) : locals :=
  match months with
  | [] => st
  | m :: rest =>
      let st' := body m st in
      if (current_balance st' <=? 0)%float then st' else for_months rest st'
  end.
End loop.

(** [calculate_runway]. The global [usage_counter] is threaded through; the
    two strings derived from [datetime.now()] are inputs. *)
Definition calculate_runway (usage_counter : Z) (now_id now_iso : string)
    (scenario : ScenarioInput) : result ScenarioResult * Z :=
  let usage_counter := usage_counter + 1 in
  let st0 := {| monthly_data := [];
                current_balance := current_cash scenario;
                months_of_runway := 0 |} in
  let adjusted_revenue :=
    (monthly_revenue scenario * (1 + price_increase_percent scenario / 100))%float in
  (hires ← PyNum.float_of_int (new_hires scenario);
   let hiring_costs := (hires * salary_per_hire scenario)%float in
   let st := for_months scenario adjusted_revenue hiring_costs
               (range 1 (months_to_forecast scenario + 1)) st0 in
   Ok {| scenario_id := "scn_" +:+ now_id;
         timestamp := now_iso;
         input := scenario;
         monthly_forecast := monthly_data st;
         total_months_of_runway := months_of_runway st;
         final_cash_balance := current_balance st |},
   usage_counter).

(** The running balance after [k] months when nothing stops the loop:
    [k] additions of the monthly net to the opening cash. *)
Fixpoint balance_at (cash net : float) (k : nat) : float :=
  match k with
  | O => cash
  | S k' => (balance_at cash net k' + net)%float
  end.

(** Adjusted revenue and monthly net of a scenario, as [calculate_runway]
    computes them once the hire count has been converted. *)
Definition adjusted_revenue_of (s : ScenarioInput) : float :=
  (monthly_revenue s * (1 + price_increase_percent s / 100))%float.

Definition net_of (s : ScenarioInput) (hires : float) : float :=
  monthly_net s (adjusted_revenue_of s) (hires * salary_per_hire s)%float.

(** The entry the loop appends in month [k] when it gets that far. *)
Definition entry_at (s : ScenarioInput) (hires : float) (k : nat) : ForecastEntry :=
  {| month := Z.of_nat k;
     revenue := adjusted_revenue_of s;
     expenses := (monthly_expenses s + hires * salary_per_hire s
                    + marketing_spend s)%float;
     net_income := net_of s hires;
     balance := balance_at (current_cash s) (net_of s hires) k |}.

(** The inputs of the two worked examples of the specification. *)
Definition example_deficit (horizon : Z) : ScenarioInput :=
  {| current_cash := 10000; monthly_revenue := 5000; monthly_expenses := 6000;
     new_hires := 0; salary_per_hire := 0; marketing_spend := 0;
     price_increase_percent := 0; months_to_forecast := horizon |}.

Definition example_surplus : ScenarioInput :=
  {| current_cash := 1000; monthly_revenue := 8000; monthly_expenses := 5000;
     new_hires := 0; salary_per_hire := 0; marketing_spend := 0;
     price_increase_percent := 0; months_to_forecast := 6 |}.

End Forecast.

(** ** Python values *)

(** A naive [datetime], as microseconds since the epoch. *)
Inductive datetime : Type := Datetime (micros : Z).

(** The values a [Dict[str, Any]] holds here: what JSON decodes to, and
    datetimes. A dict keeps its keys in insertion order. *)
#[local] Unset Elimination Schemes.
Inductive pyvalue : Type :=
| VNone
| VBool (b : bool)
| VInt (z : Z)
| VFloat (f : float)
| VStr (s : string)
| VDatetime (t : datetime)
| VList (l : list pyvalue)
| VDict (d : list (string * pyvalue)).
#[local] Set Elimination Schemes.

Module Py.

(** [isinstance(v, (int, float))]; [bool] is a subclass of [int]. *)
Definition isinstance_int_float (v : pyvalue) : bool :=
  match v with
  | VBool _ | VInt _ | VFloat _ => true
  | _ => false
  end.

(** The integer a [bool] or an [int] stands for in arithmetic. *)
Definition as_int (v : pyvalue) : option Z :=
  match v with
  | VBool b => Some (Z.b2z b)
  | VInt z => Some z
  | _ => None
  end.

(** [a + b] where [a] is a number: int arithmetic is exact, a mixed sum
    converts the int operand to float first, and any other right operand
    is a [TypeError]. *)
Definition add (a b : pyvalue) : result pyvalue :=
  match a, b with
  | VFloat x, VFloat y => Ok (VFloat (x + y)%float)
  | VFloat x, (VBool _ | VInt _) =>
      y ← PyNum.float_of_int (default 0 (as_int b)); Ok (VFloat (x + y)%float)
  | (VBool _ | VInt _), VFloat y =>
      x ← PyNum.float_of_int (default 0 (as_int a)); Ok (VFloat (x + y)%float)
  | (VBool _ | VInt _), (VBool _ | VInt _) =>
      Ok (VInt (default 0 (as_int a) + default 0 (as_int b)))
  | _, _ => Raise TypeError
  end.

(** [d[key]] on a dict. *)
Definition getitem {V : Type} (d : gmap string V) (key : string) : result V :=
  match d !! key with
  | Some v => Ok v
  | None => Raise (KeyError key)
  end.

(** An insertion-ordered dict without the entry for [key]. *)
Definition without {V : Type} (key : string) (d : list (string * V))
    : list (string * V) :=
  filter (λ p, p.1 ≠ key) d.

(** ["\n"]. *)
Definition nl : string := String (Ascii.ascii_of_nat 10) EmptyString.

End Py.

(** ** pydantic (version 1) field validation

    [app/core/config.py] imports [BaseSettings] from [pydantic], which only
    version 1 provides. Its validators return a value of the annotated type
    unchanged and coerce an [int] field's float by [int(v)]. What they do
    with a value of any other type (parsing a string as a number or a
    datetime, printing a number as a string, building a dict from pairs) is
    the library's business and is taken as a parameter; [None] stands for a
    rejected value. *)

Module Pydantic.

Record lax : Type := {
  lax_str : pyvalue → option string;
  lax_int : pyvalue → option Z;
  lax_float : pyvalue → option float;
  lax_datetime : pyvalue → option datetime;
  lax_dict : pyvalue → option (list (string * pyvalue))
}.

(** The coercions that reject every value of another type. *)
Definition strict : lax :=
  {| lax_str := λ _, None; lax_int := λ _, None; lax_float := λ _, None;
     lax_datetime := λ _, None; lax_dict := λ _, None |}.

Definition str_validator (L : lax) (v : pyvalue) : option string :=
  match v with
  | VStr s => Some s
  | _ => lax_str L v
  end.

Definition int_validator (L : lax) (v : pyvalue) : option Z :=
  match v with
  | VInt z => Some z
  | VBool b => Some (Z.b2z b)
  | VFloat f => PyNum.int_of_float f
  | _ => lax_int L v
  end.

Definition float_validator (L : lax) (v : pyvalue) : option float :=
  match v with
  | VFloat f => Some f
  | _ => lax_float L v
  end.

Definition datetime_validator (L : lax) (v : pyvalue) : option datetime :=
  match v with
  | VDatetime t => Some t
  | _ => lax_datetime L v
  end.

Definition dict_validator (L : lax) (v : pyvalue) : option (list (string * pyvalue)) :=
  match v with
  | VDict d => Some d
  | _ => lax_dict L v
  end.

End Pydantic.

(** ** The data model of [rag_agent.py] *)

Module FinancialContext.

Record t : Type := {
  id : string;
  company_id : string;
  current_cash : float;
  monthly_revenue : float;
  monthly_expenses : float;
  marketing_spend : float;
  team_size : Z;
  average_salary : float;
  price_per_unit : float;
  units_sold : Z;
  runway_months : float;
  last_updated : datetime;
  metadata : list (string * pyvalue)
}.

(** The field names of the schema, in declaration order. *)
Definition fields : list string :=
  [ "id"; "company_id"; "current_cash"; "monthly_revenue"; "monthly_expenses";
    "marketing_spend"; "team_size"; "average_salary"; "price_per_unit";
    "units_sold"; "runway_months"; "last_updated"; "metadata" ].

(** [context.dict()]. *)
Definition dict (c : t) : gmap string pyvalue :=
  <[ "id" := VStr (id c) ]>
  (<[ "company_id" := VStr (company_id c) ]>
  (<[ "current_cash" := VFloat (current_cash c) ]>
  (<[ "monthly_revenue" := VFloat (monthly_revenue c) ]>
  (<[ "monthly_expenses" := VFloat (monthly_expenses c) ]>
  (<[ "marketing_spend" := VFloat (marketing_spend c) ]>
  (<[ "team_size" := VInt (team_size c) ]>
  (<[ "average_salary" := VFloat (average_salary c) ]>
  (<[ "price_per_unit" := VFloat (price_per_unit c) ]>
  (<[ "units_sold" := VInt (units_sold c) ]>
  (<[ "runway_months" := VFloat (runway_months c) ]>
  (<[ "last_updated" := VDatetime (last_updated c) ]>
  (<[ "metadata" := VDict (metadata c) ]> ∅)))))))))))).

(** The constructor [FinancialContext] applied to the entries of [data] as
    keyword arguments: every field is validated against its
    annotation; the eleven fields without a default are required, and a
    missing [last_updated] or [metadata] takes its default. Keys that are
    not fields are ignored. Any rejected or missing value makes the
    constructor raise [ValidationError]. *)
Definition validate (L : Pydantic.lax) (now : datetime)
    (data : gmap string pyvalue) : option t :=
  id ← data !! "id" ≫= Pydantic.str_validator L;
  company_id ← data !! "company_id" ≫= Pydantic.str_validator L;
  current_cash ← data !! "current_cash" ≫= Pydantic.float_validator L;
  monthly_revenue ← data !! "monthly_revenue" ≫= Pydantic.float_validator L;
  monthly_expenses ← data !! "monthly_expenses" ≫= Pydantic.float_validator L;
  marketing_spend ← data !! "marketing_spend" ≫= Pydantic.float_validator L;
  team_size ← data !! "team_size" ≫= Pydantic.int_validator L;
  average_salary ← data !! "average_salary" ≫= Pydantic.float_validator L;
  price_per_unit ← data !! "price_per_unit" ≫= Pydantic.float_validator L;
  units_sold ← data !! "units_sold" ≫= Pydantic.int_validator L;
  runway_months ← data !! "runway_months" ≫= Pydantic.float_validator L;
  last_updated ←
    match data !! "last_updated" with
    | Some v => Pydantic.datetime_validator L v
    | None => Some now
    end;
  metadata ←
    match data !! "metadata" with
    | Some v => Pydantic.dict_validator L v
    | None => Some []
    end;
  Some {| id := id; company_id := company_id; current_cash := current_cash;
          monthly_revenue := monthly_revenue;
          monthly_expenses := monthly_expenses;
          marketing_spend := marketing_spend; team_size := team_size;
          average_salary := average_salary; price_per_unit := price_per_unit;
          units_sold := units_sold; runway_months := runway_months;
          last_updated := last_updated; metadata := metadata |}.

(** The validator of one field by name, with its result as a Python value
    again: what [validate] applies to [data[key]]. *)
Definition field_validator (L : Pydantic.lax) (key : string) (v : pyvalue)
    : option pyvalue :=
  if bool_decide (key ∈ ["id"; "company_id"]) then
    VStr <$> Pydantic.str_validator L v
  else if bool_decide (key ∈ ["team_size"; "units_sold"]) then
    VInt <$> Pydantic.int_validator L v
  else if bool_decide (key = "last_updated") then
    VDatetime <$> Pydantic.datetime_validator L v
  else if bool_decide (key = "metadata") then
    VDict <$> Pydantic.dict_validator L v
  else if bool_decide (key ∈ fields) then
    VFloat <$> Pydantic.float_validator L v
  else None.

Definition make (L : Pydantic.lax) (now : datetime)
    (data : gmap string pyvalue) : result t :=
  match validate L now data with
  | Some c => Ok c
  | None => Raise ValidationError
  end.

End FinancialContext.

Module UserScenario.

Record t : Type := {
  scenario_id : string;
  company_id : string;
  changes : list (string * pyvalue);
  timestamp : datetime
}.

End UserScenario.

Module FinancialAnalysis.

Record t : Type := {
  analysis_id : string;
  scenario_id : string;
  company_id : string;
  original_context : FinancialContext.t;
  updated_context : FinancialContext.t;
  impact_analysis : gmap string float;
  summary : string;
  created_at : datetime
}.

End FinancialAnalysis.

(** ** The text generation service

    What the [try] block of [OpenLLMRAGAgent.generate_response] ends in: the
    stripped completion text, or an exception with its message [str(e)].
    Retrieval and the remote call both sit inside that block. *)
Inductive generation : Type :=
| Returned (text : string)
| Raised (message : string).

Module OpenLLMRAGAgent.

(** [generate_response(query)]: the query only reaches the external
    service, whose outcome [o] is given; a failure is turned into text. *)
Definition generate_response {Q : Type} (query : Q) (o : generation) : string :=
  match o with
  | Returned result => result
  | Raised message => "Error generating response: " +:+ message
  end.

End OpenLLMRAGAgent.

(** ** [RAGAgent] *)

Module RAGAgent.

Record t : Type := {
  context_store : gmap string FinancialContext.t;
  scenario_store : gmap string UserScenario.t;
  analysis_store : gmap string FinancialAnalysis.t
}.

(** [__init__]: three empty stores. *)
Definition init : t :=
  {| context_store := ∅; scenario_store := ∅; analysis_store := ∅ |}.

Definition add_financial_context (self : t) (context : FinancialContext.t)
    : string * t :=
  (FinancialContext.id context,
   {| context_store :=
        <[ FinancialContext.company_id context := context ]> (context_store self);
      scenario_store := scenario_store self;
      analysis_store := analysis_store self |}).

Definition get_financial_context (self : t) (company_id : string)
    : option FinancialContext.t :=
  context_store self !! company_id.

Definition create_scenario (now : datetime) (self : t) (company_id : string)
    (changes : list (string * pyvalue)) : string * t :=
  let scenario_id :=
    "scenario_" +:+ pretty (Z.of_nat (size (scenario_store self)) + 1) in
  let scenario :=
    {| UserScenario.scenario_id := scenario_id;
       UserScenario.company_id := company_id;
       UserScenario.changes := changes;
       UserScenario.timestamp := now |} in
  (scenario_id,
   {| context_store := context_store self;
      scenario_store := <[ scenario_id := scenario ]> (scenario_store self);
      analysis_store := analysis_store self |}).

(** The merge loop of [analyze_scenario]:
    [for key, value in changes.items(): if key in updated_data: ...]. *)
Fixpoint apply_changes (updated_data : gmap string pyvalue)
    (changes : list (string * pyvalue)) : result (gmap string pyvalue) :=
  match changes with
  | [] => Ok updated_data
  | (key, value) :: rest =>
      match updated_data !! key with
      | Some current =>
          if Py.isinstance_int_float current then
            sum ← Py.add current value;
            apply_changes (<[ key := sum ]> updated_data) rest
          else
            apply_changes (<[ key := value ]> updated_data) rest
      | None => apply_changes updated_data rest
      end
  end.

(** What the loop body assigns to a key whose current value is [current]. *)
Definition merged (current value : pyvalue) : result pyvalue :=
  if Py.isinstance_int_float current then Py.add current value else Ok value.

Definition _calculate_impact (original updated : FinancialContext.t)
    : gmap string float :=
  <[ "revenue_change" :=
       (FinancialContext.monthly_revenue updated
          - FinancialContext.monthly_revenue original)%float ]>
  (<[ "expense_change" :=
       (FinancialContext.monthly_expenses updated
          - FinancialContext.monthly_expenses original)%float ]>
  (<[ "marketing_impact" :=
       (FinancialContext.marketing_spend updated
          - FinancialContext.marketing_spend original)%float ]>
  (<[ "runway_impact" :=
       (FinancialContext.runway_months updated
          - FinancialContext.runway_months original)%float ]>
  (<[ "profit_impact" :=
       ((FinancialContext.monthly_revenue updated
           - FinancialContext.monthly_expenses updated)
        - (FinancialContext.monthly_revenue original
             - FinancialContext.monthly_expenses original))%float ]> ∅)))).

(** One line of the "Proposed Changes" part of the prompt: the label, the
    change and its percentage of the original value. *)
Record change_line : Type := {
  label : string;
  change : pyvalue;
  pct_change : float
}.

(** [(change / original) * 100 if original != 0 else float('inf')]. *)
Definition pct_guarded (change original : float) : result float :=
  if negb (original =? 0)%float
  then q ← PyNum.float_truediv change original; Ok (q * 100)%float
  else Ok infinity.

(** The proposed-changes lines of [_generate_summary], in order. The
    revenue percentage divides without a test; the team-size line divides
    two ints and formats the int change with a float format. *)
Definition proposed_changes (original updated : FinancialContext.t)
    : result (list change_line) :=
  let changes := [] in
  changes ←
    (if negb (FinancialContext.monthly_revenue updated
                =? FinancialContext.monthly_revenue original)%float
     then
       let change := (FinancialContext.monthly_revenue updated
                        - FinancialContext.monthly_revenue original)%float in
       q ← PyNum.float_truediv change (FinancialContext.monthly_revenue original);
       Ok (changes ++ [ {| label := "Revenue"; change := VFloat change;
                           pct_change := (q * 100)%float |} ])
     else Ok changes);
  changes ←
    (if negb (FinancialContext.monthly_expenses updated
                =? FinancialContext.monthly_expenses original)%float
     then
       let change := (FinancialContext.monthly_expenses updated
                        - FinancialContext.monthly_expenses original)%float in
       pct ← pct_guarded change (FinancialContext.monthly_expenses original);
       Ok (changes ++ [ {| label := "Expenses"; change := VFloat change;
                           pct_change := pct |} ])
     else Ok changes);
  changes ←
    (if negb (FinancialContext.marketing_spend updated
                =? FinancialContext.marketing_spend original)%float
     then
       let change := (FinancialContext.marketing_spend updated
                        - FinancialContext.marketing_spend original)%float in
       pct ← pct_guarded change (FinancialContext.marketing_spend original);
       Ok (changes ++ [ {| label := "Marketing Spend"; change := VFloat change;
                           pct_change := pct |} ])
     else Ok changes);
  (if negb (FinancialContext.team_size updated
              =? FinancialContext.team_size original)
   then
     let change := FinancialContext.team_size updated
                     - FinancialContext.team_size original in
     pct ← (if negb (FinancialContext.team_size original =? 0)
            then q ← PyNum.int_truediv change (FinancialContext.team_size original);
                 Ok (q * 100)%float
            else Ok infinity);
     _ ← PyNum.float_of_int change;
     Ok (changes ++ [ {| label := "Team Size"; change := VInt change;
                         pct_change := pct |} ])
   else Ok changes).

(** The two percentages of the "Impact Analysis" part of the prompt, each
    [(x / original * 100) if original != 0 else 0]. *)
Definition impact_pct (x original : float) : result float :=
  if negb (original =? 0)%float
  then q ← PyNum.float_truediv x original; Ok (q * 100)%float
  else Ok 0%float.

(** [_generate_summary]. Formatting the figures into the prompt text is not
    modelled (decimal printing of the numbers is assumed not to raise): the
    prompt is the list of figures. *)
Definition _generate_summary (original updated : FinancialContext.t)
    (impact : gmap string float) (o : generation) : result string :=
  changes ← proposed_changes original updated;
  revenue_change ← Py.getitem impact "revenue_change";
  revenue_pct ←
    impact_pct revenue_change (FinancialContext.monthly_revenue original);
  expense_change ← Py.getitem impact "expense_change";
  expense_pct ←
    impact_pct expense_change (FinancialContext.monthly_expenses original);
  _ ← Py.getitem impact "runway_impact";
  _ ← Py.getitem impact "profit_impact";
  let prompt := (changes, revenue_pct, expense_pct, impact) in
  let analysis := OpenLLMRAGAgent.generate_response prompt o in
  Ok ("# Financial Impact Analysis" +:+ Py.nl +:+ Py.nl +:+ analysis).

(** [analyze_scenario]. The clock read by [created_at]'s default factory
    and the outcome of the generation call are inputs; the agent is
    returned with the new analysis stored, or unchanged on an exception. *)
Definition analyze_scenario (L : Pydantic.lax) (now : datetime) (o : generation)
    (self : t) (scenario_id : string) : result FinancialAnalysis.t * t :=
  match scenario_store self !! scenario_id with
  | None =>
      (Raise (ValueError ("Scenario " +:+ scenario_id +:+ " not found")), self)
  | Some scenario =>
      match get_financial_context self (UserScenario.company_id scenario) with
      | None =>
          (Raise (ValueError ("No financial context found for company "
                                +:+ UserScenario.company_id scenario)), self)
      | Some context =>
          let outcome :=
            updated_data ← apply_changes (FinancialContext.dict context)
                              (UserScenario.changes scenario);
            updated_context ← FinancialContext.make L now updated_data;
            let impact := _calculate_impact context updated_context in
            summary ← _generate_summary context updated_context impact o;
            let analysis_id :=
              "analysis_" +:+ pretty (Z.of_nat (size (analysis_store self)) + 1) in
            Ok {| FinancialAnalysis.analysis_id := analysis_id;
                  FinancialAnalysis.scenario_id := scenario_id;
                  FinancialAnalysis.company_id := UserScenario.company_id scenario;
                  FinancialAnalysis.original_context := context;
                  FinancialAnalysis.updated_context := updated_context;
                  FinancialAnalysis.impact_analysis := impact;
                  FinancialAnalysis.summary := summary;
                  FinancialAnalysis.created_at := now |} in
          match outcome with
          | Ok analysis =>
              (Ok analysis,
               {| context_store := context_store self;
                  scenario_store := scenario_store self;
                  analysis_store :=
                    <[ FinancialAnalysis.analysis_id analysis := analysis ]>
                      (analysis_store self) |})
          | Raise e => (Raise e, self)
          end
      end
  end.

(** One call of the agent's interface. *)
Inductive call : Type :=
| AddFinancialContext (context : FinancialContext.t)
| CreateScenario (now : datetime) (company_id : string)
    (changes : list (string * pyvalue))
| AnalyzeScenario (L : Pydantic.lax) (now : datetime) (o : generation)
    (scenario_id : string).

Definition step (self : t) (c : call) : t :=
  match c with
  | AddFinancialContext context => (add_financial_context self context).2
  | CreateScenario now company_id changes =>
      (create_scenario now self company_id changes).2
  | AnalyzeScenario L now o scenario_id =>
      (analyze_scenario L now o self scenario_id).2
  end.

(** The agents a program can hold: a fresh one after any calls. *)
Definition reachable (self : t) : Prop :=
  ∃ calls : list call, self = foldl step init calls.

(** The agent [self] where the scenario [scenario_id] has [changes] in place
    of its own. *)
Definition with_changes (self : t) (scenario_id : string)
    (changes : list (string * pyvalue)) : t :=
  {| context_store := context_store self;
     scenario_store :=
       alter (λ sc, {| UserScenario.scenario_id := UserScenario.scenario_id sc;
                       UserScenario.company_id := UserScenario.company_id sc;
                       UserScenario.changes := changes;
                       UserScenario.timestamp := UserScenario.timestamp sc |})
             scenario_id (scenario_store self);
     analysis_store := analysis_store self |}.

End RAGAgent.

(** ** The endpoint [GET /analyze/{scenario_id}] of [endpoints/rag.py] *)

Module Endpoints.

Inductive response : Type :=
| Success (analysis : FinancialAnalysis.t)
| HTTPException (status_code : Z) (e : exn).

(** [isinstance(e, ValueError)]. *)
Definition is_ValueError (e : exn) : bool :=
  match e with
  | ValueError _ | ValidationError => true
  | _ => false
  end.

(** [detail=str(e)] for the exceptions whose message the model carries. *)
Definition detail (r : response) : option string :=
  match r with
  | HTTPException _ (ValueError msg) => Some msg
  | _ => None
  end.

Definition analyze_scenario (L : Pydantic.lax) (now : datetime) (o : generation)
    (rag_agent : RAGAgent.t) (scenario_id : string) : response * RAGAgent.t :=
  match RAGAgent.analyze_scenario L now o rag_agent scenario_id with
  | (Ok analysis, rag_agent) => (Success analysis, rag_agent)
  | (Raise e, rag_agent) =>
      (HTTPException (if is_ValueError e then 404 else 500) e, rag_agent)
  end.

(** The other endpoints of [endpoints/rag.py] answer with a JSON body, with
    [HTTPException(status_code, detail=str(e))] for a caught exception [e],
    or with an [HTTPException] of their own. *)
Inductive reply (A : Type) : Type :=
| Reply (body : A)
| Failed (status_code : Z) (e : exn)
| Refused (status_code : Z) (detail : string).
Arguments Reply {A} body.
Arguments Failed {A} status_code e.
Arguments Refused {A} status_code detail.

(** [POST /context]. [uuid_hex8] is [uuid.uuid4().hex[:8]]; the body is the
    returned [context_id]. Every exception is answered with 400. *)
Definition update_financial_context (L : Pydantic.lax) (now : datetime)
    (uuid_hex8 : string) (rag_agent : RAGAgent.t)
    (context_data : gmap string pyvalue) : reply string * RAGAgent.t :=
  let context_data :=
    match context_data !! "id" with
    | Some _ => context_data
    | None => <[ "id" := VStr ("ctx_" +:+ uuid_hex8) ]> context_data
    end in
  match context_data !! "company_id" with
  | None => (Failed 400 (ValueError "company_id is required"), rag_agent)
  | Some _ =>
      match FinancialContext.make L now context_data with
      | Raise e => (Failed 400 e, rag_agent)
      | Ok context =>
          (Reply (FinancialContext.id context),
           (RAGAgent.add_financial_context rag_agent context).2)
      end
  end.

(** [POST /scenario]: the body is the new [scenario_id]. *)
Definition create_scenario (now : datetime) (rag_agent : RAGAgent.t)
    (company_id : string) (changes : list (string * pyvalue))
    : reply string * RAGAgent.t :=
  let '(scenario_id, rag_agent) :=
    RAGAgent.create_scenario now rag_agent company_id changes in
  (Reply scenario_id, rag_agent).

(** The body of [GET /summary/{scenario_id}]. *)
Record summary_body : Type := {
  summary : string;
  scenario_id : string;
  company_id : string;
  created_at : datetime
}.

(** [GET /summary/{scenario_id}]: it runs [analyze_scenario] itself. *)
Definition get_analysis_summary (L : Pydantic.lax) (now : datetime)
    (o : generation) (rag_agent : RAGAgent.t) (scenario_id : string)
    : reply summary_body * RAGAgent.t :=
  match RAGAgent.analyze_scenario L now o rag_agent scenario_id with
  | (Ok analysis, rag_agent) =>
      (Reply {| summary := FinancialAnalysis.summary analysis;
                scenario_id := scenario_id;
                company_id := FinancialAnalysis.company_id analysis;
                created_at := FinancialAnalysis.created_at analysis |},
       rag_agent)
  | (Raise e, rag_agent) =>
      (Failed (if is_ValueError e then 404 else 500) e, rag_agent)
  end.

End Endpoints.

(** ** The retrieval index: [VectorStore] of [llm_rag_agent.py] *)

(** A row of the index. The rows are float32; every float32 is a binary64
    value. *)
Definition embedding : Type := list float.

(** [faiss.IndexFlatL2] is an external library. Its [search(x, k)] is taken
    through an interface: for one query it returns the [k] labels, nearest
    first, and pads with [-1] when the index holds fewer than [k] rows; its
    Python wrapper asserts [k > 0]. *)
Module Faiss.

Record engine : Type := {
  index_search : list embedding → embedding → Z → result (list Z)
}.

(** The documented contract of [search] for an index of [ntotal] rows. *)
Definition labels_ok (ntotal : nat) (k : Z) (labels : list Z) : Prop :=
  ∃ found : list Z,
    labels = found ++ replicate (Z.to_nat k - ntotal) (-1) ∧
    length found = (Z.to_nat k `min` ntotal)%nat ∧
    NoDup found ∧
    Forall (λ i, 0 ≤ i < Z.of_nat ntotal) found.

Definition contract (E : engine) : Prop :=
  ∀ rows query k,
    0 < k → ∃ labels, index_search E rows query k = Ok labels ∧
                       labels_ok (length rows) k labels.

(** A reference engine: exhaustive search by squared Euclidean distance,
    an earlier row winning a tie. *)
Definition l2_sqr (x y : embedding) : float :=
  foldl (λ acc p, (acc + (p.1 - p.2) * (p.1 - p.2))%float) 0%float (zip x y).

Fixpoint insert_by (d : float) (i : Z) (ranked : list (float * Z))
    : list (float * Z) :=
  match ranked with
  | [] => [(d, i)]
  | (d', i') :: rest =>
      if (d <? d')%float then (d, i) :: ranked
      else (d', i') :: insert_by d i rest
  end.

Definition ranked (rows : list embedding) (query : embedding) : list Z :=
  (foldl (λ acc p, insert_by (l2_sqr query p.2) (Z.of_nat p.1) acc) []
         (zip (seq 0 (length rows)) rows)).*2.

Definition flat_l2 : engine :=
  {| index_search := λ rows query k,
       if k <=? 0 then Raise AssertionError
       else
         let found := take (Z.to_nat k) (ranked rows query) in
         Ok (found ++ replicate (Z.to_nat k - length found) (-1)) |}.

End Faiss.

Module VectorStore.

(** A document is a [Dict[str, Any]]. *)
Definition document : Type := gmap string pyvalue.

Record t : Type := {
  dimension : Z;
  index : list embedding;
  documents : list document
}.

(** [__init__]. *)
Definition init (dimension : Z) : t :=
  {| dimension := dimension; index := []; documents := [] |}.

(** [l[idx]] on a Python list: a negative index counts from the end. *)
Definition list_getitem {A : Type} (l : list A) (idx : Z) : result A :=
  let i := if idx <? 0 then idx + Z.of_nat (length l) else idx in
  if i <? 0 then Raise IndexError
  else match l !! Z.to_nat i with
       | Some x => Ok x
       | None => Raise IndexError
       end.

(** [[f(x) for x in l]] where [f] may raise. *)
Fixpoint comprehension {A B : Type} (f : A → result B) (l : list A)
    : result (list B) :=
  match l with
  | [] => Ok []
  | x :: rest => y ← f x; ys ← comprehension f rest; Ok (y :: ys)
  end.

(** [add_documents]. [rand i] is row [i] of what [np.random.rand] draws. *)
Definition add_documents (rand : nat → embedding) (self : t)
    (new_documents : list document) : result t :=
  match new_documents with
  | [] => Ok self
  | _ =>
      texts ← comprehension (λ doc, Py.getitem doc "text") new_documents;
      let documents := documents self ++ new_documents in
      let embeddings := rand <$> seq 0 (length texts) in
      Ok {| dimension := dimension self;
            index := index self ++ embeddings;
            documents := documents |}
  end.

(** [search]. [query_embedding] is the row [np.random.rand] draws. *)
Definition search (E : Faiss.engine) (query_embedding : embedding)
    (self : t) (k : Z) : result (list document) :=
  match documents self with
  | [] => Ok []
  | _ =>
      indices ← Faiss.index_search E (index self) query_embedding k;
      comprehension (list_getitem (documents self))
        (filter (λ idx, idx < Z.of_nat (length (documents self))) indices)
  end.

End VectorStore.

(** ** The fallback figures of [analyze_pathway_scenario] in [main.py] *)

Module Pathway.

Record PathwayScenarioRequest : Type := {
  company_id : string;
  spending_change : float;
  pricing_change : float;
  hiring_count : Z;
  marketing_budget : float
}.

(** [new_revenue], [new_expenses] and [new_runway] over the fixed
    [base_data] (revenue 50000, expenses 35000, cash 200000). *)
Definition fallback_figures (request : PathwayScenarioRequest)
    : result (float * float * float) :=
  let new_revenue := (50000 * (1 + pricing_change request / 100))%float in
  hiring ← PyNum.float_of_int (hiring_count request * 8000);
  let new_expenses :=
    (35000 * (1 + spending_change request / 100) + hiring
       + marketing_budget request)%float in
  new_runway ←
    (if (0 <? new_expenses)%float
     then PyNum.float_truediv 200000 new_expenses
     else Ok infinity);
  Ok (new_revenue, new_expenses, new_runway).

End Pathway.

(** ** Concrete agents and stores used in the examples *)

Module Examples.

(** The context of [tests/test_rag_agent.py]. *)
Definition test_context : FinancialContext.t :=
  {| FinancialContext.id := "test_ctx_1";
     FinancialContext.company_id := "test_company_123";
     FinancialContext.current_cash := 1000000;
     FinancialContext.monthly_revenue := 500000;
     FinancialContext.monthly_expenses := 300000;
     FinancialContext.marketing_spend := 50000;
     FinancialContext.team_size := 10;
     FinancialContext.average_salary := 50000;
     FinancialContext.price_per_unit := 100;
     FinancialContext.units_sold := 5000;
     FinancialContext.runway_months := 5;
     FinancialContext.last_updated := Datetime 0;
     FinancialContext.metadata := [] |}.

(** The same company before its first sale. *)
Definition no_revenue_context : FinancialContext.t :=
  {| FinancialContext.id := "test_ctx_1";
     FinancialContext.company_id := "test_company_123";
     FinancialContext.current_cash := 1000000;
     FinancialContext.monthly_revenue := 0;
     FinancialContext.monthly_expenses := 300000;
     FinancialContext.marketing_spend := 50000;
     FinancialContext.team_size := 10;
     FinancialContext.average_salary := 50000;
     FinancialContext.price_per_unit := 100;
     FinancialContext.units_sold := 0;
     FinancialContext.runway_months := 5;
     FinancialContext.last_updated := Datetime 0;
     FinancialContext.metadata := [] |}.

(** An agent holding [context] and one scenario, [scenario_1], with
    [changes] for the same company. *)
Definition agent_with (context : FinancialContext.t)
    (changes : list (string * pyvalue)) : RAGAgent.t :=
  let a := (RAGAgent.add_financial_context RAGAgent.init context).2 in
  (RAGAgent.create_scenario (Datetime 1) a
     (FinancialContext.company_id context) changes).2.

(** An agent holding one scenario for a company that has no context. *)
Definition agent_without_context : RAGAgent.t :=
  (RAGAgent.create_scenario (Datetime 1) RAGAgent.init "nobody" []).2.

Definition doc (text : string) : VectorStore.document :=
  {[ "text" := VStr text ]}.

Definition doc_a : VectorStore.document :=
  doc "A company's runway is calculated as cash balance divided by monthly burn rate.".

Definition doc_b : VectorStore.document :=
  doc "Pricing strategy significantly impacts both revenue and customer acquisition costs.".

(** The rows drawn for the two documents, and the row drawn for a query. *)
Definition rows (i : nat) : embedding :=
  match i with
  | O => [0.25; 0.5]%float
  | _ => [0.75; 0.125]%float
  end.

Definition query_row : embedding := [0.5; 0.5]%float.

(** A two-dimensional store after one [add_documents] of two documents. *)
Definition store_of_two : result VectorStore.t :=
  VectorStore.add_documents rows (VectorStore.init 2) [doc_a; doc_b].

End Examples.

(** ** [OpenLLMRAGAgent.add_documents] and the seeded knowledge base *)

Module KnowledgeBase.

(** [doc['embedding'] = embedding] over [zip(documents, embeddings)]: the
    documents are dicts shared with the caller and are updated in place;
    [zip] stops at the shorter sequence. *)
Fixpoint set_embeddings (documents : list VectorStore.document)
    (embeddings : list embedding) : list VectorStore.document :=
  match documents, embeddings with
  | doc :: documents, e :: embeddings =>
      <[ "embedding" := VList (VFloat <$> e) ]> doc
        :: set_embeddings documents embeddings
  | _, _ => documents
  end.

(** [OpenLLMRAGAgent.add_documents]. [encode] is the sentence encoder, an
    external model; the agent's [vector_store] is threaded through. *)
Definition add_documents (encode : list pyvalue → list embedding)
    (rand : nat → embedding) (vector_store : VectorStore.t)
    (documents : list VectorStore.document) : result VectorStore.t :=
  texts ← VectorStore.comprehension (λ doc, Py.getitem doc "text") documents;
  let embeddings := encode texts in
  VectorStore.add_documents rand vector_store
    (set_embeddings documents embeddings).

(** The five documents of [RAGAgent._initialize_knowledge_base]. *)
Definition financial_knowledge : list VectorStore.document :=
  [ {[ "text" := VStr "A company's runway is calculated as cash balance divided by monthly burn rate." ]};
    {[ "text" := VStr "Increasing marketing spend typically leads to higher customer acquisition but reduces short-term profitability." ]};
    {[ "text" := VStr "Hiring more employees increases fixed costs but can drive revenue growth if managed properly." ]};
    {[ "text" := VStr "Reducing expenses improves short-term cash flow but may impact long-term growth if critical areas are cut." ]};
    {[ "text" := VStr "Pricing strategy significantly impacts both revenue and customer acquisition costs." ]} ].

(** [settings.VECTOR_STORE_DIMENSION] and [settings.SIMILARITY_TOP_K]. *)
Definition VECTOR_STORE_DIMENSION : Z := 384.
Definition SIMILARITY_TOP_K : Z := 3.

(** The vector store of a fresh [RAGAgent]. *)
Definition _initialize_knowledge_base (encode : list pyvalue → list embedding)
    (rand : nat → embedding) : result VectorStore.t :=
  add_documents encode rand (VectorStore.init VECTOR_STORE_DIMENSION)
    financial_knowledge.

(** The stores a program can hold: a fresh one after any successful
    [VectorStore.add_documents]. *)
Inductive reachable : VectorStore.t → Prop :=
| reachable_init (dimension : Z) : reachable (VectorStore.init dimension)
| reachable_add (rand : nat → embedding) (self self' : VectorStore.t)
    (documents : list VectorStore.document) :
    reachable self →
    VectorStore.add_documents rand self documents = Ok self' →
    reachable self'.

End KnowledgeBase.

(** ** The scenario and usage endpoints of [main.py] *)

Module Main.

(** The module-level [scenarios_db] and [usage_counter]. *)
Record server : Type := {
  scenarios_db : list Forecast.ScenarioResult;
  usage_counter : Z
}.

Definition start : server := {| scenarios_db := []; usage_counter := 0 |}.

(** [POST /api/scenarios/analyze]. *)
Definition analyze_scenario (now_id now_iso : string) (srv : server)
    (scenario : Forecast.ScenarioInput)
    : Endpoints.reply Forecast.ScenarioResult * server :=
  match Forecast.calculate_runway (usage_counter srv) now_id now_iso scenario with
  | (Ok result, usage_counter) =>
      (Endpoints.Reply result,
       {| scenarios_db := scenarios_db srv ++ [result];
          usage_counter := usage_counter |})
  | (Raise e, usage_counter) =>
      (Endpoints.Failed 400 e,
       {| scenarios_db := scenarios_db srv; usage_counter := usage_counter |})
  end.

(** The body of [GET /api/usage]. *)
Record usage : Type := {
  total_scenarios_run : Z;
  api_calls : Z;
  last_scenario_time : option string
}.

Definition get_usage (srv : server) : usage :=
  {| total_scenarios_run := Z.of_nat (length (scenarios_db srv));
     api_calls := usage_counter srv;
     last_scenario_time := Forecast.timestamp <$> last (scenarios_db srv) |}.

(** [POST /api/pathway/scenario] without Pathway: the figures of the reply
    and the counter. An exception of the figures escapes before the counter
    is touched. *)
Definition analyze_pathway_scenario (srv : server)
    (request : Pathway.PathwayScenarioRequest)
    : result (float * float * float) * server :=
  match Pathway.fallback_figures request with
  | Ok figures =>
      (Ok figures,
       {| scenarios_db := scenarios_db srv;
          usage_counter := usage_counter srv + 1 |})
  | Raise e => (Raise e, srv)
  end.

(** One request to the server. *)
Inductive request : Type :=
| AnalyzeScenario (now_id now_iso : string) (scenario : Forecast.ScenarioInput)
| AnalyzePathwayScenario (r : Pathway.PathwayScenarioRequest)
| GetUsage.

Definition handle (srv : server) (r : request) : server :=
  match r with
  | AnalyzeScenario now_id now_iso scenario =>
      (analyze_scenario now_id now_iso srv scenario).2
  | AnalyzePathwayScenario r => (analyze_pathway_scenario srv r).2
  | GetUsage => srv
  end.

(** What [FileProcessor.process_upload] returns for one file: the dict of
    [_dataframe_to_dict]. *)
Record table : Type := {
  columns : list (string * string);
  data : list (list (string * pyvalue));
  stats : gmap string (gmap string float);
  total_rows : Z
}.

(** The body of [POST /api/analyze]. *)
Record combined : Type := {
  message : string;
  combined_total_rows : Z;
  combined_columns : list (string * string);
  combined_stats : gmap string (gmap string float);
  combined_data : list (list (string * pyvalue))
}.

(** [POST /api/analyze]. Each file comes with the outcome of
    [process_upload]: its table, or [None] when it raised (the file is
    skipped). A column's statistics are taken from the first file that has
    them. *)
Definition analyze_files (files : list (string * option table))
    : Endpoints.reply combined :=
  match files with
  | [] => Endpoints.Refused 400 "No files provided"
  | _ =>
      let processed_data := omap snd files in
      match processed_data with
      | [] =>
          Endpoints.Refused 400 "Could not process any of the provided files"
      | first :: _ =>
          let data := foldl (λ acc item, acc ++ data item) [] processed_data in
          let stats :=
            foldl (λ acc item, acc ∪ stats item) ∅ processed_data in
          Endpoints.Reply
            {| message := "Analyzed data from "
                            +:+ pretty (Z.of_nat (length processed_data))
                            +:+ " files";
               combined_total_rows := Z.of_nat (length data);
               combined_columns := columns first;
               combined_stats := stats;
               combined_data := data |}
      end
  end.

End Main.

(** ** The real-time insights of [pathway_realtime.py] *)

Module Realtime.

(** [d.get(key, default)]. *)
Definition get (d : gmap string pyvalue) (key : string) (dflt : pyvalue)
    : pyvalue :=
  default dflt (d !! key).

(** A comparison of a value with an int literal: [on_int] decides it for an
    int or a bool and [on_float] for a float (the literals of this module
    are floats exactly); a value of any other type raises [TypeError]. *)
Definition compare (v : pyvalue) (on_int : Z → bool) (on_float : float → bool)
    : result bool :=
  match v with
  | VBool b => Ok (on_int (Z.b2z b))
  | VInt z => Ok (on_int z)
  | VFloat f => Ok (on_float f)
  | _ => Raise TypeError
  end.

(** [v == "literal"]. *)
Definition is_str (v : pyvalue) (literal : string) : bool :=
  match v with
  | VStr s => bool_decide (s = literal)
  | _ => false
  end.

(** The number that the format specification [.1f] prints for [v]. *)
Definition format_f (v : pyvalue) : result float :=
  match v with
  | VFloat f => Ok f
  | VBool b => PyNum.float_of_int (Z.b2z b)
  | VInt z => PyNum.float_of_int z
  | VStr _ => Raise (ValueError "Unknown format code 'f' for object of type 'str'")
  | _ => Raise TypeError
  end.

(** [abs(v)]. *)
Definition abs (v : pyvalue) : result pyvalue :=
  match v with
  | VFloat f => Ok (VFloat (PrimFloat.abs f))
  | VBool b => Ok (VInt (Z.b2z b))
  | VInt z => Ok (VInt (Z.abs z))
  | _ => Raise TypeError
  end.

(** [min(100, max(0, (runway / 18) * 100))]: [max] and [min] keep their
    first argument unless the second is strictly greater, respectively
    strictly smaller. *)
Definition health_score (runway : pyvalue) : result pyvalue :=
  ratio ← match runway with
          | VFloat f => Ok (f / 18)%float
          | VBool b => PyNum.int_truediv (Z.b2z b) 18
          | VInt z => PyNum.int_truediv z 18
          | _ => Raise TypeError
          end;
  let x := (ratio * 100)%float in
  let inner := if (0 <? x)%float then VFloat x else VInt 0 in
  Ok match inner with
     | VFloat y => if (y <? 100)%float then VFloat y else VInt 100
     | v => v
     end.

Record health : Type := {
  status : string;
  runway_months : pyvalue;
  burn_rate : pyvalue;
  growth_rate : pyvalue;
  score : pyvalue
}.

(** [_assess_financial_health], on [financial_data.get("key_metrics", {})]. *)
Definition _assess_financial_health (key_metrics : gmap string pyvalue)
    : result health :=
  let runway := get key_metrics "runway_months" (VInt 0) in
  let burn_rate := get key_metrics "burn_rate" (VInt 0) in
  let growth_rate := get key_metrics "growth_rate" (VInt 0) in
  health_status ←
    (above_18 ← compare runway (λ z, 18 <? z) (λ f, 18 <? f)%float;
     if (above_18 : bool) then Ok "excellent"%string
     else
       above_12 ← compare runway (λ z, 12 <? z) (λ f, 12 <? f)%float;
       if (above_12 : bool) then Ok "good"%string
       else
         above_6 ← compare runway (λ z, 6 <? z) (λ f, 6 <? f)%float;
         Ok (if (above_6 : bool) then "concerning" else "critical")%string);
  score ← health_score runway;
  Ok {| status := health_status; runway_months := runway;
        burn_rate := burn_rate; growth_rate := growth_rate; score := score |}.

Definition standing_recommendations : list string :=
  [ "Monitor real-time metrics for early warning signs";
    "Adjust forecasts based on live market data";
    "Consider scenario planning for different market conditions" ].

(** [_generate_combined_recommendations], on
    [financial_data.get("key_metrics", {})] and
    [market_data.get("indicators", {})]. *)
Definition _generate_combined_recommendations
    (key_metrics indicators : gmap string pyvalue) : result (list string) :=
  let runway := get key_metrics "runway_months" (VInt 0) in
  let sentiment := get indicators "market_sentiment" (VStr "neutral") in
  below_12 ← compare runway (λ z, z <? 12) (λ f, f <? 12)%float;
  situation ←
    (if below_12 && is_str sentiment "bearish" then
       Ok ["Consider aggressive cost reduction due to low runway and poor market conditions"]
     else
       above_18 ← compare runway (λ z, 18 <? z) (λ f, 18 <? f)%float;
       Ok (if above_18 && is_str sentiment "bullish"
           then ["Good time to consider strategic investments or expansion"]
           else []));
  declining ←
    compare (get key_metrics "growth_rate" (VInt 0))
      (λ z, z <? 0) (λ f, f <? 0)%float;
  let recommendations :=
    situation
      ++ (if (declining : bool) then ["Focus on revenue recovery strategies"] else [])
      ++ standing_recommendations in
  Ok (take 5 recommendations).

(** The text of an alert, with the number its f-string prints to one
    decimal place. *)
Inductive message : Type :=
| OnlyMonthsRemaining (runway : float)   (* "Critical: Only {runway:.1f} months of runway remaining" *)
| MonthsRemaining (runway : float)       (* "Warning: {runway:.1f} months of runway remaining" *)
| RevenueDeclining (percent : float).    (* "Revenue declining by {abs(growth_rate):.1f}%" *)

Record alert : Type := {
  level : string;
  alert_message : message;
  action : string
}.

(** [_generate_alerts], on [financial_data.get("key_metrics", {})];
    [market_data] is not read. *)
Definition _generate_alerts (key_metrics : gmap string pyvalue)
    : result (list alert) :=
  let runway := get key_metrics "runway_months" (VInt 0) in
  below_6 ← compare runway (λ z, z <? 6) (λ f, f <? 6)%float;
  runway_alerts ←
    (if (below_6 : bool) then
       shown ← format_f runway;
       Ok [ {| level := "critical"; alert_message := OnlyMonthsRemaining shown;
               action := "Immediate action required" |} ]
     else
       below_12 ← compare runway (λ z, z <? 12) (λ f, f <? 12)%float;
       if (below_12 : bool) then
         shown ← format_f runway;
         Ok [ {| level := "warning"; alert_message := MonthsRemaining shown;
                 action := "Consider cost optimization" |} ]
       else Ok []);
  let growth_rate := get key_metrics "growth_rate" (VInt 0) in
  falling ← compare growth_rate (λ z, z <? -10) (λ f, f <? -10)%float;
  growth_alerts ←
    (if (falling : bool) then
       shown ← abs growth_rate ≫= format_f;
       Ok [ {| level := "warning"; alert_message := RevenueDeclining shown;
               action := "Review revenue strategies" |} ]
     else Ok []);
  Ok (runway_alerts ++ growth_alerts).

(** The random draws of one call of [get_latest_insights]. *)
Record draws : Type := {
  market_volatility : float;     (* random.uniform(0.95, 1.05) *)
  expenses_factor : float;       (* random.uniform(0.98, 1.02) *)
  cash_offset : float;           (* random.uniform(-10000, 10000) *)
  runway_factor : float;         (* random.uniform(0.98, 1.02) *)
  sentiment : string;            (* random.choice([...]) *)
  interest_rates : float         (* random.uniform(3.0, 7.0) *)
}.

Record insights : Type := {
  company_id : string;
  timestamp : string;
  financial_snapshot : gmap string pyvalue;
  market_conditions : gmap string pyvalue;
  insights_health_score : pyvalue;
  recommendations : list string;
  alerts : list alert;
  pathway_powered : bool
}.

(** [get_latest_insights]: the snapshot dicts stand in for the
    ["key_metrics"] and ["indicators"] of the two helpers. *)
Definition get_latest_insights (now_iso : string) (d : draws)
    (company_id : string) : result insights :=
  runway ← PyNum.float_truediv 200000 (35000 * runway_factor d)%float;
  let financial_data : gmap string pyvalue :=
    <[ "monthly_revenue" := VFloat (50000 * market_volatility d)%float ]>
    (<[ "monthly_expenses" := VFloat (35000 * expenses_factor d)%float ]>
    (<[ "cash_balance" := VFloat (200000 + cash_offset d)%float ]>
    (<[ "runway_months" := VFloat runway ]>
    (<[ "last_updated" := VStr now_iso ]> ∅)))) in
  let market_data : gmap string pyvalue :=
    <[ "sentiment" := VStr (sentiment d) ]>
    (<[ "volatility" := VFloat (market_volatility d) ]>
    (<[ "interest_rates" := VFloat (interest_rates d) ]>
    (<[ "last_updated" := VStr now_iso ]> ∅))) in
  health_score ← health_score (VFloat runway);
  recommendations ← _generate_combined_recommendations financial_data market_data;
  alerts ← _generate_alerts financial_data;
  Ok {| company_id := company_id; timestamp := now_iso;
        financial_snapshot := financial_data;
        market_conditions := market_data;
        insights_health_score := health_score;
        recommendations := recommendations;
        alerts := alerts;
        pathway_powered := true |}.

(** A score between 0 and 100: the int 0, the int 100, or a float strictly
    between them. *)
Definition score_in_range (score : pyvalue) : Prop :=
  score = VInt 0 ∨ score = VInt 100 ∨
  ∃ x, score = VFloat x ∧ (0 <? x)%float = true ∧ (x <? 100)%float = true.

End Realtime.

(** ** The figures of [PathwayFinancialProcessor.analyze_scenario] *)

Module PathwayProcessor.

(** The float literal [0.1]. *)
Definition one_tenth : float := 0x1.999999999999ap-4.

Record figures : Type := {
  new_revenue : float;
  new_expenses : float;
  marketing_roi : float;
  net_change : float;
  current_runway : float;
  projected_runway : float
}.

(** The arithmetic of [analyze_scenario] in [pathway_integration.py], up to
    the LLM call, on the data [main.py] passes: the three base figures are
    ints and the scenario parameters are the fields of the request. The
    function catches an exception raised here and returns an error dict. *)
Definition scenario_figures (base_revenue base_expenses base_cash : Z)
    (request : Pathway.PathwayScenarioRequest) : result figures :=
  let revenue_change := (Pathway.pricing_change request / 100)%float in
  let expense_change := (Pathway.spending_change request / 100)%float in
  let hiring_cost := Pathway.hiring_count request * 8000 in
  let marketing_spend := Pathway.marketing_budget request in
  revenue ← PyNum.float_of_int base_revenue;
  let new_revenue := (revenue * (1 + revenue_change))%float in
  expenses ← PyNum.float_of_int base_expenses;
  hiring ← PyNum.float_of_int hiring_cost;
  let new_expenses :=
    (expenses * (1 + expense_change) + hiring + marketing_spend)%float in
  let marketing_roi := (marketing_spend * one_tenth)%float in
  let new_revenue := (new_revenue + marketing_roi)%float in
  base_profit ← PyNum.float_of_int (base_revenue - base_expenses);
  let net_change := (new_revenue - new_expenses - base_profit)%float in
  current_runway ←
    (if 0 <? base_expenses
     then PyNum.int_truediv base_cash base_expenses
     else Ok infinity);
  projected_runway ←
    (if (0 <? new_expenses)%float
     then cash ← PyNum.float_of_int base_cash;
          PyNum.float_truediv cash new_expenses
     else Ok infinity);
  Ok {| new_revenue := new_revenue; new_expenses := new_expenses;
        marketing_roi := marketing_roi; net_change := net_change;
        current_runway := current_runway;
        projected_runway := projected_runway |}.

End PathwayProcessor.

(** ** Vocabulary of the properties *)


(** Every key of the analysis store is [analysis_n] for some [n] between 1
    and the number of stored analyses. *)
Definition analysis_ids_in_sequence (self : RAGAgent.t) : Prop :=
  ∀ k, is_Some (RAGAgent.analysis_store self !! k) →
       ∃ n, 1 ≤ n ≤ Z.of_nat (size (RAGAgent.analysis_store self)) ∧
            k = "analysis_" +:+ pretty n.

(** Every key of the scenario store is [scenario_n] for some [n] between 1
    and the number of stored scenarios. *)
Definition scenario_ids_in_sequence (self : RAGAgent.t) : Prop :=
  ∀ k, is_Some (RAGAgent.scenario_store self !! k) →
       ∃ n, 1 ≤ n ≤ Z.of_nat (size (RAGAgent.scenario_store self)) ∧
            k = "scenario_" +:+ pretty n.

(** * Properties *)

(** ** Facts about Python numbers *)

(** A strictly positive float is not [<= 0]: the two tests of the forecast
    loop exclude each other. *)
Lemma ltb_0_not_leb_0 (b : float) :
  PrimFloat.ltb 0 b = true → PrimFloat.leb b 0 = false.
Proof.
  rewrite ltb_spec, leb_spec.
  replace (Prim2SF 0) with (S754_zero false) by reflexivity.
  destruct (Prim2SF b) as [s|s| |s m e]; try destruct s; cbn; congruence.
Qed.


(** ** The forecast loop *)

Section forecast_loop.
Import Forecast.
Variable s : ScenarioInput.
Variable hires : float.

Let net := net_of s hires.
Let cash := current_cash s.
Let run := for_months s (adjusted_revenue_of s) (hires * salary_per_hire s)%float.

Lemma body_entry (j : nat) (st : locals) :
  current_balance st = balance_at cash net j →
  body s (adjusted_revenue_of s) (hires * salary_per_hire s)%float
       (Z.of_nat (S j)) st
  = {| monthly_data := monthly_data st ++ [entry_at s hires (S j)];
       current_balance := balance_at cash net (S j);
       months_of_runway :=
         if (0 <? balance_at cash net (S j))%float
         then Z.of_nat (S j) else months_of_runway st |}.
Proof.
  intros Hb. unfold body, entry_at. cbn [balance_at].
  fold net cash. unfold net at 2 3, net_of. rewrite Hb. reflexivity.
Qed.

(** What the loop does from month [j + 1] on, over [n] more months: it runs
    [m - j] months, stops at the first month whose balance is [<= 0], and
    records the last month whose balance was positive. *)
Lemma for_months_spec (n j : nat) (st : locals) :
  current_balance st = balance_at cash net j →
  ∃ m : nat,
    (j ≤ m ≤ j + n)%nat ∧
    monthly_data (run (Z.of_nat <$> seq (S j) n) st)
      = monthly_data st ++ (entry_at s hires <$> seq (S j) (m - j)) ∧
    current_balance (run (Z.of_nat <$> seq (S j) n) st) = balance_at cash net m ∧
    (∀ k, (j < k < m)%nat → (balance_at cash net k <=? 0)%float = false) ∧
    ((m < j + n)%nat → (j < m)%nat ∧ (balance_at cash net m <=? 0)%float = true) ∧
    ((∀ k, (j < k ≤ m)%nat → (0 <? balance_at cash net k)%float = false) →
       months_of_runway (run (Z.of_nat <$> seq (S j) n) st) = months_of_runway st) ∧
    (∀ k, (j < k ≤ m)%nat → (0 <? balance_at cash net k)%float = true →
       (∀ k', (k < k' ≤ m)%nat → (0 <? balance_at cash net k')%float = false) →
       months_of_runway (run (Z.of_nat <$> seq (S j) n) st) = Z.of_nat k).
Proof.
  revert j st. induction n as [|n IH]; intros j st Hb.
  - exists j. cbn. rewrite Nat.sub_diag, app_nil_r.
    split; [lia|]. split; [done|]. split; [done|].
    split; [intros; lia|]. split; [intros; lia|].
    split; [done|]. intros; lia.
  - cbn [seq fmap list_fmap]. unfold run. cbn [for_months]. fold run.
    rewrite (body_entry j st Hb). cbn [current_balance].
    destruct (balance_at cash net (S j) <=? 0)%float eqn:Hle.
    + exists (S j). cbn [monthly_data current_balance months_of_runway].
      replace (S j - j)%nat with 1%nat by lia. cbn [seq fmap list_fmap].
      split; [lia|]. split; [done|]. split; [done|].
      split; [intros; lia|]. split; [intros; split; [lia|done]|].
      split.
      * intros Hall. rewrite Hall by lia. reflexivity.
      * intros k Hk Hpos Hlater. assert (k = S j) as -> by lia.
        rewrite Hpos. reflexivity.
    + set (st1 := {| monthly_data := _ |}).
      destruct (IH (S j) st1 eq_refl)
        as (m & Hm & Hdata & Hbal & Hbefore & Hstop & Hnone & Hlast).
      exists m. rewrite Hdata, Hbal. subst st1.
      cbn [monthly_data months_of_runway] in *.
      split; [lia|]. split.
      { rewrite <- app_assoc. f_equal.
        replace (m - j)%nat with (S (m - S j)) by lia. reflexivity. }
      split; [done|]. split.
      { intros k Hk. destruct (decide (k = S j)) as [->|]; [assumption|].
        apply Hbefore. lia. }
      split.
      { intros Hlt. destruct Hstop as [? ?]; [lia|]. split; [lia|done]. }
      split.
      * intros Hall. rewrite Hnone by (intros; apply Hall; lia).
        rewrite Hall by lia. reflexivity.
      * intros k Hk Hpos Hlater. destruct (decide (k = S j)) as [->|].
        -- rewrite Hnone by (intros; apply Hlater; lia). rewrite Hpos. reflexivity.
        -- apply Hlast; auto. lia.
Qed.

End forecast_loop.

Lemma range_from_1 (N : Z) :
  Forecast.range 1 (N + 1) = Z.of_nat <$> seq 1 (Z.to_nat N).
Proof.
  unfold Forecast.range, seqZ. replace (N + 1 - 1) with N by lia.
  rewrite <- fmap_S_seq, <- list_fmap_compose.
  apply list_fmap_ext. intros _ i _. cbn. lia.
Qed.

(** [calculate_runway] either fails converting the hire count, or returns
    what the loop computed over months [1..N]. *)
Lemma calculate_runway_unfold (c : Z) (now_id now_iso : string)
    (s : Forecast.ScenarioInput) :
  Forecast.calculate_runway c now_id now_iso s =
    (match PyNum.float_of_int (Forecast.new_hires s) with
     | Raise e => Raise e
     | Ok hires =>
         let st :=
           Forecast.for_months s (Forecast.adjusted_revenue_of s)
             (hires * Forecast.salary_per_hire s)%float
             (Z.of_nat <$> seq 1 (Z.to_nat (Forecast.months_to_forecast s)))
             {| Forecast.monthly_data := [];
                Forecast.current_balance := Forecast.current_cash s;
                Forecast.months_of_runway := 0 |} in
         Ok {| Forecast.scenario_id := "scn_" +:+ now_id;
               Forecast.timestamp := now_iso;
               Forecast.input := s;
               Forecast.monthly_forecast := Forecast.monthly_data st;
               Forecast.total_months_of_runway := Forecast.months_of_runway st;
               Forecast.final_cash_balance := Forecast.current_balance st |}
     end, c + 1).
Proof.
  unfold Forecast.calculate_runway. rewrite range_from_1.
  destruct (PyNum.float_of_int (Forecast.new_hires s)); reflexivity.
Qed.

(** The only exception [float_of_int] raises is [OverflowError]. *)
Lemma float_of_int_raise (z : Z) (e : exn) :
  PyNum.float_of_int z = Raise e → e = OverflowError.
Proof.
  unfold PyNum.float_of_int.
  destruct (binary_normalize prec emax z 0 false); congruence.
Qed.

(** Claim C2, as the code has it. On the worked example (cash 10000, revenue
    5000, expenses 6000, horizon 12) the balance falls by exactly 1000 a
    month, the loop stops at month 10 with balance 0, the forecast has 10
    entries and the runway is 9 months. In general the call either raises
    [OverflowError] on the hire count or returns the entries of months
    [1..m], where [m <= N] is the first month whose balance is [<= 0] when
    there is one among [1..N] and [N] otherwise; the sequence is shorter
    than [N] exactly when that first month lies strictly before [N]. *)
Theorem C2_forecast_stops_at_first_insolvent_month
    (c : Z) (now_id now_iso : string) :
  (∃ r,
     Forecast.calculate_runway c now_id now_iso (Forecast.example_deficit 12)
       = (Ok r, c + 1) ∧
     (Forecast.month <$> Forecast.monthly_forecast r) = [1; 2; 3; 4; 5; 6; 7; 8; 9; 10] ∧
     (Forecast.balance <$> Forecast.monthly_forecast r)
       = [9000; 8000; 7000; 6000; 5000; 4000; 3000; 2000; 1000; 0]%float ∧
     (Forecast.net_income <$> Forecast.monthly_forecast r)
       = replicate 10 (-1000)%float ∧
     length (Forecast.monthly_forecast r) = 10%nat ∧
     Forecast.total_months_of_runway r = 9 ∧
     Forecast.final_cash_balance r = 0%float) ∧
  (∀ s : Forecast.ScenarioInput,
     match (Forecast.calculate_runway c now_id now_iso s).1 with
     | Raise e =>
         e = OverflowError ∧
         PyNum.float_of_int (Forecast.new_hires s) = Raise OverflowError
     | Ok r =>
         ∃ (hires : float) (m : nat),
           let bal := Forecast.balance_at (Forecast.current_cash s)
                        (Forecast.net_of s hires) in
           PyNum.float_of_int (Forecast.new_hires s) = Ok hires ∧
           Forecast.monthly_forecast r = Forecast.entry_at s hires <$> seq 1 m ∧
           length (Forecast.monthly_forecast r) = m ∧
           Forecast.final_cash_balance r = bal m ∧
           (m ≤ Z.to_nat (Forecast.months_to_forecast s))%nat ∧
           (∀ k, (0 < k < m)%nat → (bal k <=? 0)%float = false) ∧
           ((m < Z.to_nat (Forecast.months_to_forecast s))%nat ↔
              ∃ k, (0 < k < Z.to_nat (Forecast.months_to_forecast s))%nat ∧
                   (bal k <=? 0)%float = true) ∧
           ((m < Z.to_nat (Forecast.months_to_forecast s))%nat →
              (0 < m)%nat ∧ (bal m <=? 0)%float = true)
     end).
Proof.
  split.
  - eexists. split; [vm_compute; reflexivity|]. vm_compute. done.
  - intros s. rewrite calculate_runway_unfold. cbn [fst].
    destruct (PyNum.float_of_int (Forecast.new_hires s)) as [hires|e] eqn:Hh.
    + destruct (for_months_spec s hires (Z.to_nat (Forecast.months_to_forecast s)) 0
                  {| Forecast.monthly_data := [];
                     Forecast.current_balance := Forecast.current_cash s;
                     Forecast.months_of_runway := 0 |} eq_refl)
        as (m & Hm & Hdata & Hbal & Hbefore & Hstop & _ & _).
      exists hires, m. cbn zeta. cbn [Forecast.monthly_forecast Forecast.final_cash_balance].
      rewrite Hdata, Hbal, Nat.sub_0_r. cbn [Forecast.monthly_data app].
      split; [done|]. split; [done|].
      split; [by rewrite length_fmap, length_seq|].
      split; [done|]. split; [lia|]. split; [exact Hbefore|].
      split; [|intros; apply Hstop; lia].
      split.
      * intros Hlt. exists m. destruct Hstop as [? ?]; [lia|]. split; [lia|done].
      * intros (k & Hk & Hle). destruct (decide (m ≤ k)%nat); [lia|].
        rewrite Hbefore in Hle by lia. discriminate.
    + split; [|f_equal]; eapply float_of_int_raise; eassumption.
Qed.

(** Claim C2 as stated fails at the horizon itself: with the worked example's
    figures and horizon 10 the loop stops at month 10, the first month whose
    balance is [<= 0], and the forecast is not shorter than the horizon. *)
Lemma C2_counterexample_insolvent_in_last_month :
  ∃ r,
    (Forecast.calculate_runway 0 "" "" (Forecast.example_deficit 10)).1 = Ok r ∧
    Forecast.months_to_forecast (Forecast.example_deficit 10) = 10 ∧
    (Forecast.balance <$> last (Forecast.monthly_forecast r)) = Some 0%float ∧
    (0 <=? 0)%float = true ∧
    ¬ (Z.of_nat (length (Forecast.monthly_forecast r))
         < Forecast.months_to_forecast (Forecast.example_deficit 10)).
Proof.
  eexists. split; [vm_compute; reflexivity|].
  vm_compute. repeat split; congruence.
Qed.

(** A horizon of zero or fewer months runs no month at all: the forecast is
    empty and the runway count is 0. *)
Lemma calculate_runway_no_months (c : Z) (now_id now_iso : string)
    (s : Forecast.ScenarioInput) (r : Forecast.ScenarioResult) :
  Forecast.months_to_forecast s ≤ 0 →
  (Forecast.calculate_runway c now_id now_iso s).1 = Ok r →
  Forecast.monthly_forecast r = [] ∧
  Forecast.total_months_of_runway r = 0 ∧
  Forecast.final_cash_balance r = Forecast.current_cash s.
Proof.
  intros HN. rewrite calculate_runway_unfold. cbn [fst].
  destruct (PyNum.float_of_int (Forecast.new_hires s)); [|done].
  replace (Z.to_nat (Forecast.months_to_forecast s)) with 0%nat by lia.
  by intros [= <-].
Qed.

(** Claim C6. On the worked example (cash 1000, revenue 8000, expenses 5000,
    horizon 6) the forecast has 6 entries, none insolvent, the runway is 6
    months and the final balance is 19000. In general, for a horizon
    [N >= 0], when the running balance is positive in every month [1..N] the
    call returns, the loop runs all [N] months and the runway count is [N]. *)
Theorem C6_forecast_runs_to_completion (c : Z) (now_id now_iso : string) :
  (∃ r,
     Forecast.calculate_runway c now_id now_iso Forecast.example_surplus
       = (Ok r, c + 1) ∧
     length (Forecast.monthly_forecast r) = 6%nat ∧
     Forecast.total_months_of_runway r = 6 ∧
     Forecast.final_cash_balance r = 19000%float ∧
     (Forecast.balance <$> Forecast.monthly_forecast r)
       = [4000; 7000; 10000; 13000; 16000; 19000]%float) ∧
  (∀ (s : Forecast.ScenarioInput) (hires : float),
     let bal := Forecast.balance_at (Forecast.current_cash s)
                  (Forecast.net_of s hires) in
     let N := Forecast.months_to_forecast s in
     PyNum.float_of_int (Forecast.new_hires s) = Ok hires →
     0 ≤ N →
     (∀ k, (1 ≤ k ≤ Z.to_nat N)%nat → (0 <? bal k)%float = true) →
     ∃ r,
       Forecast.calculate_runway c now_id now_iso s = (Ok r, c + 1) ∧
       Forecast.total_months_of_runway r = N ∧
       Z.of_nat (length (Forecast.monthly_forecast r)) = N ∧
       Forecast.monthly_forecast r
         = Forecast.entry_at s hires <$> seq 1 (Z.to_nat N) ∧
       Forecast.final_cash_balance r = bal (Z.to_nat N)).
Proof.
  split.
  - eexists. split; [vm_compute; reflexivity|]. vm_compute. done.
  - intros s hires bal N Hh HN Hpos. rewrite calculate_runway_unfold, Hh.
    eexists. split; [reflexivity|].
    cbn [Forecast.total_months_of_runway Forecast.monthly_forecast
         Forecast.final_cash_balance].
    destruct (for_months_spec s hires (Z.to_nat N) 0
                {| Forecast.monthly_data := [];
                   Forecast.current_balance := Forecast.current_cash s;
                   Forecast.months_of_runway := 0 |} eq_refl)
      as (m & Hm & Hdata & Hbal & _ & Hstop & Hnone & Hlast).
    fold N. rewrite Hdata, Hbal, Nat.sub_0_r. cbn [Forecast.monthly_data app].
    assert (m = Z.to_nat N) as ->.
    { destruct (decide (m < 0 + Z.to_nat N)%nat) as [Hlt|]; [|lia].
      destruct (Hstop Hlt) as [H0 Hle].
      pose proof (ltb_0_not_leb_0 _ (Hpos m ltac:(lia))) as Hx.
      unfold bal in Hx. congruence. }
    split; [|split; [rewrite length_fmap, length_seq; lia|done]].
    destruct (decide (Z.to_nat N = 0)%nat) as [Hz|Hnz].
    + rewrite Hnone by (intros; lia). cbn. lia.
    + rewrite (Hlast (Z.to_nat N)); [lia|lia|apply Hpos; lia|intros; lia].
Qed.

(** An instance of the general part of claim C6: the worked example itself,
    whose six balances are all positive. *)
Lemma C6_forecast_runs_to_completion_witness :
  PyNum.float_of_int (Forecast.new_hires Forecast.example_surplus) = Ok 0%float ∧
  0 ≤ Forecast.months_to_forecast Forecast.example_surplus ∧
  ∃ r,
    Forecast.calculate_runway 0 "" "" Forecast.example_surplus = (Ok r, 0 + 1) ∧
    Forecast.total_months_of_runway r
      = Forecast.months_to_forecast Forecast.example_surplus ∧
    Z.of_nat (length (Forecast.monthly_forecast r))
      = Forecast.months_to_forecast Forecast.example_surplus.
Proof.
  assert (∀ k, (1 ≤ k ≤ Z.to_nat (Forecast.months_to_forecast Forecast.example_surplus))%nat →
               (0 <? Forecast.balance_at
                       (Forecast.current_cash Forecast.example_surplus)
                       (Forecast.net_of Forecast.example_surplus 0) k)%float = true)
    as Hpos.
  { intros k Hk. cbn in Hk.
    destruct k as [|[|[|[|[|[|[|k]]]]]]]; try lia; vm_compute; reflexivity. }
  split; [reflexivity|]. split; [cbn; lia|].
  destruct (proj2 (C6_forecast_runs_to_completion 0 "" "")
              Forecast.example_surplus 0%float eq_refl ltac:(cbn; lia) Hpos)
    as (r & Hrun & Hrunway & Hlen & _).
  exists r. split; [exact Hrun|]. split; [exact Hrunway|exact Hlen].
Defined.

(** ** [analyze_scenario]: what a returned analysis consists of *)

Lemma analyze_scenario_inv (L : Pydantic.lax) (now : datetime) (o : generation)
    (self self' : RAGAgent.t) (scenario_id : string) (a : FinancialAnalysis.t) :
  RAGAgent.analyze_scenario L now o self scenario_id = (Ok a, self') →
  ∃ scenario context updated_data summary,
    RAGAgent.scenario_store self !! scenario_id = Some scenario ∧
    RAGAgent.context_store self !! UserScenario.company_id scenario = Some context ∧
    RAGAgent.apply_changes (FinancialContext.dict context)
      (UserScenario.changes scenario) = Ok updated_data ∧
    FinancialContext.validate L now updated_data
      = Some (FinancialAnalysis.updated_context a) ∧
    RAGAgent._generate_summary context (FinancialAnalysis.updated_context a)
      (RAGAgent._calculate_impact context (FinancialAnalysis.updated_context a)) o
      = Ok summary ∧
    a = {| FinancialAnalysis.analysis_id :=
             "analysis_" +:+
               pretty (Z.of_nat (size (RAGAgent.analysis_store self)) + 1);
           FinancialAnalysis.scenario_id := scenario_id;
           FinancialAnalysis.company_id := UserScenario.company_id scenario;
           FinancialAnalysis.original_context := context;
           FinancialAnalysis.updated_context := FinancialAnalysis.updated_context a;
           FinancialAnalysis.impact_analysis :=
             RAGAgent._calculate_impact context (FinancialAnalysis.updated_context a);
           FinancialAnalysis.summary := summary;
           FinancialAnalysis.created_at := now |} ∧
    self' = {| RAGAgent.context_store := RAGAgent.context_store self;
               RAGAgent.scenario_store := RAGAgent.scenario_store self;
               RAGAgent.analysis_store :=
                 <[ FinancialAnalysis.analysis_id a := a ]>
                   (RAGAgent.analysis_store self) |}.
Proof.
  unfold RAGAgent.analyze_scenario, RAGAgent.get_financial_context.
  destruct (RAGAgent.scenario_store self !! scenario_id) as [scenario|] eqn:Hs;
    [|discriminate].
  destruct (RAGAgent.context_store self !! UserScenario.company_id scenario)
    as [context|] eqn:Hc; [|discriminate].
  destruct (RAGAgent.apply_changes _ _) as [updated_data|e] eqn:Hmerge;
    cbn [mbind result_bind]; [|discriminate].
  unfold FinancialContext.make.
  destruct (FinancialContext.validate L now updated_data) as [updated|] eqn:Hval;
    cbn [mbind result_bind]; [|discriminate].
  destruct (RAGAgent._generate_summary context updated _ o) as [summary|e] eqn:Hsum;
    cbn [mbind result_bind]; [|discriminate].
  intros [= <- <-]. exists scenario, context, updated_data, summary.
  cbn [FinancialAnalysis.updated_context FinancialAnalysis.analysis_id].
  repeat split; first [assumption | reflexivity].
Qed.

(** ** The impact calculator *)

(** Claim C5: the five entries of the impact delta. Profit impact is
    [(updated.revenue - updated.expenses) - (original.revenue -
    original.expenses)]; the other four are [updated.field - original.field].
    Every analysis [analyze_scenario] returns carries this delta for its
    own two contexts. *)
Theorem C5_impact_delta (original updated : FinancialContext.t) :
  let impact := RAGAgent._calculate_impact original updated in
  (impact !! "profit_impact"
     = Some ((FinancialContext.monthly_revenue updated
                - FinancialContext.monthly_expenses updated)
             - (FinancialContext.monthly_revenue original
                  - FinancialContext.monthly_expenses original))%float ∧
   impact !! "revenue_change"
     = Some (FinancialContext.monthly_revenue updated
               - FinancialContext.monthly_revenue original)%float ∧
   impact !! "expense_change"
     = Some (FinancialContext.monthly_expenses updated
               - FinancialContext.monthly_expenses original)%float ∧
   impact !! "marketing_impact"
     = Some (FinancialContext.marketing_spend updated
               - FinancialContext.marketing_spend original)%float ∧
   impact !! "runway_impact"
     = Some (FinancialContext.runway_months updated
               - FinancialContext.runway_months original)%float) ∧
  (∀ L now o self self' scenario_id a,
     RAGAgent.analyze_scenario L now o self scenario_id = (Ok a, self') →
     FinancialAnalysis.impact_analysis a
       = RAGAgent._calculate_impact (FinancialAnalysis.original_context a)
           (FinancialAnalysis.updated_context a)).
Proof.
  split.
  - unfold RAGAgent._calculate_impact. repeat split; by simplify_map_eq.
  - intros L now o self self' scenario_id a Ha.
    destruct (analyze_scenario_inv _ _ _ _ _ _ _ Ha)
      as (scenario & context & updated_data & summary & _ & _ & _ & _ & _ & -> & _).
    reflexivity.
Qed.

(** An instance of claim C5: the impact delta of the first analysis of the
    test context under a revenue change of 100000. *)
Lemma C5_impact_delta_witness :
  ∃ a self',
    RAGAgent.analyze_scenario Pydantic.strict (Datetime 2) (Returned "ok")
      (Examples.agent_with Examples.test_context
         [("monthly_revenue", VFloat 100000)])
      "scenario_1" = (Ok a, self') ∧
    FinancialAnalysis.impact_analysis a
      = RAGAgent._calculate_impact (FinancialAnalysis.original_context a)
          (FinancialAnalysis.updated_context a) ∧
    FinancialAnalysis.impact_analysis a !! "profit_impact" = Some 100000%float.
Proof.
  assert (∃ a self',
            RAGAgent.analyze_scenario Pydantic.strict (Datetime 2) (Returned "ok")
              (Examples.agent_with Examples.test_context
                 [("monthly_revenue", VFloat 100000)])
              "scenario_1" = (Ok a, self')
            ∧ FinancialAnalysis.impact_analysis a !! "profit_impact"
              = Some 100000%float)
    as (a & self' & Hrun & Hprofit)
    by (eexists _, _; split; vm_compute; reflexivity).
  exists a, self'. split; [exact Hrun|]. split; [|exact Hprofit].
  exact (proj2 (C5_impact_delta Examples.test_context Examples.test_context)
           _ _ _ _ _ _ _ Hrun).
Defined.

(** ** Which exceptions the steps of an analysis raise *)

Lemma bind_raise {A B : Type} (m : result A) (f : A → result B) (e : exn) :
  m ≫= f = Raise e → m = Raise e ∨ ∃ a, m = Ok a ∧ f a = Raise e.
Proof.
  destruct m as [a|e']; intros H; [right; eauto|].
  left. injection H as ->. reflexivity.
Qed.

Lemma bind_ok {A B : Type} (m : result A) (f : A → result B) (b : B) :
  m ≫= f = Ok b → ∃ a, m = Ok a ∧ f a = Ok b.
Proof. destruct m as [a|e']; intros H; [eauto | discriminate H]. Qed.

Lemma float_truediv_raise (a b : float) (e : exn) :
  PyNum.float_truediv a b = Raise e →
  e = ZeroDivisionError ∧ (b =? 0)%float = true.
Proof. unfold PyNum.float_truediv. destruct (b =? 0)%float; by intros [= <-]. Qed.

Lemma int_truediv_raise (a b : Z) (e : exn) :
  PyNum.int_truediv a b = Raise e →
  (e = ZeroDivisionError ∧ b = 0) ∨ e = OverflowError.
Proof.
  unfold PyNum.int_truediv. destruct (Z.eqb_spec b 0); [intros [= <-]; by left|].
  destruct (a =? 0); [done|]. cbn zeta.
  destruct (Z.shiftl _ _ / _); try done.
  destruct (binary_round_aux _ _ _ _ _ _); try done. intros [= <-]. by right.
Qed.

Lemma add_raise (a b : pyvalue) (e : exn) :
  Py.add a b = Raise e → e = TypeError ∨ e = OverflowError.
Proof.
  destruct a, b; cbn; intros H; try (left; congruence);
    apply bind_raise in H as [H|(? & _ & [=])];
    right; eapply float_of_int_raise; eassumption.
Qed.

Lemma apply_changes_raise (changes : list (string * pyvalue))
    (d : gmap string pyvalue) (e : exn) :
  RAGAgent.apply_changes d changes = Raise e → e = TypeError ∨ e = OverflowError.
Proof.
  revert d. induction changes as [|[key value] rest IH]; intros d; cbn; [done|].
  destruct (d !! key) as [current|]; [|apply IH].
  destruct (Py.isinstance_int_float current); [|apply IH].
  intros [H|(sum & _ & H)]%bind_raise; [eapply add_raise|eapply IH]; eassumption.
Qed.

Lemma pct_guarded_ok (change original : float) :
  ∃ pct, RAGAgent.pct_guarded change original = Ok pct.
Proof.
  unfold RAGAgent.pct_guarded, PyNum.float_truediv.
  destruct (original =? 0)%float; cbn; eauto.
Qed.

Lemma impact_pct_ok (x original : float) :
  ∃ pct, RAGAgent.impact_pct x original = Ok pct.
Proof.
  unfold RAGAgent.impact_pct, PyNum.float_truediv.
  destruct (original =? 0)%float; cbn; eauto.
Qed.




(** ** Lookups that miss *)



(** The endpoint answers 404 to every [ValueError], and pydantic's
    [ValidationError] is one: a change that makes [team_size] infinite is
    rejected by the constructor and answered with 404 although the scenario
    and its context are both stored. *)
Lemma endpoint_404_on_validation_error (L : Pydantic.lax) :
  Endpoints.analyze_scenario L (Datetime 2) (Returned "ok")
    (Examples.agent_with Examples.test_context [("team_size", VFloat infinity)])
    "scenario_1"
  = (Endpoints.HTTPException 404 ValidationError,
     Examples.agent_with Examples.test_context [("team_size", VFloat infinity)]).
Proof. vm_compute. reflexivity. Qed.

(** ** Division by zero in the prompt figures *)

(** The revenue line of the proposed changes divides by the original
    revenue without a test. *)
Lemma proposed_changes_zero_revenue (original updated : FinancialContext.t) :
  (FinancialContext.monthly_revenue original =? 0)%float = true →
  (FinancialContext.monthly_revenue updated
     =? FinancialContext.monthly_revenue original)%float = false →
  RAGAgent.proposed_changes original updated = Raise ZeroDivisionError.
Proof.
  intros Hz Hne. unfold RAGAgent.proposed_changes, PyNum.float_truediv.
  rewrite Hne, Hz. reflexivity.
Qed.

(** It is the only division of [_generate_summary] that can fail so. *)
Lemma generate_summary_zero_division (original updated : FinancialContext.t)
    (impact : gmap string float) (o : generation) :
  RAGAgent._generate_summary original updated impact o = Raise ZeroDivisionError →
  (FinancialContext.monthly_revenue original =? 0)%float = true ∧
  (FinancialContext.monthly_revenue updated
     =? FinancialContext.monthly_revenue original)%float = false.
Proof.
  unfold RAGAgent._generate_summary. intros H.
  apply bind_raise in H as [H|(changes & _ & H)].
  - unfold RAGAgent.proposed_changes in H.
    apply bind_raise in H as [H|(c1 & _ & H)].
    { destruct (FinancialContext.monthly_revenue updated =? _)%float; [done|].
      cbn [negb] in H. apply bind_raise in H as [H|(? & _ & [=])].
      by apply float_truediv_raise in H as [_ ->]. }
    exfalso. apply bind_raise in H as [H|(c2 & _ & H)].
    { destruct (negb _); [|done].
      destruct (pct_guarded_ok
                  (FinancialContext.monthly_expenses updated
                     - FinancialContext.monthly_expenses original)%float
                  (FinancialContext.monthly_expenses original)) as [pct Hp].
      cbn zeta in H. rewrite Hp in H. done. }
    apply bind_raise in H as [H|(c3 & _ & H)].
    { destruct (negb _); [|done].
      destruct (pct_guarded_ok
                  (FinancialContext.marketing_spend updated
                     - FinancialContext.marketing_spend original)%float
                  (FinancialContext.marketing_spend original)) as [pct Hp].
      cbn zeta in H. rewrite Hp in H. done. }
    destruct (negb (FinancialContext.team_size updated =? _)); [|done].
    cbn zeta in H. apply bind_raise in H as [H|(pct & _ & H)].
    { destruct (negb _) eqn:Hz; [|done].
      apply bind_raise in H as [H|(? & _ & [=])].
      apply int_truediv_raise in H as [[_ Hzero]|[=]].
      rewrite Hzero in Hz. done. }
    apply bind_raise in H as [H|(? & _ & [=])].
    apply float_of_int_raise in H. done.
  - exfalso.
    repeat
      (apply bind_raise in H as [H|(? & _ & H)];
       [ first
           [ unfold Py.getitem in H; destruct (impact !! _); done
           | match type of H with
             | RAGAgent.impact_pct ?x ?y = _ =>
                 destruct (impact_pct_ok x y) as [? Hp]; rewrite Hp in H; done
             end ]
       | ]).
    done.
Qed.

(** The fallback figures of [analyze_pathway_scenario] test the projected
    expenses before dividing by them. *)
Lemma fallback_figures_no_zero_division (request : Pathway.PathwayScenarioRequest) :
  Pathway.fallback_figures request ≠ Raise ZeroDivisionError.
Proof.
  unfold Pathway.fallback_figures. intros H.
  apply bind_raise in H as [H|(hiring & _ & H)].
  { apply float_of_int_raise in H. done. }
  apply bind_raise in H as [H|(? & _ & [=])].
  destruct (0 <? _)%float eqn:Hpos; [|done].
  apply float_truediv_raise in H as [_ Hz].
  apply ltb_0_not_leb_0 in Hpos.
  revert Hpos Hz. rewrite FloatAxioms.leb_spec, FloatAxioms.eqb_spec.
  replace (Prim2SF 0) with (S754_zero false) by reflexivity.
  destruct (Prim2SF _) as [s|s| |s m e]; try destruct s; cbn; congruence.
Qed.

(** Claim C8 fails on the code. For a company whose monthly revenue is 0 and
    a scenario that adds revenue, [analyze_scenario] raises
    [ZeroDivisionError] (the endpoint answers 500) and stores nothing. *)
Theorem C8_zero_revenue_raises_zero_division :
  let agent := Examples.agent_with Examples.no_revenue_context
                 [("monthly_revenue", VFloat 1000)] in
  RAGAgent.analyze_scenario Pydantic.strict (Datetime 2) (Returned "ok")
    agent "scenario_1" = (Raise ZeroDivisionError, agent) ∧
  Endpoints.analyze_scenario Pydantic.strict (Datetime 2) (Returned "ok")
    agent "scenario_1" = (Endpoints.HTTPException 500 ZeroDivisionError, agent).
Proof. split; vm_compute; reflexivity. Qed.

(** ** The retrieval index *)

(** [search] on a store without documents returns the empty list, whatever
    the engine, the query and [k]. *)
Lemma search_empty_store (E : Faiss.engine) (query : embedding)
    (self : VectorStore.t) (k : Z) :
  VectorStore.documents self = [] → VectorStore.search E query self k = Ok [].
Proof. unfold VectorStore.search. by intros ->. Qed.

Lemma comprehension_app {A B : Type} (f : A → result B) (l1 l2 : list A)
    (r1 r2 : list B) :
  VectorStore.comprehension f l1 = Ok r1 →
  VectorStore.comprehension f l2 = Ok r2 →
  VectorStore.comprehension f (l1 ++ l2) = Ok (r1 ++ r2).
Proof.
  revert r1. induction l1 as [|x l1 IH]; intros r1; cbn.
  - by intros [= <-].
  - intros (y & Hy & H)%bind_ok H2. apply bind_ok in H as (ys & Hys & [= <-]).
    rewrite Hy. cbn. rewrite (IH _ Hys H2). reflexivity.
Qed.

Lemma comprehension_replicate {A B : Type} (f : A → result B) (x : A) (y : B)
    (n : nat) :
  f x = Ok y →
  VectorStore.comprehension f (replicate n x) = Ok (replicate n y).
Proof. intros Hf. induction n as [|n IH]; cbn; [done|]. by rewrite Hf, IH. Qed.

Lemma comprehension_total {A B : Type} (f : A → result B) (l : list A) :
  Forall (λ x, ∃ y, f x = Ok y) l →
  ∃ r, VectorStore.comprehension f l = Ok r ∧ length r = length l.
Proof.
  induction 1 as [|x l [y Hy] _ (r & Hr & Hlen)]; cbn; [by exists []|].
  exists (y :: r). rewrite Hy, Hr. cbn. by rewrite Hlen.
Qed.

(** [documents[-1]] is the last document. *)
Lemma list_getitem_minus_1 {A : Type} (l : list A) (x : A) :
  last l = Some x → VectorStore.list_getitem l (-1) = Ok x.
Proof.
  intros Hlast. unfold VectorStore.list_getitem. cbn [Z.ltb Z.compare].
  assert (length l ≠ 0)%nat by (destruct l; [done|cbn; lia]).
  destruct (Z.ltb_spec (-1 + Z.of_nat (length l)) 0); [lia|].
  replace (Z.to_nat (-1 + Z.of_nat (length l))) with (pred (length l)) by lia.
  by rewrite <- last_lookup, Hlast.
Qed.

Lemma list_getitem_in_range {A : Type} (l : list A) (i : Z) :
  0 ≤ i < Z.of_nat (length l) → ∃ x, VectorStore.list_getitem l i = Ok x.
Proof.
  intros Hi. unfold VectorStore.list_getitem.
  destruct (Z.ltb_spec i 0); [lia|]. destruct (Z.ltb_spec i 0); [lia|].
  destruct (lookup_lt_is_Some_2 l (Z.to_nat i)) as [x Hx]; [lia|].
  rewrite Hx. eauto.
Qed.

(** With any engine that honours the FAISS contract, asking a store of
    [n >= 1] documents for [k > n] neighbours returns [k] results, not [n]:
    each padding label [-1] passes the test [idx < len(self.documents)] and
    selects the last document. *)
Lemma search_pads_with_last_document (E : Faiss.engine) (query : embedding)
    (self : VectorStore.t) (k : Z) (d : VectorStore.document) :
  Faiss.contract E →
  length (VectorStore.index self) = length (VectorStore.documents self) →
  last (VectorStore.documents self) = Some d →
  Z.of_nat (length (VectorStore.documents self)) < k →
  ∃ found,
    VectorStore.search E query self k
      = Ok (found ++ replicate
                      (Z.to_nat k - length (VectorStore.documents self)) d) ∧
    length found = length (VectorStore.documents self).
Proof.
  intros HE Hsync Hlast Hk. unfold VectorStore.search.
  destruct (VectorStore.documents self) as [|d0 ds] eqn:Hdocs; [done|].
  rewrite <- Hdocs in *. set (docs := VectorStore.documents self) in *.
  destruct (HE (VectorStore.index self) query k) as (labels & -> & Hlabels);
    [lia|].
  destruct Hlabels as (found & -> & Hlen & _ & Hrange). rewrite Hsync in *.
  cbn [mbind result_bind].
  assert (filter (λ idx, idx < Z.of_nat (length docs))
            (found ++ replicate (Z.to_nat k - length docs) (-1))
          = found ++ replicate (Z.to_nat k - length docs) (-1)) as ->.
  { rewrite filter_app. f_equal.
    - clear Hlen. induction Hrange as [|i l Hi _ IH]; [done|].
      rewrite filter_cons_True by lia. by rewrite IH.
    - induction (Z.to_nat k - length docs)%nat as [|n IH]; [done|].
      cbn [replicate]. rewrite filter_cons_True by lia. by rewrite IH. }
  destruct (comprehension_total (VectorStore.list_getitem docs) found)
    as (r & Hr & Hrlen).
  { eapply Forall_impl; [exact Hrange|]. intros i Hi. by apply list_getitem_in_range. }
  exists r. split; [|lia].
  apply comprehension_app; [done|].
  apply comprehension_replicate, list_getitem_minus_1, Hlast.
Qed.

(** The reference engine honours the contract. *)
Lemma insert_by_perm (d : float) (i : Z) (l : list (float * Z)) :
  Faiss.insert_by d i l ≡ₚ (d, i) :: l.
Proof.
  induction l as [|[d' i'] l IH]; cbn; [done|].
  destruct (d <? d')%float; [done|]. rewrite IH. apply Permutation_swap.
Qed.

Lemma ranked_perm (rows : list embedding) (query : embedding) :
  Faiss.ranked rows query ≡ₚ Z.of_nat <$> seq 0 (length rows).
Proof.
  unfold Faiss.ranked.
  assert (∀ (ps : list (nat * embedding)) acc,
            (foldl (λ acc p, Faiss.insert_by (Faiss.l2_sqr query p.2)
                               (Z.of_nat p.1) acc) acc ps).*2
            ≡ₚ acc.*2 ++ (Z.of_nat <$> ps.*1)) as Hfold.
  { induction ps as [|p ps IH]; intros acc; cbn.
    - by rewrite app_nil_r.
    - rewrite IH, insert_by_perm. cbn. by rewrite Permutation_middle. }
  rewrite Hfold. cbn. by rewrite fst_zip by (rewrite length_seq; lia).
Qed.

Lemma flat_l2_contract : Faiss.contract Faiss.flat_l2.
Proof.
  intros rows query k Hk. cbn. destruct (Z.leb_spec k 0); [lia|].
  eexists. split; [reflexivity|].
  pose proof (ranked_perm rows query) as Hperm.
  assert (length (Faiss.ranked rows query) = length rows) as Hlen.
  { by rewrite Hperm, length_fmap, length_seq. }
  exists (take (Z.to_nat k) (Faiss.ranked rows query)).
  rewrite length_take, Hlen.
  split; [f_equal; f_equal; lia|]. split; [done|]. split.
  - eapply sublist_NoDup; [|apply sublist_take]. rewrite Hperm.
    apply NoDup_fmap; [apply _|apply NoDup_seq].
  - apply Forall_take. rewrite Hperm. apply Forall_fmap, Forall_forall.
    intros i Hi%elem_of_seq. cbn. lia.
Qed.

(** Claim C3 fails on the code. After one [add_documents] of exactly two
    documents, [search(query, k=5)] returns five results: the two documents,
    nearest first, then the last document three more times. *)
Theorem C3_search_two_documents_k5_returns_five :
  ∃ store,
    Examples.store_of_two = Ok store ∧
    VectorStore.documents store = [Examples.doc_a; Examples.doc_b] ∧
    Faiss.index_search Faiss.flat_l2 (VectorStore.index store)
      Examples.query_row 5 = Ok [0; 1; -1; -1; -1] ∧
    VectorStore.search Faiss.flat_l2 Examples.query_row store 5
      = Ok [Examples.doc_a; Examples.doc_b;
            Examples.doc_b; Examples.doc_b; Examples.doc_b].
Proof. eexists. split; [reflexivity|]. repeat split. Qed.

(** ** The stores *)

Lemma next_analysis_id_fresh (self : RAGAgent.t) :
  analysis_ids_in_sequence self →
  RAGAgent.analysis_store self
    !! ("analysis_" +:+ pretty (Z.of_nat (size (RAGAgent.analysis_store self)) + 1))
  = None.
Proof.
  intros Hseq. apply eq_None_not_Some. intros (n & Hn & Heq)%Hseq.
  cbn in Heq. simplify_eq. lia.
Qed.

Lemma analyze_scenario_keeps_sequence (L : Pydantic.lax) (now : datetime)
    (o : generation) (self : RAGAgent.t) (scenario_id : string) :
  analysis_ids_in_sequence self →
  analysis_ids_in_sequence (RAGAgent.analyze_scenario L now o self scenario_id).2.
Proof.
  intros Hseq.
  destruct (RAGAgent.analyze_scenario L now o self scenario_id) as [[a|e] self'] eqn:Ha.
  - destruct (analyze_scenario_inv _ _ _ _ _ _ _ Ha)
      as (sc & ctx & d & summary & _ & _ & _ & _ & _ & Hid & ->).
    assert (FinancialAnalysis.analysis_id a
            = "analysis_" +:+
                pretty (Z.of_nat (size (RAGAgent.analysis_store self)) + 1)) as Hk
      by (rewrite Hid; reflexivity).
    intros k. cbn. rewrite map_size_insert_None
      by (rewrite Hk; by apply next_analysis_id_fresh).
    rewrite lookup_insert. case_decide as Hkk.
    + intros _. eexists. split; [|rewrite <- Hkk; exact Hk]. lia.
    + intros (n & Hn & ->)%Hseq. exists n. split; [lia|done].
  - unfold RAGAgent.analyze_scenario, RAGAgent.get_financial_context in Ha.
    repeat case_match; simplify_eq; done.
Qed.

Lemma reachable_ids_in_sequence (self : RAGAgent.t) :
  RAGAgent.reachable self → analysis_ids_in_sequence self.
Proof.
  intros [calls ->]. induction calls as [|c calls IH] using rev_ind.
  - intros k [a Ha]. cbn in Ha. by rewrite lookup_empty in Ha.
  - rewrite foldl_app. cbn [foldl]. destruct c; cbn [RAGAgent.step].
    + exact IH.
    + exact IH.
    + by apply analyze_scenario_keeps_sequence.
Qed.

(** Claim C9: a successful [analyze_scenario] on an agent reached through
    the agent's interface leaves the context store and the scenario store
    as they were and adds exactly one entry to the analysis store: the
    returned analysis, under its own id, which was not a key before. *)
Theorem C9_analyze_scenario_frame (L : Pydantic.lax) (now : datetime)
    (o : generation) (self self' : RAGAgent.t) (scenario_id : string)
    (a : FinancialAnalysis.t) :
  RAGAgent.reachable self →
  RAGAgent.analyze_scenario L now o self scenario_id = (Ok a, self') →
  RAGAgent.context_store self' = RAGAgent.context_store self ∧
  RAGAgent.scenario_store self' = RAGAgent.scenario_store self ∧
  RAGAgent.analysis_store self !! FinancialAnalysis.analysis_id a = None ∧
  RAGAgent.analysis_store self'
    = <[ FinancialAnalysis.analysis_id a := a ]> (RAGAgent.analysis_store self) ∧
  RAGAgent.analysis_store self' !! FinancialAnalysis.analysis_id a = Some a ∧
  (∀ k, k ≠ FinancialAnalysis.analysis_id a →
        RAGAgent.analysis_store self' !! k = RAGAgent.analysis_store self !! k) ∧
  size (RAGAgent.analysis_store self') = S (size (RAGAgent.analysis_store self)).
Proof.
  intros Hreach Ha. apply reachable_ids_in_sequence in Hreach.
  destruct (analyze_scenario_inv _ _ _ _ _ _ _ Ha)
    as (sc & ctx & d & summary & _ & _ & _ & _ & _ & Hid & ->).
  assert (RAGAgent.analysis_store self !! FinancialAnalysis.analysis_id a = None)
    as Hfresh by (rewrite Hid; by apply next_analysis_id_fresh).
  cbn. split; [done|]. split; [done|]. split; [done|]. split; [done|].
  split; [by rewrite lookup_insert_eq|].
  split; [intros k Hk; by rewrite lookup_insert_ne|].
  by apply map_size_insert_None.
Qed.

(** An instance of claim C9: the first analysis of the test context. *)
Lemma C9_analyze_scenario_frame_witness :
  RAGAgent.reachable
    (Examples.agent_with Examples.test_context [("monthly_revenue", VFloat 100000)]) ∧
  ∃ a self',
    RAGAgent.analyze_scenario Pydantic.strict (Datetime 2) (Returned "ok")
      (Examples.agent_with Examples.test_context [("monthly_revenue", VFloat 100000)])
      "scenario_1" = (Ok a, self') ∧
    RAGAgent.analysis_store self' !! FinancialAnalysis.analysis_id a = Some a ∧
    size (RAGAgent.analysis_store self') = 1%nat.
Proof.
  assert (RAGAgent.reachable
            (Examples.agent_with Examples.test_context
               [("monthly_revenue", VFloat 100000)])) as Hreach.
  { exists [RAGAgent.AddFinancialContext Examples.test_context;
            RAGAgent.CreateScenario (Datetime 1) "test_company_123"
              [("monthly_revenue", VFloat 100000)]].
    reflexivity. }
  assert (∃ a self',
            RAGAgent.analyze_scenario Pydantic.strict (Datetime 2) (Returned "ok")
              (Examples.agent_with Examples.test_context
                 [("monthly_revenue", VFloat 100000)])
              "scenario_1" = (Ok a, self')) as (a & self' & Hrun)
    by (vm_compute; eauto).
  split; [exact Hreach|]. exists a, self'. split; [exact Hrun|].
  destruct (C9_analyze_scenario_frame _ _ _ _ _ _ _ Hreach Hrun)
    as (_ & _ & _ & _ & Hget & _ & Hsize).
  split; [exact Hget|exact Hsize].
Defined.

(** ** The merge loop *)

Lemma dict_lookup_not_field (c : FinancialContext.t) (key : string) :
  key ∉ FinancialContext.fields → FinancialContext.dict c !! key = None.
Proof.
  unfold FinancialContext.fields, FinancialContext.dict. intros H.
  rewrite !not_elem_of_cons in H. destruct_and!.
  rewrite !lookup_insert_ne by done. apply lookup_empty.
Qed.

Lemma dict_lookup_field (c : FinancialContext.t) (key : string) :
  key ∈ FinancialContext.fields → is_Some (FinancialContext.dict c !! key).
Proof.
  unfold FinancialContext.fields, FinancialContext.dict. intros H.
  rewrite !elem_of_cons in H.
  repeat (destruct H as [->|H];
          [rewrite ?lookup_insert_ne by done; rewrite lookup_insert_eq; eauto|]).
  by apply elem_of_nil in H.
Qed.

(** The loop assigns only to keys the dict already has. *)
Lemma apply_changes_same_keys (changes : list (string * pyvalue))
    (d d' : gmap string pyvalue) :
  RAGAgent.apply_changes d changes = Ok d' → dom d' = dom d.
Proof.
  revert d. induction changes as [|[key value] rest IH]; intros d; cbn.
  - by intros [= <-].
  - destruct (d !! key) as [current|] eqn:Hkey; [|apply IH].
    assert (∀ v, dom (<[key := v]> d) = dom d) as Hdom.
    { intros v. by apply dom_insert_lookup_L. }
    destruct (Py.isinstance_int_float current).
    + intros (sum & _ & H)%bind_ok. by rewrite (IH _ H), Hdom.
    + intros H. by rewrite (IH _ H), Hdom.
Qed.

(** A key the dict does not have is skipped: the loop behaves as on the
    changes without it. *)
Lemma apply_changes_without (key : string) (changes : list (string * pyvalue))
    (d : gmap string pyvalue) :
  d !! key = None →
  RAGAgent.apply_changes d changes
  = RAGAgent.apply_changes d (Py.without key changes).
Proof.
  unfold Py.without. revert d.
  induction changes as [|[key' value] rest IH]; intros d Hkey; [done|].
  destruct (decide (key' = key)) as [->|Hne].
  - rewrite filter_cons_False by (cbn; tauto). cbn. rewrite Hkey. by apply IH.
  - rewrite filter_cons_True by done. cbn.
    destruct (d !! key') as [current|]; [|by apply IH].
    destruct (Py.isinstance_int_float current).
    + destruct (Py.add current value) as [sum|e]; [|done]. cbn.
      apply IH. by rewrite lookup_insert_ne.
    + apply IH. by rewrite lookup_insert_ne.
Qed.

(** Claim C10: a key of [changes] that is not a field of the context schema
    is ignored. The call behaves exactly as on the scenario without that
    key (the same analysis, or the same exception raised by another key),
    and the merged data has the keys of the context and no others. *)
Theorem C10_unknown_key_ignored (L : Pydantic.lax) (now : datetime)
    (o : generation) (self : RAGAgent.t) (scenario_id : string)
    (scenario : UserScenario.t) (key : string) :
  RAGAgent.scenario_store self !! scenario_id = Some scenario →
  key ∉ FinancialContext.fields →
  ((RAGAgent.analyze_scenario L now o self scenario_id).1
   = (RAGAgent.analyze_scenario L now o
        (RAGAgent.with_changes self scenario_id
           (Py.without key (UserScenario.changes scenario)))
        scenario_id).1) ∧
  (∀ context updated_data,
     RAGAgent.apply_changes (FinancialContext.dict context)
       (UserScenario.changes scenario) = Ok updated_data →
     updated_data !! key = None ∧
     dom updated_data = dom (FinancialContext.dict context)).
Proof.
  intros Hs Hkey. split.
  - unfold RAGAgent.analyze_scenario, RAGAgent.get_financial_context,
      RAGAgent.with_changes.
    cbn [RAGAgent.scenario_store RAGAgent.context_store RAGAgent.analysis_store].
    rewrite lookup_alter_eq, Hs. cbn [fmap option_fmap option_map UserScenario.company_id UserScenario.changes].
    destruct (RAGAgent.context_store self !! UserScenario.company_id scenario)
      as [context|]; [|done].
    rewrite <- (apply_changes_without key)
      by (by apply dict_lookup_not_field).
    destruct (RAGAgent.apply_changes _ _) as [d|e]; [|done].
    cbn [mbind result_bind].
    destruct (FinancialContext.make L now d) as [updated|e]; [|done].
    cbn [mbind result_bind].
    destruct (RAGAgent._generate_summary _ _ _ _); done.
  - intros context d Hd. pose proof (apply_changes_same_keys _ _ _ Hd) as Hdom.
    split; [|done]. apply not_elem_of_dom. rewrite Hdom.
    apply not_elem_of_dom. by apply dict_lookup_not_field.
Qed.

(** An instance of claim C10: the key [bogus] next to a revenue change. *)
Lemma C10_unknown_key_ignored_witness :
  RAGAgent.scenario_store
    (Examples.agent_with Examples.test_context
       [("bogus", VStr "x"); ("monthly_revenue", VFloat 100000)])
    !! "scenario_1"
  = Some {| UserScenario.scenario_id := "scenario_1";
            UserScenario.company_id := "test_company_123";
            UserScenario.changes :=
              [("bogus", VStr "x"); ("monthly_revenue", VFloat 100000)];
            UserScenario.timestamp := Datetime 1 |} ∧
  ("bogus" ∉ FinancialContext.fields) ∧
  ((RAGAgent.analyze_scenario Pydantic.strict (Datetime 2) (Returned "ok")
      (Examples.agent_with Examples.test_context
         [("bogus", VStr "x"); ("monthly_revenue", VFloat 100000)])
      "scenario_1").1
   = (RAGAgent.analyze_scenario Pydantic.strict (Datetime 2) (Returned "ok")
        (RAGAgent.with_changes
           (Examples.agent_with Examples.test_context
              [("bogus", VStr "x"); ("monthly_revenue", VFloat 100000)])
           "scenario_1"
           (Py.without "bogus"
              [("bogus", VStr "x"); ("monthly_revenue", VFloat 100000)]))
        "scenario_1").1).
Proof.
  assert ("bogus" ∉ FinancialContext.fields) as Hkey.
  { unfold FinancialContext.fields. rewrite !not_elem_of_cons.
    repeat split; try discriminate. apply not_elem_of_nil. }
  split; [reflexivity|]. split; [exact Hkey|].
  exact (proj1 (C10_unknown_key_ignored Pydantic.strict (Datetime 2)
                  (Returned "ok")
                  (Examples.agent_with Examples.test_context
                     [("bogus", VStr "x"); ("monthly_revenue", VFloat 100000)])
                  "scenario_1"
                  {| UserScenario.scenario_id := "scenario_1";
                     UserScenario.company_id := "test_company_123";
                     UserScenario.changes :=
                       [("bogus", VStr "x"); ("monthly_revenue", VFloat 100000)];
                     UserScenario.timestamp := Datetime 1 |}
                  "bogus" eq_refl Hkey)).
Defined.

(** A key the changes do not name keeps its value. *)
Lemma apply_changes_unchanged (changes : list (string * pyvalue))
    (d d' : gmap string pyvalue) (key : string) :
  key ∉ changes.*1 →
  RAGAgent.apply_changes d changes = Ok d' → d' !! key = d !! key.
Proof.
  revert d. induction changes as [|[key' value] rest IH]; intros d Hkey; cbn.
  - by intros [= <-].
  - cbn in Hkey. apply not_elem_of_cons in Hkey as [Hne Hkey].
    destruct (d !! key') as [current|]; [|by apply IH].
    destruct (Py.isinstance_int_float current).
    + intros (sum & _ & H)%bind_ok. rewrite (IH _ Hkey H).
      by rewrite lookup_insert_ne.
    + intros H. rewrite (IH _ Hkey H). by rewrite lookup_insert_ne.
Qed.

(** A key the changes name, and the dict has, ends with the merged value. *)
Lemma apply_changes_changed (changes : list (string * pyvalue))
    (d d' : gmap string pyvalue) (key : string) (value current : pyvalue) :
  NoDup changes.*1 →
  (key, value) ∈ changes →
  d !! key = Some current →
  RAGAgent.apply_changes d changes = Ok d' →
  ∃ m, RAGAgent.merged current value = Ok m ∧ d' !! key = Some m.
Proof.
  revert d. induction changes as [|[key' value'] rest IH]; intros d Hnd Hin Hcur.
  - by apply elem_of_nil in Hin.
  - cbn in Hnd. apply NoDup_cons in Hnd as [Hfresh Hnd].
    apply elem_of_cons in Hin as [[= <- <-]|Hin]; cbn.
    + rewrite Hcur. unfold RAGAgent.merged.
      destruct (Py.isinstance_int_float current).
      * intros (sum & Hsum & H)%bind_ok. exists sum. split; [done|].
        rewrite (apply_changes_unchanged _ _ _ _ Hfresh H).
        by rewrite lookup_insert_eq.
      * intros H. exists value. split; [done|].
        rewrite (apply_changes_unchanged _ _ _ _ Hfresh H).
        by rewrite lookup_insert_eq.
    + assert (key ≠ key') as Hne.
      { intros ->. apply Hfresh. apply list_elem_of_fmap. by exists (key', value). }
      destruct (d !! key') as [current'|]; [|by apply IH].
      destruct (Py.isinstance_int_float current').
      * intros (sum & _ & H)%bind_ok. eapply IH; [done|done| |exact H].
        by rewrite lookup_insert_ne.
      * intros H. eapply IH; [done|done| |exact H].
        by rewrite lookup_insert_ne.
Qed.

(** ** Validation, field by field *)

Lemma validate_field (L : Pydantic.lax) (now : datetime)
    (data : gmap string pyvalue) (c : FinancialContext.t)
    (key : string) (v : pyvalue) :
  FinancialContext.validate L now data = Some c →
  data !! key = Some v →
  key ∈ FinancialContext.fields →
  FinancialContext.dict c !! key = FinancialContext.field_validator L key v.
Proof.
  unfold FinancialContext.validate. intros Hval Hv Hin.
  repeat (apply bind_Some in Hval as (? & ? & Hval)).
  injection Hval as <-.
  unfold FinancialContext.fields in Hin. rewrite !elem_of_cons in Hin.
  unfold FinancialContext.dict.
  repeat (destruct Hin as [->|Hin];
          [ rewrite ?lookup_insert_ne by done; rewrite lookup_insert_eq;
            cbn [FinancialContext.id FinancialContext.company_id
                 FinancialContext.current_cash FinancialContext.monthly_revenue
                 FinancialContext.monthly_expenses FinancialContext.marketing_spend
                 FinancialContext.team_size FinancialContext.average_salary
                 FinancialContext.price_per_unit FinancialContext.units_sold
                 FinancialContext.runway_months FinancialContext.last_updated
                 FinancialContext.metadata];
            repeat match goal with
              | H : data !! _ ≫= _ = Some _ |- _ => rewrite Hv in H; cbn in H
              | H : match data !! _ with _ => _ end = Some _ |- _ =>
                  rewrite Hv in H
              end;
            unfold FinancialContext.field_validator;
            match goal with
            | H : _ = Some ?x |- Some (_ ?x) = _ => cbn; by rewrite H
            end
          | ]).
  by apply elem_of_nil in Hin.
Qed.

(** The validator of a field is the one of the type its value has in
    [context.dict()]. *)
Lemma field_validator_of_dict (L : Pydantic.lax) (c : FinancialContext.t)
    (key : string) (current m : pyvalue) :
  FinancialContext.dict c !! key = Some current →
  FinancialContext.field_validator L key m =
    match current with
    | VStr _ => VStr <$> Pydantic.str_validator L m
    | VInt _ => VInt <$> Pydantic.int_validator L m
    | VFloat _ => VFloat <$> Pydantic.float_validator L m
    | VDatetime _ => VDatetime <$> Pydantic.datetime_validator L m
    | VDict _ => VDict <$> Pydantic.dict_validator L m
    | _ => None
    end.
Proof.
  intros Hcur.
  destruct (decide (key ∈ FinancialContext.fields)) as [Hin|Hout];
    [|by rewrite dict_lookup_not_field in Hcur].
  unfold FinancialContext.fields in Hin. rewrite !elem_of_cons in Hin.
  unfold FinancialContext.dict in Hcur.
  repeat (destruct Hin as [->|Hin];
          [ rewrite ?lookup_insert_ne in Hcur by done;
            rewrite lookup_insert_eq in Hcur; injection Hcur as <-; reflexivity
          | ]).
  by apply elem_of_nil in Hin.
Qed.

Lemma add_float_left (x : float) (value m : pyvalue) :
  Py.add (VFloat x) value = Ok m → ∃ y, m = VFloat y.
Proof.
  destruct value; cbn; try done.
  - intros (y & _ & [= <-])%bind_ok. eauto.
  - intros (y & _ & [= <-])%bind_ok. eauto.
  - intros [= <-]. eauto.
Qed.

(** Claim C1, as the code has it. When [analyze_scenario] returns, every
    changed field of the updated context holds the merged value (original
    plus change for a numeric original, the change itself otherwise) as the
    schema validates it. A float field holds exactly original plus change.
    An int field changed by an int or a bool holds exactly the sum; changed
    by a float it holds [int(original + change)], truncated toward zero.
    A non-numeric field changed by a value of its own type holds that
    value. Fields that are not changed are identical to the original. *)
Theorem C1_updated_context_fields (L : Pydantic.lax) (now : datetime)
    (o : generation) (self self' : RAGAgent.t) (scenario_id : string)
    (scenario : UserScenario.t) (a : FinancialAnalysis.t) :
  RAGAgent.analyze_scenario L now o self scenario_id = (Ok a, self') →
  RAGAgent.scenario_store self !! scenario_id = Some scenario →
  NoDup (UserScenario.changes scenario).*1 →
  let original := FinancialContext.dict (FinancialAnalysis.original_context a) in
  let updated := FinancialContext.dict (FinancialAnalysis.updated_context a) in
  (∀ key value current,
     (key, value) ∈ UserScenario.changes scenario →
     original !! key = Some current →
     ∃ m, RAGAgent.merged current value = Ok m ∧
          FinancialContext.field_validator L key m = updated !! key ∧
          is_Some (updated !! key)) ∧
  (∀ key value x,
     (key, value) ∈ UserScenario.changes scenario →
     original !! key = Some (VFloat x) →
     ∃ y, Py.add (VFloat x) value = Ok (VFloat y) ∧
          updated !! key = Some (VFloat y)) ∧
  (∀ key value z n,
     (key, value) ∈ UserScenario.changes scenario →
     original !! key = Some (VInt z) →
     Py.as_int value = Some n →
     updated !! key = Some (VInt (z + n))) ∧
  (∀ key y z,
     (key, VFloat y) ∈ UserScenario.changes scenario →
     original !! key = Some (VInt z) →
     ∃ fz t, PyNum.float_of_int z = Ok fz ∧
             PyNum.int_of_float (fz + y) = Some t ∧
             updated !! key = Some (VInt t)) ∧
  (∀ key value current,
     (key, value) ∈ UserScenario.changes scenario →
     original !! key = Some current →
     match current, value with
     | VStr _, VStr _ | VDatetime _, VDatetime _ | VDict _, VDict _ =>
         updated !! key = Some value
     | _, _ => True
     end) ∧
  (∀ key, key ∉ (UserScenario.changes scenario).*1 →
          updated !! key = original !! key).
Proof.
  intros Ha Hs Hnd original updated.
  destruct (analyze_scenario_inv _ _ _ _ _ _ _ Ha)
    as (sc & ctx & d & summary & Hs' & _ & Hmerge & Hval & _ & Hid & _).
  rewrite Hs in Hs'. injection Hs' as <-.
  assert (FinancialAnalysis.original_context a = ctx) as Horig
    by (rewrite Hid; reflexivity).
  subst original updated. rewrite Horig. clear Hid Horig Ha.
  set (upd := FinancialAnalysis.updated_context a) in *.
  assert (∀ key value current,
            (key, value) ∈ UserScenario.changes scenario →
            FinancialContext.dict ctx !! key = Some current →
            ∃ m, RAGAgent.merged current value = Ok m ∧
                 FinancialContext.field_validator L key m
                   = FinancialContext.dict upd !! key ∧
                 is_Some (FinancialContext.dict upd !! key)) as Hchanged.
  { intros key value current Hin Hcur.
    destruct (apply_changes_changed _ _ _ _ _ _ Hnd Hin Hcur Hmerge)
      as (m & Hm & Hd).
    assert (key ∈ FinancialContext.fields) as Hfield.
    { destruct (decide (key ∈ FinancialContext.fields)); [done|].
      by rewrite dict_lookup_not_field in Hcur. }
    exists m. split; [done|]. split.
    - symmetry. by eapply validate_field.
    - by apply dict_lookup_field. }
  split; [exact Hchanged|]. split; [|split; [|split; [|split]]].
  - intros key value x Hin Hcur.
    destruct (Hchanged _ _ _ Hin Hcur) as (m & Hm & Hv & _).
    unfold RAGAgent.merged in Hm. cbn in Hm.
    destruct (add_float_left _ _ _ Hm) as [y ->].
    exists y. split; [done|].
    rewrite <- Hv, (field_validator_of_dict L _ _ _ _ Hcur). reflexivity.
  - intros key value z n Hin Hcur Hn.
    destruct (Hchanged _ _ _ Hin Hcur) as (m & Hm & Hv & _).
    rewrite <- Hv, (field_validator_of_dict L _ _ _ _ Hcur).
    unfold RAGAgent.merged in Hm. cbn in Hm.
    destruct value; try discriminate; cbn in Hn, Hm; simplify_eq; reflexivity.
  - intros key y z Hin Hcur.
    destruct (Hchanged _ _ _ Hin Hcur) as (m & Hm & Hv & [u Hu]).
    rewrite (field_validator_of_dict L _ _ _ _ Hcur) in Hv.
    unfold RAGAgent.merged in Hm. cbn in Hm.
    apply bind_ok in Hm as (fz & Hfz & [= <-]).
    cbn [Pydantic.int_validator] in Hv. rewrite Hu in Hv.
    destruct (PyNum.int_of_float (fz + y)) as [t|] eqn:Ht; [|discriminate].
    exists fz, t. split; [done|]. split; [done|]. by rewrite Hu, <- Hv.
  - intros key value current Hin Hcur.
    destruct (Hchanged _ _ _ Hin Hcur) as (m & Hm & Hv & _).
    rewrite (field_validator_of_dict L _ _ _ _ Hcur) in Hv.
    unfold RAGAgent.merged in Hm.
    destruct current, value; try exact I; cbn in Hm; simplify_eq; by rewrite <- Hv.
  - intros key Hkey.
    destruct (decide (key ∈ FinancialContext.fields)) as [Hin|Hout].
    + destruct (dict_lookup_field ctx key Hin) as [v Hv].
      pose proof (apply_changes_unchanged _ _ _ _ Hkey Hmerge) as Hd.
      rewrite Hv in Hd.
      rewrite (validate_field _ _ _ _ _ _ Hval Hd Hin), Hv.
      rewrite (field_validator_of_dict L _ _ _ _ Hv).
      unfold FinancialContext.fields in Hin. rewrite !elem_of_cons in Hin.
      unfold FinancialContext.dict in Hv.
      repeat (destruct Hin as [->|Hin];
              [ rewrite ?lookup_insert_ne in Hv by done;
                rewrite lookup_insert_eq in Hv; injection Hv as <-; reflexivity
              | ]).
      by apply elem_of_nil in Hin.
    + by rewrite !dict_lookup_not_field.
Qed.

(** An instance of claim C1: a revenue change on the test context. *)
Lemma C1_updated_context_fields_witness :
  ∃ a self',
    RAGAgent.analyze_scenario Pydantic.strict (Datetime 2) (Returned "ok")
      (Examples.agent_with Examples.test_context
         [("monthly_revenue", VFloat 100000); ("team_size", VInt 2)])
      "scenario_1" = (Ok a, self') ∧
    NoDup [("monthly_revenue", VFloat 100000); ("team_size", VInt 2)].*1 ∧
    ∀ key,
      key ∉ [("monthly_revenue", VFloat 100000); ("team_size", VInt 2)].*1 →
      FinancialContext.dict (FinancialAnalysis.updated_context a) !! key
      = FinancialContext.dict (FinancialAnalysis.original_context a) !! key.
Proof.
  assert (∃ a self',
            RAGAgent.analyze_scenario Pydantic.strict (Datetime 2) (Returned "ok")
              (Examples.agent_with Examples.test_context
                 [("monthly_revenue", VFloat 100000); ("team_size", VInt 2)])
              "scenario_1" = (Ok a, self')) as (a & self' & Hrun)
    by (vm_compute; eauto).
  assert (NoDup [("monthly_revenue", VFloat 100000); ("team_size", VInt 2)].*1)
    as Hnd.
  { cbn. apply NoDup_cons. split; [|apply NoDup_singleton].
    intros [Heq|Hnil]%elem_of_cons; [discriminate Heq|by apply elem_of_nil in Hnil]. }
  exists a, self'. split; [exact Hrun|]. split; [exact Hnd|].
  exact (proj2 (proj2 (proj2 (proj2 (proj2
           (C1_updated_context_fields Pydantic.strict (Datetime 2) (Returned "ok")
              (Examples.agent_with Examples.test_context
                 [("monthly_revenue", VFloat 100000); ("team_size", VInt 2)])
              self' "scenario_1"
              {| UserScenario.scenario_id := "scenario_1";
                 UserScenario.company_id := "test_company_123";
                 UserScenario.changes :=
                   [("monthly_revenue", VFloat 100000); ("team_size", VInt 2)];
                 UserScenario.timestamp := Datetime 1 |}
              a Hrun eq_refl Hnd)))))).
Defined.

(** Whatever pydantic does with values of a foreign type, a team of 10
    changed by 0.5 comes out as a team of 10. *)
Lemma fractional_team_size_any_lax (L : Pydantic.lax) :
  (RAGAgent.analyze_scenario L (Datetime 2) (Returned "ok")
     (Examples.agent_with Examples.test_context [("team_size", VFloat 0.5)])
     "scenario_1").1
  = (RAGAgent.analyze_scenario Pydantic.strict (Datetime 2) (Returned "ok")
       (Examples.agent_with Examples.test_context [("team_size", VFloat 0.5)])
       "scenario_1").1.
Proof. vm_compute. reflexivity. Qed.

(** Claim C1 as stated fails on an int field changed by a fraction: the
    test context has a team of 10, the scenario changes [team_size] by 0.5,
    original plus change is 10.5, and the updated context has a team of 10. *)
Lemma C1_counterexample_fractional_team_size :
  ∃ a self',
    RAGAgent.analyze_scenario Pydantic.strict (Datetime 2) (Returned "ok")
      (Examples.agent_with Examples.test_context [("team_size", VFloat 0.5)])
      "scenario_1" = (Ok a, self') ∧
    FinancialContext.dict (FinancialAnalysis.original_context a) !! "team_size"
      = Some (VInt 10) ∧
    Py.add (VInt 10) (VFloat 0.5) = Ok (VFloat 10.5) ∧
    FinancialContext.dict (FinancialAnalysis.updated_context a) !! "team_size"
      = Some (VInt 10) ∧
    PyNum.float_of_int 10 = Ok 10%float ∧
    (10 =? 10.5)%float = false.
Proof. eexists _, _. split; [vm_compute; reflexivity|]. repeat split. Qed.

(** ** Failure of the text generation service *)

(** Whether [_generate_summary] raises does not depend on the outcome of
    the generation call. *)
Lemma generate_summary_outcome (original updated : FinancialContext.t)
    (impact : gmap string float) (o o' : generation) :
  match RAGAgent._generate_summary original updated impact o with
  | Ok _ =>
      RAGAgent._generate_summary original updated impact o'
      = Ok ("# Financial Impact Analysis" +:+ Py.nl +:+ Py.nl
              +:+ OpenLLMRAGAgent.generate_response tt o')
  | Raise e => RAGAgent._generate_summary original updated impact o' = Raise e
  end.
Proof.
  unfold RAGAgent._generate_summary.
  destruct (RAGAgent.proposed_changes original updated); cbn; [|done].
  repeat (match goal with
          | |- context [Py.getitem ?d ?k] => destruct (Py.getitem d k); cbn; [|done]
          | |- context [RAGAgent.impact_pct ?x ?y] =>
              destruct (RAGAgent.impact_pct x y); cbn; [|done]
          end).
  reflexivity.
Qed.

(** Claim C4, as the code has it. If [analyze_scenario] returns an analysis
    when the generation call succeeds, then it also returns one when the
    call fails with message [m], with the same ids, contexts and impact
    delta (the delta of the two contexts) and stores it likewise; its
    summary is the non-empty text
    ["# Financial Impact Analysis\n\nError generating response: " + m],
    fixed by the failure message and not by the impact numbers. *)
Theorem C4_generation_failure_degrades (L : Pydantic.lax) (now : datetime)
    (self self' : RAGAgent.t) (scenario_id text message : string)
    (a : FinancialAnalysis.t) :
  RAGAgent.analyze_scenario L now (Returned text) self scenario_id = (Ok a, self') →
  ∃ a',
    RAGAgent.analyze_scenario L now (Raised message) self scenario_id
      = (Ok a',
         {| RAGAgent.context_store := RAGAgent.context_store self;
            RAGAgent.scenario_store := RAGAgent.scenario_store self;
            RAGAgent.analysis_store :=
              <[ FinancialAnalysis.analysis_id a' := a' ]>
                (RAGAgent.analysis_store self) |}) ∧
    FinancialAnalysis.summary a'
      = "# Financial Impact Analysis" +:+ Py.nl +:+ Py.nl
          +:+ "Error generating response: " +:+ message ∧
    FinancialAnalysis.summary a' ≠ "" ∧
    FinancialAnalysis.impact_analysis a'
      = RAGAgent._calculate_impact (FinancialAnalysis.original_context a')
          (FinancialAnalysis.updated_context a') ∧
    FinancialAnalysis.impact_analysis a' = FinancialAnalysis.impact_analysis a ∧
    FinancialAnalysis.original_context a' = FinancialAnalysis.original_context a ∧
    FinancialAnalysis.updated_context a' = FinancialAnalysis.updated_context a ∧
    FinancialAnalysis.analysis_id a' = FinancialAnalysis.analysis_id a ∧
    FinancialAnalysis.scenario_id a' = FinancialAnalysis.scenario_id a ∧
    FinancialAnalysis.company_id a' = FinancialAnalysis.company_id a ∧
    FinancialAnalysis.created_at a' = FinancialAnalysis.created_at a.
Proof.
  intros Ha.
  destruct (analyze_scenario_inv _ _ _ _ _ _ _ Ha)
    as (sc & ctx & d & summary & Hs & Hc & Hmerge & Hval & Hsum & Hid & _).
  pose proof (generate_summary_outcome ctx (FinancialAnalysis.updated_context a)
                (RAGAgent._calculate_impact ctx (FinancialAnalysis.updated_context a))
                (Returned text) (Raised message)) as Hout.
  rewrite Hsum in Hout. cbn [OpenLLMRAGAgent.generate_response] in Hout.
  unfold RAGAgent.analyze_scenario, RAGAgent.get_financial_context.
  rewrite Hs, Hc, Hmerge. cbn [mbind result_bind].
  unfold FinancialContext.make. rewrite Hval. cbn [mbind result_bind].
  rewrite Hout. cbn [mbind result_bind].
  eexists. split; [reflexivity|].
  cbn [FinancialAnalysis.summary FinancialAnalysis.impact_analysis
       FinancialAnalysis.original_context FinancialAnalysis.updated_context
       FinancialAnalysis.analysis_id FinancialAnalysis.scenario_id
       FinancialAnalysis.company_id FinancialAnalysis.created_at].
  rewrite Hid. cbn. repeat split; done.
Qed.

(** An instance of claim C4: a timeout on the first analysis of the test
    context. *)
Lemma C4_generation_failure_degrades_witness :
  ∃ a a',
    (RAGAgent.analyze_scenario Pydantic.strict (Datetime 2) (Returned "ok")
       (Examples.agent_with Examples.test_context
          [("monthly_revenue", VFloat 100000)])
       "scenario_1").1 = Ok a ∧
    (RAGAgent.analyze_scenario Pydantic.strict (Datetime 2) (Raised "timeout")
       (Examples.agent_with Examples.test_context
          [("monthly_revenue", VFloat 100000)])
       "scenario_1").1 = Ok a' ∧
    FinancialAnalysis.summary a'
      = "# Financial Impact Analysis" +:+ Py.nl +:+ Py.nl
          +:+ "Error generating response: timeout" ∧
    FinancialAnalysis.impact_analysis a' = FinancialAnalysis.impact_analysis a.
Proof.
  assert (∃ a self',
            RAGAgent.analyze_scenario Pydantic.strict (Datetime 2) (Returned "ok")
              (Examples.agent_with Examples.test_context
                 [("monthly_revenue", VFloat 100000)])
              "scenario_1" = (Ok a, self')) as (a & self' & Hrun)
    by (vm_compute; eauto).
  destruct (C4_generation_failure_degrades Pydantic.strict (Datetime 2) _ _
              "scenario_1" "ok" "timeout" a Hrun)
    as (a' & Hrun' & Hsummary & _ & _ & Himpact & _).
  exists a, a'. rewrite Hrun, Hrun'. repeat split; assumption.
Defined.

(** Claim C4 as stated fails on the fallback text: it is made of the failure
    message, not of the impact numbers. The same scenario gets two different
    summaries under two failure messages, with one impact delta; and two
    scenarios with different revenue changes get the same summary under one
    failure message. *)
Lemma C4_counterexample_fallback_is_the_error_message :
  ∃ a1 a2 a3,
    (RAGAgent.analyze_scenario Pydantic.strict (Datetime 2) (Raised "timeout")
       (Examples.agent_with Examples.test_context
          [("monthly_revenue", VFloat 100000)])
       "scenario_1").1 = Ok a1 ∧
    (RAGAgent.analyze_scenario Pydantic.strict (Datetime 2) (Raised "rate limit")
       (Examples.agent_with Examples.test_context
          [("monthly_revenue", VFloat 100000)])
       "scenario_1").1 = Ok a2 ∧
    (RAGAgent.analyze_scenario Pydantic.strict (Datetime 2) (Raised "timeout")
       (Examples.agent_with Examples.test_context
          [("monthly_revenue", VFloat 200000)])
       "scenario_1").1 = Ok a3 ∧
    FinancialAnalysis.impact_analysis a1 = FinancialAnalysis.impact_analysis a2 ∧
    FinancialAnalysis.summary a1 ≠ FinancialAnalysis.summary a2 ∧
    FinancialAnalysis.impact_analysis a1 !! "revenue_change" = Some 100000%float ∧
    FinancialAnalysis.impact_analysis a3 !! "revenue_change" = Some 200000%float ∧
    (100000 =? 200000)%float = false ∧
    FinancialAnalysis.summary a1 = FinancialAnalysis.summary a3 ∧
    FinancialAnalysis.summary a1
      = "# Financial Impact Analysis" +:+ Py.nl +:+ Py.nl
          +:+ "Error generating response: timeout".
Proof.
  eexists _, _, _.
  split; [vm_compute; reflexivity|].
  split; [vm_compute; reflexivity|].
  split; [vm_compute; reflexivity|].
  repeat split. vm_compute. discriminate.
Qed.

(** * Further properties of the code *)

(** ** The context store *)

(** [add_financial_context] followed by [get_financial_context]: the context
    is stored under its company id (not its own id) and replaces whatever
    that company had; the call returns the context's id; every other
    company, and the scenario and analysis stores, are untouched. *)
Theorem context_upsert_then_lookup (self : RAGAgent.t)
    (context : FinancialContext.t) :
  (RAGAgent.add_financial_context self context).1 = FinancialContext.id context ∧
  RAGAgent.get_financial_context (RAGAgent.add_financial_context self context).2
    (FinancialContext.company_id context) = Some context ∧
  (∀ other, other ≠ FinancialContext.company_id context →
     RAGAgent.get_financial_context
       (RAGAgent.add_financial_context self context).2 other
     = RAGAgent.get_financial_context self other) ∧
  RAGAgent.scenario_store (RAGAgent.add_financial_context self context).2
    = RAGAgent.scenario_store self ∧
  RAGAgent.analysis_store (RAGAgent.add_financial_context self context).2
    = RAGAgent.analysis_store self.
Proof.
  unfold RAGAgent.add_financial_context, RAGAgent.get_financial_context. cbn.
  split; [done|]. split; [by rewrite lookup_insert_eq|].
  split; [|done]. intros other Hne. by rewrite lookup_insert_ne.
Qed.

(** ** The scenario store *)

(** [analyze_scenario] never writes to the context store or the scenario
    store, whether it returns or raises. *)
Lemma analyze_scenario_keeps_inputs (L : Pydantic.lax) (now : datetime)
    (o : generation) (self : RAGAgent.t) (scenario_id : string) :
  RAGAgent.context_store (RAGAgent.analyze_scenario L now o self scenario_id).2
    = RAGAgent.context_store self ∧
  RAGAgent.scenario_store (RAGAgent.analyze_scenario L now o self scenario_id).2
    = RAGAgent.scenario_store self.
Proof.
  unfold RAGAgent.analyze_scenario, RAGAgent.get_financial_context.
  repeat case_match; done.
Qed.

Lemma next_scenario_id_fresh (self : RAGAgent.t) :
  scenario_ids_in_sequence self →
  RAGAgent.scenario_store self
    !! ("scenario_" +:+ pretty (Z.of_nat (size (RAGAgent.scenario_store self)) + 1))
  = None.
Proof.
  intros Hseq. apply eq_None_not_Some. intros (n & Hn & Heq)%Hseq.
  cbn in Heq. simplify_eq. lia.
Qed.

Lemma reachable_scenario_ids_in_sequence (self : RAGAgent.t) :
  RAGAgent.reachable self → scenario_ids_in_sequence self.
Proof.
  intros [calls ->]. induction calls as [|c calls IH] using rev_ind.
  - intros k [a Ha]. cbn in Ha. by rewrite lookup_empty in Ha.
  - rewrite foldl_app. cbn [foldl].
    set (self := foldl RAGAgent.step RAGAgent.init calls) in *.
    destruct c; cbn [RAGAgent.step].
    + exact IH.
    + intros k. unfold RAGAgent.create_scenario. cbn.
      rewrite map_size_insert_None by (by apply next_scenario_id_fresh).
      rewrite lookup_insert. case_decide as Hk.
      * intros _. eexists. split; [|symmetry; exact Hk]. lia.
      * intros (n & Hn & ->)%IH. exists n. split; [lia|done].
    + intros k. unfold scenario_ids_in_sequence in IH.
      destruct (analyze_scenario_keeps_inputs L now o self scenario_id) as [_ ->].
      apply IH.
Qed.

(** On an agent reached through its interface, [create_scenario] returns
    the id [scenario_{n+1}] for [n] stored scenarios, which no stored
    scenario has; it stores the scenario with the given company id and
    changes under that id and leaves every other scenario, the context
    store and the analysis store as they were. No existence of the company
    is asked for. *)
Theorem create_scenario_stores_under_fresh_id (now : datetime)
    (self : RAGAgent.t) (company_id : string)
    (changes : list (string * pyvalue)) :
  RAGAgent.reachable self →
  let scenario_id := (RAGAgent.create_scenario now self company_id changes).1 in
  let self' := (RAGAgent.create_scenario now self company_id changes).2 in
  scenario_id
    = "scenario_" +:+ pretty (Z.of_nat (size (RAGAgent.scenario_store self)) + 1) ∧
  RAGAgent.scenario_store self !! scenario_id = None ∧
  RAGAgent.scenario_store self' !! scenario_id
    = Some {| UserScenario.scenario_id := scenario_id;
              UserScenario.company_id := company_id;
              UserScenario.changes := changes;
              UserScenario.timestamp := now |} ∧
  (∀ k, k ≠ scenario_id →
        RAGAgent.scenario_store self' !! k = RAGAgent.scenario_store self !! k) ∧
  size (RAGAgent.scenario_store self') = S (size (RAGAgent.scenario_store self)) ∧
  RAGAgent.context_store self' = RAGAgent.context_store self ∧
  RAGAgent.analysis_store self' = RAGAgent.analysis_store self.
Proof.
  intros Hreach scenario_id self'. subst scenario_id self'.
  pose proof (next_scenario_id_fresh _ (reachable_scenario_ids_in_sequence _ Hreach))
    as Hfresh.
  unfold RAGAgent.create_scenario. cbn.
  split; [done|]. split; [done|]. split; [by rewrite lookup_insert_eq|].
  split; [intros k Hk; by rewrite lookup_insert_ne|].
  split; [by apply map_size_insert_None|done].
Qed.

(** An instance: the second scenario of an agent that holds one. *)
Lemma create_scenario_stores_under_fresh_id_witness :
  RAGAgent.reachable (Examples.agent_with Examples.test_context []) ∧
  (RAGAgent.create_scenario (Datetime 3)
     (Examples.agent_with Examples.test_context []) "another_company"
     [("team_size", VInt 1)]).1 = "scenario_2".
Proof.
  assert (RAGAgent.reachable (Examples.agent_with Examples.test_context []))
    as Hreach.
  { exists [RAGAgent.AddFinancialContext Examples.test_context;
            RAGAgent.CreateScenario (Datetime 1) "test_company_123" []].
    reflexivity. }
  split; [exact Hreach|].
  exact (proj1 (create_scenario_stores_under_fresh_id (Datetime 3)
                  (Examples.agent_with Examples.test_context [])
                  "another_company" [("team_size", VInt 1)] Hreach)).
Defined.

(** ** [analyze_scenario]: failures, empty scenarios, repeated calls *)

Lemma analyze_scenario_failure_changes_nothing_aux (L : Pydantic.lax)
    (now : datetime) (o : generation) (self : RAGAgent.t)
    (scenario_id : string) (e : exn) :
  (RAGAgent.analyze_scenario L now o self scenario_id).1 = Raise e →
  (RAGAgent.analyze_scenario L now o self scenario_id).2 = self ∧
  Endpoints.analyze_scenario L now o self scenario_id
    = (Endpoints.HTTPException (if Endpoints.is_ValueError e then 404 else 500) e,
       self).
Proof.
  intros Hraise.
  assert ((RAGAgent.analyze_scenario L now o self scenario_id).2 = self) as Hsame.
  { revert Hraise.
    unfold RAGAgent.analyze_scenario, RAGAgent.get_financial_context.
    destruct (RAGAgent.scenario_store self !! scenario_id) as [scenario|]; [|done].
    destruct (RAGAgent.context_store self !! UserScenario.company_id scenario)
      as [context|]; [|done].
    destruct (RAGAgent.apply_changes _ _) as [d|e1]; [|done].
    cbn [mbind result_bind].
    destruct (FinancialContext.make L now d) as [updated|e1]; [|done].
    cbn [mbind result_bind].
    destruct (RAGAgent._generate_summary _ _ _ _); done. }
  split; [exact Hsame|].
  unfold Endpoints.analyze_scenario.
  destruct (RAGAgent.analyze_scenario L now o self scenario_id) as [r self'].
  cbn in Hraise, Hsame. by subst.
Qed.

(** A call that raises stores nothing: the agent is exactly as before, and
    so it is behind the endpoint's 404 or 500. *)
Theorem analyze_scenario_failure_changes_nothing (L : Pydantic.lax)
    (now : datetime) (o : generation) (self : RAGAgent.t)
    (scenario_id : string) (e : exn) :
  (RAGAgent.analyze_scenario L now o self scenario_id).1 = Raise e →
  (RAGAgent.analyze_scenario L now o self scenario_id).2 = self ∧
  Endpoints.analyze_scenario L now o self scenario_id
    = (Endpoints.HTTPException (if Endpoints.is_ValueError e then 404 else 500) e,
       self).
Proof. apply analyze_scenario_failure_changes_nothing_aux. Qed.

(** An instance: a text where a number is expected. *)
Lemma analyze_scenario_failure_changes_nothing_witness :
  (RAGAgent.analyze_scenario Pydantic.strict (Datetime 2) (Returned "ok")
     (Examples.agent_with Examples.test_context
        [("monthly_revenue", VStr "a lot")])
     "scenario_1").1 = Raise TypeError ∧
  (RAGAgent.analyze_scenario Pydantic.strict (Datetime 2) (Returned "ok")
     (Examples.agent_with Examples.test_context
        [("monthly_revenue", VStr "a lot")])
     "scenario_1").2
  = Examples.agent_with Examples.test_context [("monthly_revenue", VStr "a lot")].
Proof.
  assert ((RAGAgent.analyze_scenario Pydantic.strict (Datetime 2) (Returned "ok")
             (Examples.agent_with Examples.test_context
                [("monthly_revenue", VStr "a lot")])
             "scenario_1").1 = Raise TypeError) as Hraise
    by (vm_compute; reflexivity).
  split; [exact Hraise|].
  exact (proj1 (analyze_scenario_failure_changes_nothing _ _ _ _ _ _ Hraise)).
Defined.

Lemma eqb_zero_self (r : float) : (r =? 0)%float = true → (r =? r)%float = true.
Proof.
  rewrite !FloatAxioms.eqb_spec.
  replace (Prim2SF 0) with (S754_zero false) by reflexivity.
  destruct (Prim2SF r) as [s|s| |s m e]; try destruct s; cbn; congruence.
Qed.






Lemma add_number_non_number (current value : pyvalue) :
  Py.isinstance_int_float current = true →
  Py.isinstance_int_float value = false →
  Py.add current value = Raise TypeError.
Proof. destruct current, value; cbn; congruence. Qed.

(** A numeric field changed by a value that is not a number (a string, a
    list, [None], ...) makes the merge raise: [analyze_scenario] returns no
    analysis but [TypeError] (or the [OverflowError] of an earlier key),
    and the endpoint answers 500. *)
Theorem numeric_field_rejects_non_number (L : Pydantic.lax) (now : datetime)
    (o : generation) (self : RAGAgent.t) (scenario_id : string)
    (scenario : UserScenario.t) (context : FinancialContext.t)
    (key : string) (value current : pyvalue) :
  RAGAgent.scenario_store self !! scenario_id = Some scenario →
  RAGAgent.context_store self !! UserScenario.company_id scenario = Some context →
  NoDup (UserScenario.changes scenario).*1 →
  (key, value) ∈ UserScenario.changes scenario →
  FinancialContext.dict context !! key = Some current →
  Py.isinstance_int_float current = true →
  Py.isinstance_int_float value = false →
  ∃ e, (e = TypeError ∨ e = OverflowError) ∧
       RAGAgent.analyze_scenario L now o self scenario_id = (Raise e, self) ∧
       Endpoints.analyze_scenario L now o self scenario_id
         = (Endpoints.HTTPException 500 e, self).
Proof.
  intros Hs Hc Hnd Hin Hcur Hnum Hval.
  unfold Endpoints.analyze_scenario, RAGAgent.analyze_scenario,
    RAGAgent.get_financial_context.
  rewrite Hs, Hc.
  destruct (RAGAgent.apply_changes _ _) as [d|e] eqn:Hmerge.
  - destruct (apply_changes_changed _ _ _ _ _ _ Hnd Hin Hcur Hmerge)
      as (m & Hm & _).
    unfold RAGAgent.merged in Hm.
    rewrite Hnum, (add_number_non_number _ _ Hnum Hval) in Hm. discriminate.
  - exists e. cbn [mbind result_bind].
    apply apply_changes_raise in Hmerge as [-> | ->]; split; auto.
Qed.

(** An instance: the revenue changed by the text "a lot". *)
Lemma numeric_field_rejects_non_number_witness :
  ∃ e, (e = TypeError ∨ e = OverflowError) ∧
    Endpoints.analyze_scenario Pydantic.strict (Datetime 2) (Returned "ok")
      (Examples.agent_with Examples.test_context
         [("monthly_revenue", VStr "a lot")])
      "scenario_1"
    = (Endpoints.HTTPException 500 e,
       Examples.agent_with Examples.test_context
         [("monthly_revenue", VStr "a lot")]).
Proof.
  destruct (numeric_field_rejects_non_number Pydantic.strict (Datetime 2)
              (Returned "ok")
              (Examples.agent_with Examples.test_context
                 [("monthly_revenue", VStr "a lot")])
              "scenario_1"
              {| UserScenario.scenario_id := "scenario_1";
                 UserScenario.company_id := "test_company_123";
                 UserScenario.changes := [("monthly_revenue", VStr "a lot")];
                 UserScenario.timestamp := Datetime 1 |}
              Examples.test_context "monthly_revenue" (VStr "a lot")
              (VFloat 500000) eq_refl eq_refl
              ltac:(cbn; apply NoDup_singleton)
              ltac:(apply list_elem_of_singleton; reflexivity)
              eq_refl eq_refl eq_refl)
    as (e & He & _ & Hendpoint).
  exists e. split; [exact He|exact Hendpoint].
Defined.

(** The clock only supplies the default of a missing [last_updated]. *)
Lemma validate_clock (L : Pydantic.lax) (now now' : datetime)
    (data : gmap string pyvalue) :
  is_Some (data !! "last_updated") →
  FinancialContext.validate L now data = FinancialContext.validate L now' data.
Proof. intros [v Hv]. unfold FinancialContext.validate. by rewrite Hv. Qed.

Lemma merged_data_has_last_updated (c : FinancialContext.t)
    (changes : list (string * pyvalue)) (d : gmap string pyvalue) :
  RAGAgent.apply_changes (FinancialContext.dict c) changes = Ok d →
  is_Some (d !! "last_updated").
Proof.
  intros Hd%apply_changes_same_keys. apply elem_of_dom. rewrite Hd.
  apply elem_of_dom, dict_lookup_field.
  unfold FinancialContext.fields. rewrite !elem_of_cons. tauto.
Qed.

(** Analysing the same scenario again is not idempotent. On an agent
    reached through its interface, a second call (at any later clock
    reading, with any outcome of the generation call) returns a second
    analysis of the same contexts and impact under the next id, and both
    analyses are stored. *)
Theorem analyze_scenario_twice_stores_two (L : Pydantic.lax)
    (now now' : datetime) (o o' : generation) (self self1 : RAGAgent.t)
    (scenario_id : string) (a1 : FinancialAnalysis.t) :
  RAGAgent.reachable self →
  RAGAgent.analyze_scenario L now o self scenario_id = (Ok a1, self1) →
  ∃ a2 self2,
    RAGAgent.analyze_scenario L now' o' self1 scenario_id = (Ok a2, self2) ∧
    FinancialAnalysis.analysis_id a1
      = "analysis_" +:+ pretty (Z.of_nat (size (RAGAgent.analysis_store self)) + 1) ∧
    FinancialAnalysis.analysis_id a2
      = "analysis_" +:+ pretty (Z.of_nat (size (RAGAgent.analysis_store self)) + 2) ∧
    FinancialAnalysis.analysis_id a2 ≠ FinancialAnalysis.analysis_id a1 ∧
    RAGAgent.analysis_store self2 !! FinancialAnalysis.analysis_id a1 = Some a1 ∧
    RAGAgent.analysis_store self2 !! FinancialAnalysis.analysis_id a2 = Some a2 ∧
    size (RAGAgent.analysis_store self2)
      = S (S (size (RAGAgent.analysis_store self))) ∧
    FinancialAnalysis.original_context a2 = FinancialAnalysis.original_context a1 ∧
    FinancialAnalysis.updated_context a2 = FinancialAnalysis.updated_context a1 ∧
    FinancialAnalysis.impact_analysis a2 = FinancialAnalysis.impact_analysis a1.
Proof.
  intros Hreach Ha.
  pose proof (next_analysis_id_fresh _ (reachable_ids_in_sequence _ Hreach))
    as Hfresh.
  destruct (analyze_scenario_inv _ _ _ _ _ _ _ Ha)
    as (sc & ctx & d & summary & Hs & Hc & Hmerge & Hval & Hsum & Hid & ->).
  set (upd := FinancialAnalysis.updated_context a1) in *.
  assert (FinancialAnalysis.analysis_id a1
          = "analysis_" +:+
              pretty (Z.of_nat (size (RAGAgent.analysis_store self)) + 1)) as Hid1
    by (rewrite Hid; reflexivity).
  pose proof (generate_summary_outcome ctx upd (RAGAgent._calculate_impact ctx upd)
                o o') as Hout.
  rewrite Hsum in Hout.
  unfold RAGAgent.analyze_scenario, RAGAgent.get_financial_context.
  cbn [RAGAgent.scenario_store RAGAgent.context_store RAGAgent.analysis_store].
  rewrite Hs, Hc, Hmerge. cbn [mbind result_bind]. unfold FinancialContext.make.
  rewrite (validate_clock L now' now)
    by (eapply merged_data_has_last_updated; eassumption).
  rewrite Hval. cbn [mbind result_bind]. rewrite Hout. cbn [mbind result_bind].
  rewrite Hid1, map_size_insert_None by exact Hfresh.
  replace (Z.of_nat (S (size (RAGAgent.analysis_store self))) + 1)
    with (Z.of_nat (size (RAGAgent.analysis_store self)) + 2) by lia.
  eexists _, _. split; [reflexivity|].
  cbn [FinancialAnalysis.analysis_id FinancialAnalysis.original_context
       FinancialAnalysis.updated_context FinancialAnalysis.impact_analysis
       RAGAgent.analysis_store].
  assert ("analysis_" +:+
            pretty (Z.of_nat (size (RAGAgent.analysis_store self)) + 2)
          ≠ "analysis_" +:+
              pretty (Z.of_nat (size (RAGAgent.analysis_store self)) + 1)) as Hne.
  { cbn. intros Heq. simplify_eq. lia. }
  split; [done|]. split; [done|]. split; [exact Hne|].
  split; [rewrite lookup_insert_ne by exact Hne; by rewrite lookup_insert_eq|].
  split; [by rewrite lookup_insert_eq|].
  split.
  { rewrite map_size_insert_None; [by rewrite map_size_insert_None|].
    rewrite lookup_insert_ne by (intros Heq; by apply Hne).
    apply eq_None_not_Some.
    intros (n & Hn & Heq)%(reachable_ids_in_sequence _ Hreach).
    cbn in Heq. simplify_eq. lia. }
  rewrite Hid. done.
Qed.

(** An instance: two analyses of the first scenario of the test agent. *)
Lemma analyze_scenario_twice_stores_two_witness :
  ∃ a1 self1 a2 self2,
    RAGAgent.analyze_scenario Pydantic.strict (Datetime 2) (Returned "ok")
      (Examples.agent_with Examples.test_context
         [("monthly_revenue", VFloat 100000)])
      "scenario_1" = (Ok a1, self1) ∧
    RAGAgent.analyze_scenario Pydantic.strict (Datetime 3) (Raised "timeout")
      self1 "scenario_1" = (Ok a2, self2) ∧
    FinancialAnalysis.analysis_id a2 ≠ FinancialAnalysis.analysis_id a1 ∧
    size (RAGAgent.analysis_store self2) = 2%nat.
Proof.
  assert (RAGAgent.reachable
            (Examples.agent_with Examples.test_context
               [("monthly_revenue", VFloat 100000)])) as Hreach.
  { exists [RAGAgent.AddFinancialContext Examples.test_context;
            RAGAgent.CreateScenario (Datetime 1) "test_company_123"
              [("monthly_revenue", VFloat 100000)]].
    reflexivity. }
  assert (∃ a self',
            RAGAgent.analyze_scenario Pydantic.strict (Datetime 2) (Returned "ok")
              (Examples.agent_with Examples.test_context
                 [("monthly_revenue", VFloat 100000)])
              "scenario_1" = (Ok a, self')) as (a1 & self1 & Hrun)
    by (vm_compute; eauto).
  destruct (analyze_scenario_twice_stores_two Pydantic.strict (Datetime 2)
              (Datetime 3) (Returned "ok") (Raised "timeout") _ _ _ _
              Hreach Hrun)
    as (a2 & self2 & Hrun2 & _ & _ & Hne & _ & _ & Hsize & _).
  exists a1, self1, a2, self2.
  split; [exact Hrun|]. split; [exact Hrun2|]. split; [exact Hne|exact Hsize].
Defined.

(** A scenario is analysed against the context its company has at that
    moment, not the one it had when the scenario was created: after an
    upsert for the scenario's company, the original context of the next
    analysis is the upserted context. *)
Theorem analysis_uses_latest_context (L : Pydantic.lax) (now : datetime)
    (o : generation) (self self' : RAGAgent.t) (scenario_id : string)
    (scenario : UserScenario.t) (context : FinancialContext.t)
    (a : FinancialAnalysis.t) :
  RAGAgent.scenario_store self !! scenario_id = Some scenario →
  FinancialContext.company_id context = UserScenario.company_id scenario →
  RAGAgent.analyze_scenario L now o
    (RAGAgent.add_financial_context self context).2 scenario_id = (Ok a, self') →
  FinancialAnalysis.original_context a = context ∧
  FinancialAnalysis.company_id a = FinancialContext.company_id context.
Proof.
  intros Hs Hcompany Ha.
  destruct (analyze_scenario_inv _ _ _ _ _ _ _ Ha)
    as (sc & ctx & d & summary & Hs' & Hc & _ & _ & _ & Hid & _).
  cbn in Hs', Hc. rewrite Hs in Hs'. injection Hs' as <-.
  rewrite <- Hcompany, lookup_insert_eq in Hc. injection Hc as <-.
  rewrite Hid. cbn. by rewrite Hcompany.
Qed.

(** An instance: the company's revenue drops to zero after the scenario
    was created, and the analysis starts from the new context. *)
Lemma analysis_uses_latest_context_witness :
  ∃ a self',
    RAGAgent.analyze_scenario Pydantic.strict (Datetime 2) (Returned "ok")
      (RAGAgent.add_financial_context
         (Examples.agent_with Examples.test_context [("team_size", VInt 2)])
         Examples.no_revenue_context).2
      "scenario_1" = (Ok a, self') ∧
    FinancialAnalysis.original_context a = Examples.no_revenue_context.
Proof.
  assert (∃ a self',
            RAGAgent.analyze_scenario Pydantic.strict (Datetime 2) (Returned "ok")
              (RAGAgent.add_financial_context
                 (Examples.agent_with Examples.test_context [("team_size", VInt 2)])
                 Examples.no_revenue_context).2
              "scenario_1" = (Ok a, self')) as (a & self' & Hrun)
    by (vm_compute; eauto).
  exists a, self'. split; [exact Hrun|].
  exact (proj1 (analysis_uses_latest_context Pydantic.strict (Datetime 2)
                  (Returned "ok")
                  (Examples.agent_with Examples.test_context [("team_size", VInt 2)])
                  self' "scenario_1"
                  {| UserScenario.scenario_id := "scenario_1";
                     UserScenario.company_id := "test_company_123";
                     UserScenario.changes := [("team_size", VInt 2)];
                     UserScenario.timestamp := Datetime 1 |}
                  Examples.no_revenue_context a eq_refl eq_refl Hrun)).
Defined.

(** ** The endpoints of [endpoints/rag.py] *)

(** [GET /summary/{scenario_id}] is not a read: it runs a new analysis. On
    an agent reached through its interface a successful request stores one
    more analysis, under an id that was free, and answers with that
    analysis's summary; a failed request (404 for a [ValueError], 500
    otherwise) leaves the agent as it was. *)
Theorem get_analysis_summary_stores_an_analysis (L : Pydantic.lax)
    (now : datetime) (o : generation) (self : RAGAgent.t)
    (scenario_id : string) :
  RAGAgent.reachable self →
  match Endpoints.get_analysis_summary L now o self scenario_id with
  | (Endpoints.Reply body, self') =>
      ∃ a,
        RAGAgent.analysis_store self !! FinancialAnalysis.analysis_id a = None ∧
        RAGAgent.analysis_store self'
          = <[ FinancialAnalysis.analysis_id a := a ]>
              (RAGAgent.analysis_store self) ∧
        size (RAGAgent.analysis_store self')
          = S (size (RAGAgent.analysis_store self)) ∧
        Endpoints.summary body = FinancialAnalysis.summary a ∧
        Endpoints.scenario_id body = scenario_id ∧
        Endpoints.company_id body = FinancialAnalysis.company_id a ∧
        FinancialAnalysis.scenario_id a = scenario_id
  | (Endpoints.Failed status_code e, self') =>
      self' = self ∧
      status_code = (if Endpoints.is_ValueError e then 404 else 500)
  | (Endpoints.Refused _ _, _) => False
  end.
Proof.
  intros Hreach. unfold Endpoints.get_analysis_summary.
  destruct (RAGAgent.analyze_scenario L now o self scenario_id)
    as [[a|e] self'] eqn:Ha.
  - pose proof (next_analysis_id_fresh _ (reachable_ids_in_sequence _ Hreach))
      as Hfresh.
    destruct (analyze_scenario_inv _ _ _ _ _ _ _ Ha)
      as (sc & ctx & d & summary & _ & _ & _ & _ & _ & Hid & ->).
    assert (RAGAgent.analysis_store self !! FinancialAnalysis.analysis_id a = None)
      as Hnew by (rewrite Hid; exact Hfresh).
    exists a. cbn. split; [done|]. split; [done|].
    split; [by apply map_size_insert_None|].
    split; [done|]. split; [done|]. split; [done|]. by rewrite Hid.
  - destruct (analyze_scenario_failure_changes_nothing_aux L now o self scenario_id e)
      as [Hsame _]; [by rewrite Ha|].
    rewrite Ha in Hsame. done.
Qed.

(** An instance: a first summary request on the test agent. *)
Lemma get_analysis_summary_stores_an_analysis_witness :
  RAGAgent.reachable
    (Examples.agent_with Examples.test_context [("monthly_revenue", VFloat 100000)]) ∧
  size (RAGAgent.analysis_store
          (Endpoints.get_analysis_summary Pydantic.strict (Datetime 2)
             (Returned "ok")
             (Examples.agent_with Examples.test_context
                [("monthly_revenue", VFloat 100000)])
             "scenario_1").2) = 1%nat.
Proof.
  assert (RAGAgent.reachable
            (Examples.agent_with Examples.test_context
               [("monthly_revenue", VFloat 100000)])) as Hreach.
  { exists [RAGAgent.AddFinancialContext Examples.test_context;
            RAGAgent.CreateScenario (Datetime 1) "test_company_123"
              [("monthly_revenue", VFloat 100000)]].
    reflexivity. }
  split; [exact Hreach|].
  pose proof (get_analysis_summary_stores_an_analysis Pydantic.strict (Datetime 2)
                (Returned "ok") _ "scenario_1" Hreach) as H.
  assert (∃ body self',
            Endpoints.get_analysis_summary Pydantic.strict (Datetime 2)
              (Returned "ok")
              (Examples.agent_with Examples.test_context
                 [("monthly_revenue", VFloat 100000)])
              "scenario_1" = (Endpoints.Reply body, self'))
    as (body & self' & Hrun) by (vm_compute; eauto).
  rewrite Hrun in H |- *. destruct H as (a & _ & _ & Hsize & _). exact Hsize.
Defined.

(** A scenario can be created for a company that has no context: nothing
    checks it at creation. The failure shows at analysis time, as a 404
    naming the company, and the stored scenario stays. *)
Theorem scenario_for_unknown_company_fails_at_analysis (L : Pydantic.lax)
    (now now' : datetime) (o : generation) (self : RAGAgent.t)
    (company_id : string) (changes : list (string * pyvalue)) :
  RAGAgent.context_store self !! company_id = None →
  let scenario_id := (RAGAgent.create_scenario now self company_id changes).1 in
  let self1 := (RAGAgent.create_scenario now self company_id changes).2 in
  Endpoints.create_scenario now self company_id changes
    = (Endpoints.Reply scenario_id, self1) ∧
  is_Some (RAGAgent.scenario_store self1 !! scenario_id) ∧
  Endpoints.analyze_scenario L now' o self1 scenario_id
    = (Endpoints.HTTPException 404
         (ValueError ("No financial context found for company " +:+ company_id)),
       self1).
Proof.
  intros Hc scenario_id self1. subst scenario_id self1.
  unfold Endpoints.create_scenario, Endpoints.analyze_scenario,
    RAGAgent.analyze_scenario, RAGAgent.get_financial_context,
    RAGAgent.create_scenario.
  cbn. rewrite lookup_insert_eq. cbn. rewrite Hc.
  split; [done|]. split; [eauto|done].
Qed.

(** An instance: a scenario for "nobody" on a fresh agent. *)
Lemma scenario_for_unknown_company_fails_at_analysis_witness :
  Endpoints.analyze_scenario Pydantic.strict (Datetime 2) (Returned "ok")
    Examples.agent_without_context "scenario_1"
  = (Endpoints.HTTPException 404
       (ValueError "No financial context found for company nobody"),
     Examples.agent_without_context).
Proof.
  exact (proj2 (proj2 (scenario_for_unknown_company_fails_at_analysis
                         Pydantic.strict (Datetime 1) (Datetime 2) (Returned "ok")
                         RAGAgent.init "nobody" [] (lookup_empty _)))).
Defined.

Lemma validate_id (L : Pydantic.lax) (now : datetime)
    (data : gmap string pyvalue) (c : FinancialContext.t) (s : string) :
  FinancialContext.validate L now data = Some c →
  data !! "id" = Some (VStr s) → FinancialContext.id c = s.
Proof.
  intros Hval Hid.
  assert ("id" ∈ FinancialContext.fields) as Hin
    by (unfold FinancialContext.fields; rewrite !elem_of_cons; tauto).
  pose proof (validate_field L now data c "id" (VStr s) Hval Hid Hin) as H.
  destruct c. cbn in H. by injection H.
Qed.

Lemma validate_company_id (L : Pydantic.lax) (now : datetime)
    (data : gmap string pyvalue) (c : FinancialContext.t) (s : string) :
  FinancialContext.validate L now data = Some c →
  data !! "company_id" = Some (VStr s) → FinancialContext.company_id c = s.
Proof.
  intros Hval Hid.
  assert ("company_id" ∈ FinancialContext.fields) as Hin
    by (unfold FinancialContext.fields; rewrite !elem_of_cons; tauto).
  pose proof (validate_field L now data c "company_id" (VStr s) Hval Hid Hin) as H.
  destruct c. cbn in H. by injection H.
Qed.

(** [POST /context]. A payload without [company_id] is answered with 400
    "company_id is required" and every other failure with 400 too, the agent
    untouched. A successful request answers with the id of a context that
    is then the one [get_financial_context] returns for its company: the
    company named by a string [company_id], under the payload's own string
    [id], or under ["ctx_" + 8 hex digits] when the payload has none. *)
Theorem update_financial_context_upserts (L : Pydantic.lax) (now : datetime)
    (uuid_hex8 : string) (self : RAGAgent.t)
    (context_data : gmap string pyvalue) :
  (context_data !! "company_id" = None →
     Endpoints.update_financial_context L now uuid_hex8 self context_data
     = (Endpoints.Failed 400 (ValueError "company_id is required"), self)) ∧
  (∀ status_code e self',
     Endpoints.update_financial_context L now uuid_hex8 self context_data
     = (Endpoints.Failed status_code e, self') →
     status_code = 400 ∧ self' = self) ∧
  (∀ context_id self',
     Endpoints.update_financial_context L now uuid_hex8 self context_data
     = (Endpoints.Reply context_id, self') →
     ∃ context,
       FinancialContext.id context = context_id ∧
       RAGAgent.get_financial_context self' (FinancialContext.company_id context)
         = Some context ∧
       (∀ company, context_data !! "company_id" = Some (VStr company) →
                   FinancialContext.company_id context = company) ∧
       (∀ id, context_data !! "id" = Some (VStr id) → context_id = id) ∧
       (context_data !! "id" = None → context_id = "ctx_" +:+ uuid_hex8)).
Proof.
  unfold Endpoints.update_financial_context.
  set (data := match context_data !! "id" with
               | Some _ => context_data
               | None => <["id":=VStr ("ctx_" +:+ uuid_hex8)]> context_data
               end).
  assert (data !! "company_id" = context_data !! "company_id") as Hcompany.
  { subst data. destruct (context_data !! "id"); [done|].
    by rewrite lookup_insert_ne. }
  split; [|split].
  - intros Hnone. by rewrite Hcompany, Hnone.
  - intros status_code e self'. rewrite Hcompany.
    destruct (context_data !! "company_id"); [|by intros [= <- <- <-]].
    destruct (FinancialContext.make L now data); [done|]. by intros [= <- <- <-].
  - intros context_id self'. rewrite Hcompany.
    destruct (context_data !! "company_id") as [v|] eqn:Hv; [|done].
    unfold FinancialContext.make.
    destruct (FinancialContext.validate L now data) as [context|] eqn:Hval;
      [|done].
    intros [= <- <-]. exists context. split; [done|].
    split; [cbn; unfold RAGAgent.get_financial_context; cbn;
            by rewrite lookup_insert_eq|].
    split; [|split].
    + intros company [= ->]. eapply validate_company_id; [exact Hval|].
      by rewrite Hcompany.
    + intros id Hid. eapply validate_id; [exact Hval|].
      subst data. by rewrite Hid.
    + intros Hid. eapply validate_id; [exact Hval|].
      subst data. rewrite Hid. by rewrite lookup_insert_eq.
Qed.

(** An instance: the test context posted without an id. *)
Lemma update_financial_context_upserts_witness :
  ∃ self',
    Endpoints.update_financial_context Pydantic.strict (Datetime 5) "1a2b3c4d"
      RAGAgent.init (delete "id" (FinancialContext.dict Examples.test_context))
    = (Endpoints.Reply "ctx_1a2b3c4d", self') ∧
    ∃ context,
      FinancialContext.id context = "ctx_1a2b3c4d" ∧
      RAGAgent.get_financial_context self' (FinancialContext.company_id context)
        = Some context.
Proof.
  assert (∃ self',
            Endpoints.update_financial_context Pydantic.strict (Datetime 5)
              "1a2b3c4d" RAGAgent.init
              (delete "id" (FinancialContext.dict Examples.test_context))
            = (Endpoints.Reply "ctx_1a2b3c4d", self')) as [self' Hrun]
    by (vm_compute; eauto).
  exists self'. split; [exact Hrun|].
  destruct (proj2 (proj2 (update_financial_context_upserts Pydantic.strict
                            (Datetime 5) "1a2b3c4d" RAGAgent.init
                            (delete "id" (FinancialContext.dict Examples.test_context))))
              _ _ Hrun) as (context & Hid & Hget & _).
  exists context. split; [exact Hid|exact Hget].
Defined.

(** ** The vector store *)

Lemma getitem_ok {V : Type} (d : gmap string V) (key : string) (v : V) :
  Py.getitem d key = Ok v → d !! key = Some v.
Proof. unfold Py.getitem. destruct (d !! key); congruence. Qed.

Lemma comprehension_Forall2 {A B : Type} (f : A → result B) (l : list A)
    (r : list B) :
  VectorStore.comprehension f l = Ok r ↔ Forall2 (λ x y, f x = Ok y) l r.
Proof.
  revert r. induction l as [|x l IH]; intros r; cbn.
  - split; [intros [= <-]; constructor|by intros ->%Forall2_nil_inv_l].
  - split.
    + intros (y & Hy & H)%bind_ok. apply bind_ok in H as (ys & Hys & [= <-]).
      constructor; [done|]. by apply IH.
    + intros (y & ys & Hy & Hys & ->)%Forall2_cons_inv_l.
      rewrite Hy. cbn. apply IH in Hys. rewrite Hys. reflexivity.
Qed.

Lemma comprehension_raise {A B : Type} (f : A → result B) (l : list A) (e : exn) :
  VectorStore.comprehension f l = Raise e → ∃ x, x ∈ l ∧ f x = Raise e.
Proof.
  induction l as [|x l IH]; cbn; [done|].
  intros [H|(y & _ & H)]%bind_raise.
  - exists x. split; [apply list_elem_of_here|done].
  - apply bind_raise in H as [H|(? & _ & [=])].
    destruct (IH H) as (x' & Hin & Hx'). exists x'.
    split; [by apply list_elem_of_further|done].
Qed.

Lemma vector_store_add_documents_appends_aux (rand : nat → embedding)
    (self : VectorStore.t) (documents : list VectorStore.document) :
  match VectorStore.add_documents rand self documents with
  | Ok self' =>
      VectorStore.documents self' = VectorStore.documents self ++ documents ∧
      VectorStore.index self'
        = VectorStore.index self ++ (rand <$> seq 0 (length documents)) ∧
      VectorStore.dimension self' = VectorStore.dimension self ∧
      Forall (λ doc, is_Some (doc !! "text")) documents ∧
      (documents = [] → self' = self)
  | Raise e =>
      e = KeyError "text" ∧ ∃ doc, doc ∈ documents ∧ doc !! "text" = None
  end.
Proof.
  unfold VectorStore.add_documents.
  destruct documents as [|doc0 rest]; [by rewrite !app_nil_r|].
  cbv beta iota.
  destruct (VectorStore.comprehension (λ doc, Py.getitem doc "text")
              (doc0 :: rest)) as [texts|e] eqn:Htexts;
    cbn [mbind result_bind].
  - apply comprehension_Forall2 in Htexts.
    rewrite <- (Forall2_length _ _ _ Htexts). cbn [VectorStore.documents
      VectorStore.index VectorStore.dimension].
    split; [reflexivity|]. split; [reflexivity|]. split; [reflexivity|].
    split; [|intros [=]].
    eapply Forall2_Forall_l; [exact Htexts|].
    apply Forall_true. intros text doc Hdoc%getitem_ok. by exists text.
  - apply comprehension_raise in Htexts as (doc & Hin & Hdoc).
    unfold Py.getitem in Hdoc. destruct (doc !! "text") eqn:Htext; [done|].
    injection Hdoc as <-. eauto.
Qed.


(** [VectorStore.add_documents] appends: the new documents go after the
    stored ones, in order and without deduplication, and the index gets one
    row per new document after its old rows; an empty list changes
    nothing. If a document has no ["text"] the call raises [KeyError] and
    there is no new store. *)
Theorem vector_store_add_documents_appends (rand : nat → embedding)
    (self : VectorStore.t) (documents : list VectorStore.document) :
  match VectorStore.add_documents rand self documents with
  | Ok self' =>
      VectorStore.documents self' = VectorStore.documents self ++ documents ∧
      VectorStore.index self'
        = VectorStore.index self ++ (rand <$> seq 0 (length documents)) ∧
      VectorStore.dimension self' = VectorStore.dimension self ∧
      Forall (λ doc, is_Some (doc !! "text")) documents ∧
      (documents = [] → self' = self)
  | Raise e =>
      e = KeyError "text" ∧ ∃ doc, doc ∈ documents ∧ doc !! "text" = None
  end.
Proof. apply vector_store_add_documents_appends_aux. Qed.

(** The index and the document list of a store stay in step: a store
    built from [VectorStore(dimension)] by successful [add_documents] calls
    has as many index rows as documents. *)
Theorem vector_store_index_in_sync (self : VectorStore.t) :
  KnowledgeBase.reachable self →
  length (VectorStore.index self) = length (VectorStore.documents self).
Proof.
  induction 1 as [dimension|rand self self' documents _ IH Hadd]; [done|].
  pose proof (vector_store_add_documents_appends_aux rand self documents) as H.
  rewrite Hadd in H. destruct H as (-> & -> & _).
  rewrite !length_app, length_fmap, length_seq. lia.
Qed.

(** An instance: the two-document store of the examples. *)
Lemma vector_store_index_in_sync_witness :
  ∃ store,
    Examples.store_of_two = Ok store ∧
    KnowledgeBase.reachable store ∧
    length (VectorStore.index store) = length (VectorStore.documents store).
Proof.
  assert (∃ store, Examples.store_of_two = Ok store) as [store Hstore]
    by (eexists; reflexivity).
  assert (KnowledgeBase.reachable store) as Hreach.
  { eapply KnowledgeBase.reachable_add;
      [apply (KnowledgeBase.reachable_init 2)|exact Hstore]. }
  exists store. split; [exact Hstore|]. split; [exact Hreach|].
  exact (vector_store_index_in_sync store Hreach).
Defined.

Lemma list_getitem_nonneg {A : Type} (l : list A) (i : Z) (x : A) :
  0 ≤ i → VectorStore.list_getitem l i = Ok x → l !! Z.to_nat i = Some x.
Proof.
  intros Hi. unfold VectorStore.list_getitem.
  destruct (Z.ltb_spec i 0); [lia|]. destruct (Z.ltb_spec i 0); [lia|].
  destruct (l !! Z.to_nat i); congruence.
Qed.

Lemma search_returns_k_documents_aux (E : Faiss.engine) (query : embedding)
    (self : VectorStore.t) (k : Z) :
  Faiss.contract E →
  length (VectorStore.index self) = length (VectorStore.documents self) →
  0 < k ≤ Z.of_nat (length (VectorStore.documents self)) →
  ∃ labels results,
    Faiss.index_search E (VectorStore.index self) query k = Ok labels ∧
    VectorStore.search E query self k = Ok results ∧
    length results = Z.to_nat k ∧
    NoDup labels ∧
    Forall2 (λ label doc,
               0 ≤ label < Z.of_nat (length (VectorStore.documents self)) ∧
               VectorStore.documents self !! Z.to_nat label = Some doc)
            labels results.
Proof.
  intros HE Hsync Hk. unfold VectorStore.search.
  destruct (VectorStore.documents self) as [|d0 ds] eqn:Hdocs; [cbn in Hk; lia|].
  rewrite <- Hdocs in *. set (docs := VectorStore.documents self) in *.
  destruct (HE (VectorStore.index self) query k) as (labels & Hsearch & Hlabels);
    [lia|].
  destruct Hlabels as (found & -> & Hlen & Hnd & Hrange). rewrite Hsync in *.
  replace (Z.to_nat k - length docs)%nat with 0%nat in * by lia.
  cbn [replicate] in *. rewrite app_nil_r in *.
  rewrite Hsearch. cbn [mbind result_bind].
  assert (filter (λ idx, idx < Z.of_nat (length docs)) found = found) as ->.
  { clear Hlen Hnd Hsearch. induction Hrange as [|i l Hi _ IH]; [done|].
    rewrite filter_cons_True by lia. by rewrite IH. }
  destruct (comprehension_total (VectorStore.list_getitem docs) found)
    as (r & Hr & Hrlen).
  { eapply Forall_impl; [exact Hrange|]. intros i Hi. by apply list_getitem_in_range. }
  exists found, r. split; [done|]. split; [done|]. split; [lia|]. split; [done|].
  apply comprehension_Forall2 in Hr.
  clear Hlen Hnd Hsearch Hrlen. revert r Hr.
  induction Hrange as [|i l Hi _ IH]; intros r Hr.
  - apply Forall2_nil_inv_l in Hr as ->. constructor.
  - apply Forall2_cons_inv_l in Hr as (y & ys & Hy & Hys & ->).
    constructor; [|by apply IH].
    split; [done|]. apply list_getitem_nonneg; [lia|done].
Qed.

(** With an engine that honours the FAISS contract and a store whose index
    and documents are in step, asking for [k] neighbours with
    [0 < k <= len(documents)] returns exactly [k] results: the stored
    documents at the [k] pairwise distinct labels the engine returned, in
    its order. *)
Theorem search_returns_k_documents (E : Faiss.engine) (query : embedding)
    (self : VectorStore.t) (k : Z) :
  Faiss.contract E →
  length (VectorStore.index self) = length (VectorStore.documents self) →
  0 < k ≤ Z.of_nat (length (VectorStore.documents self)) →
  ∃ labels results,
    Faiss.index_search E (VectorStore.index self) query k = Ok labels ∧
    VectorStore.search E query self k = Ok results ∧
    length results = Z.to_nat k ∧
    NoDup labels ∧
    Forall2 (λ label doc,
               0 ≤ label < Z.of_nat (length (VectorStore.documents self)) ∧
               VectorStore.documents self !! Z.to_nat label = Some doc)
            labels results.
Proof. apply search_returns_k_documents_aux. Qed.

(** An instance: the nearest neighbour in the two-document store. *)
Lemma search_returns_k_documents_witness :
  ∃ store results,
    Examples.store_of_two = Ok store ∧
    VectorStore.search Faiss.flat_l2 Examples.query_row store 1 = Ok results ∧
    length results = 1%nat.
Proof.
  assert (∃ store, Examples.store_of_two = Ok store
                   ∧ length (VectorStore.index store)
                     = length (VectorStore.documents store)
                   ∧ 0 < 1 ≤ Z.of_nat (length (VectorStore.documents store)))
    as (store & Hstore & Hsync & Hk)
    by (eexists; split; [reflexivity|]; split; [reflexivity|cbn; lia]).
  destruct (search_returns_k_documents Faiss.flat_l2 Examples.query_row store 1
              flat_l2_contract Hsync Hk)
    as (labels & results & _ & Hsearch & Hlen & _).
  exists store, results. split; [exact Hstore|]. split; [exact Hsearch|exact Hlen].
Defined.

(** The padding of missing neighbours: an instance on the two-document
    store with [k = 5]. *)
Lemma search_pads_with_last_document_witness :
  ∃ store found,
    Examples.store_of_two = Ok store ∧
    VectorStore.search Faiss.flat_l2 Examples.query_row store 5
      = Ok (found ++ replicate 3 Examples.doc_b) ∧
    length found = 2%nat.
Proof.
  assert (∃ store, Examples.store_of_two = Ok store
                   ∧ length (VectorStore.index store)
                     = length (VectorStore.documents store)
                   ∧ last (VectorStore.documents store) = Some Examples.doc_b
                   ∧ Z.of_nat (length (VectorStore.documents store)) < 5)
    as (store & Hstore & Hsync & Hlast & Hk)
    by (eexists; split; [reflexivity|]; split; [reflexivity|];
        split; [reflexivity|cbn; lia]).
  destruct (search_pads_with_last_document Faiss.flat_l2 Examples.query_row
              store 5 Examples.doc_b flat_l2_contract Hsync Hlast Hk)
    as (found & Hsearch & Hlen).
  exists store, found. split; [exact Hstore|].
  split; [|rewrite Hlen; by injection Hstore as <-].
  rewrite Hsearch. by injection Hstore as <-.
Defined.

(** [search] on a store without documents answers the empty list without
    consulting the index, also for [k <= 0], where the FAISS wrapper would
    fail its assertion. *)
Theorem search_on_empty_store (E : Faiss.engine) (query : embedding)
    (dimension k : Z) :
  VectorStore.search E query (VectorStore.init dimension) k = Ok [] ∧
  (∀ self, VectorStore.documents self = [] →
           VectorStore.search E query self k = Ok []) ∧
  (k ≤ 0 → Faiss.index_search Faiss.flat_l2 [] query k = Raise AssertionError).
Proof.
  split; [done|]. split.
  - intros self Hempty. unfold VectorStore.search. by rewrite Hempty.
  - intros Hk. cbn. destruct (Z.leb_spec k 0); [done|lia].
Qed.

(** ** The agent's [add_documents] and the seeded knowledge base *)

Lemma set_embeddings_related (documents : list VectorStore.document)
    (embeddings : list embedding) :
  Forall2 (λ doc doc', ∀ key, key ≠ "embedding" → doc' !! key = doc !! key)
          documents (KnowledgeBase.set_embeddings documents embeddings).
Proof.
  revert embeddings. induction documents as [|doc documents IH];
    intros embeddings.
  - destruct embeddings; constructor.
  - destruct embeddings as [|e embeddings]; cbn [KnowledgeBase.set_embeddings].
    + apply Forall_Forall2_diag, Forall_true. done.
    + constructor; [|apply IH].
      intros key Hkey. apply lookup_insert_ne. congruence.
Qed.

Lemma agent_add_documents_aux (encode : list pyvalue → list embedding)
    (rand : nat → embedding) (store : VectorStore.t)
    (documents : list VectorStore.document) :
  match KnowledgeBase.add_documents encode rand store documents with
  | Ok store' =>
      VectorStore.index store'
        = VectorStore.index store ++ (rand <$> seq 0 (length documents)) ∧
      ∃ stored,
        VectorStore.documents store' = VectorStore.documents store ++ stored ∧
        Forall2 (λ doc doc', ∀ key, key ≠ "embedding" → doc' !! key = doc !! key)
                documents stored
  | Raise e =>
      e = KeyError "text" ∧ ∃ doc, doc ∈ documents ∧ doc !! "text" = None
  end.
Proof.
  unfold KnowledgeBase.add_documents.
  destruct (VectorStore.comprehension (λ doc, Py.getitem doc "text") documents)
    as [texts|e] eqn:Htexts; cbn [mbind result_bind].
  - pose proof (set_embeddings_related documents (encode texts)) as Hrel.
    generalize dependent (KnowledgeBase.set_embeddings documents (encode texts)).
    intros stored Hrel.
    pose proof (vector_store_add_documents_appends_aux rand store stored)
      as Hadd.
    destruct (VectorStore.add_documents rand store stored) as [store'|e].
    + destruct Hadd as (Hdocs & Hindex & _).
      rewrite <- (Forall2_length _ _ _ Hrel) in Hindex.
      split; [exact Hindex|]. eauto.
    + exfalso. destruct Hadd as (_ & doc' & Hin & Hnone).
      apply comprehension_Forall2 in Htexts.
      clear -Hrel Htexts Hin Hnone.
      revert texts Htexts.
      induction Hrel as [|doc d' l l' Hd _ IH]; intros texts Htexts.
      * by apply elem_of_nil in Hin.
      * apply Forall2_cons_inv_l in Htexts as (t & ts & Ht%getitem_ok & Hts & ->).
        apply elem_of_cons in Hin as [->|Hin].
        -- specialize (Hd "text"). unfold VectorStore.document in *.
           rewrite Hd in Hnone by discriminate. congruence.
        -- by eapply IH.
  - apply comprehension_raise in Htexts as (doc & Hin & Hdoc).
    unfold Py.getitem in Hdoc. destruct (doc !! "text") eqn:Htext; [done|].
    injection Hdoc as <-. eauto.
Qed.


(** Seeding the knowledge base of a fresh [RAGAgent] cannot fail on its
    documents: it gives a store with the five seed texts, in order, and five
    random index rows. With an engine that honours the FAISS contract,
    retrieval of [k] neighbours from it, for any [0 < k <= 5], returns
    exactly [k] of the seeded documents, so the padding of missing
    neighbours does not occur; the default [SIMILARITY_TOP_K] is such a
    [k]. *)
Theorem knowledge_base_retrieval_returns_top_k
    (encode : list pyvalue → list embedding) (rand : nat → embedding) :
  ∃ store,
    KnowledgeBase._initialize_knowledge_base encode rand = Ok store ∧
    VectorStore.index store = rand <$> seq 0 5 ∧
    ((λ doc, doc !! "text") <$> VectorStore.documents store)
      = ((λ doc, doc !! "text") <$> KnowledgeBase.financial_knowledge) ∧
    0 < KnowledgeBase.SIMILARITY_TOP_K ≤ 5 ∧
    ∀ (E : Faiss.engine) (query : embedding) (k : Z),
      Faiss.contract E →
      0 < k ≤ 5 →
      ∃ results,
        VectorStore.search E query store k = Ok results ∧
        length results = Z.to_nat k ∧
        Forall (λ doc, doc ∈ VectorStore.documents store) results.
Proof.
  unfold KnowledgeBase._initialize_knowledge_base.
  pose proof (agent_add_documents_aux encode rand
                (VectorStore.init KnowledgeBase.VECTOR_STORE_DIMENSION)
                KnowledgeBase.financial_knowledge) as H.
  destruct (KnowledgeBase.add_documents encode rand _ _) as [store|e].
  2:{ destruct H as (_ & doc & Hin & Hnone). exfalso.
      unfold KnowledgeBase.financial_knowledge in Hin.
      rewrite !elem_of_cons in Hin.
      repeat (destruct Hin as [->|Hin]; [by vm_compute in Hnone|]).
      by apply elem_of_nil in Hin. }
  destruct H as (Hindex & stored & Hdocs & Hrel).
  cbn [VectorStore.init VectorStore.index VectorStore.documents app] in Hindex, Hdocs.
  exists store. split; [done|]. split; [exact Hindex|].
  assert (length (VectorStore.documents store) = 5%nat) as Hlen.
  { rewrite Hdocs, <- (Forall2_length _ _ _ Hrel). reflexivity. }
  split.
  { rewrite Hdocs. clear -Hrel.
    induction Hrel as [|doc doc' l l' Hd _ IH]; [done|].
    cbn. rewrite IH. f_equal. by apply Hd. }
  split; [unfold KnowledgeBase.SIMILARITY_TOP_K; lia|].
  intros E query k HE Hk.
  destruct (search_returns_k_documents_aux E query store k HE)
    as (labels & results & _ & Hsearch & Hrlen & _ & Hres).
  { rewrite Hindex, Hlen, length_fmap, length_seq. reflexivity. }
  { rewrite Hlen. lia. }
  exists results. split; [exact Hsearch|]. split; [exact Hrlen|].
  eapply Forall2_Forall_r; [exact Hres|].
  apply Forall_true. intros label doc [_ Hdoc].
  by eapply list_elem_of_lookup_2.
Qed.

(** ** The runway count of the forecast *)

Lemma last_true_below (p : nat → bool) (m : nat) :
  (∀ k, (0 < k ≤ m)%nat → p k = false) ∨
  (∃ k, (0 < k ≤ m)%nat ∧ p k = true ∧
        ∀ k', (k < k' ≤ m)%nat → p k' = false).
Proof.
  induction m as [|m IH]; [left; intros; lia|].
  destruct (p (S m)) eqn:Hp.
  { right. exists (S m). split; [lia|]. split; [done|]. intros; lia. }
  destruct IH as [IH|(k & Hk & Hpk & Hlater)].
  - left. intros k Hk. destruct (decide (k = S m)) as [->|]; [done|].
    apply IH. lia.
  - right. exists k. split; [lia|]. split; [done|].
    intros k' Hk'. destruct (decide (k' = S m)) as [->|]; [done|].
    apply Hlater. lia.
Qed.

(** Whatever the scenario, a returned forecast numbers its entries
    [1, 2, ...]; [total_months_of_runway] is 0 when no entry has a positive
    balance and otherwise the month of the last entry with a positive
    balance, so it never exceeds the number of entries; no entry but the
    last has a balance [<= 0]; and [final_cash_balance] is the balance of
    the last entry, or the opening cash when the forecast is empty. *)
Theorem runway_is_last_month_with_positive_balance
    (c : Z) (now_id now_iso : string) (s : Forecast.ScenarioInput)
    (r : Forecast.ScenarioResult) :
  (Forecast.calculate_runway c now_id now_iso s).1 = Ok r →
  let forecast := Forecast.monthly_forecast r in
  let runway := Forecast.total_months_of_runway r in
  Forecast.month <$> forecast = Z.of_nat <$> seq 1 (length forecast) ∧
  0 ≤ runway ≤ Z.of_nat (length forecast) ∧
  (∀ e, e ∈ forecast → runway < Forecast.month e →
        (0 <? Forecast.balance e)%float = false) ∧
  (runway ≠ 0 →
     ∃ e, e ∈ forecast ∧ Forecast.month e = runway ∧
          (0 <? Forecast.balance e)%float = true) ∧
  (∀ e, e ∈ forecast → Forecast.month e < Z.of_nat (length forecast) →
        (Forecast.balance e <=? 0)%float = false) ∧
  Forecast.final_cash_balance r
    = default (Forecast.current_cash s) (Forecast.balance <$> last forecast).
Proof.
  rewrite calculate_runway_unfold. cbn [fst].
  destruct (PyNum.float_of_int (Forecast.new_hires s)) as [hires|e]; [|done].
  intros [= <-]. cbn zeta.
  cbn [Forecast.monthly_forecast Forecast.total_months_of_runway
       Forecast.final_cash_balance].
  destruct (for_months_spec s hires (Z.to_nat (Forecast.months_to_forecast s)) 0
              {| Forecast.monthly_data := [];
                 Forecast.current_balance := Forecast.current_cash s;
                 Forecast.months_of_runway := 0 |} eq_refl)
    as (m & Hm & Hdata & Hbal & Hbefore & _ & Hnone & Hlast).
  rewrite Hdata, Hbal, Nat.sub_0_r. cbn [Forecast.monthly_data app].
  cbn [Forecast.months_of_runway] in Hnone.
  set (bal := Forecast.balance_at (Forecast.current_cash s)
                (Forecast.net_of s hires)) in *.
  rewrite length_fmap, length_seq.
  assert (∀ e, e ∈ Forecast.entry_at s hires <$> seq 1 m →
               ∃ k, (0 < k ≤ m)%nat ∧ e = Forecast.entry_at s hires k)
    as Helem.
  { intros e (k & -> & Hk)%list_elem_of_fmap. apply elem_of_seq in Hk.
    exists k. split; [lia|done]. }
  assert (∀ k, (0 < k ≤ m)%nat →
               Forecast.entry_at s hires k ∈ Forecast.entry_at s hires <$> seq 1 m)
    as Hin.
  { intros k Hk. apply list_elem_of_fmap. exists k. split; [done|].
    apply elem_of_seq. lia. }
  split.
  { rewrite <- list_fmap_compose. by apply list_fmap_ext. }
  assert (default (Forecast.current_cash s)
            (Forecast.balance <$> last (Forecast.entry_at s hires <$> seq 1 m))
          = bal m) as Hfinal.
  { destruct m as [|m']; [done|].
    rewrite fmap_last, seq_S, last_snoc. reflexivity. }
  rewrite Hfinal.
  destruct (last_true_below (λ k, (0 <? bal k)%float) m)
    as [Hall|(k & Hk & Hpos & Hlater)].
  - rewrite Hnone by (intros; apply Hall; lia).
    split; [lia|]. split.
    { intros e (k & Hk & ->)%Helem _. cbn. by apply Hall. }
    split; [done|]. split; [|done].
    intros e (k & Hk & ->)%Helem Hlt. cbn in *. apply Hbefore. lia.
  - rewrite (Hlast k) by (done || lia).
    split; [lia|]. split.
    { intros e (k' & Hk' & ->)%Helem Hlt. cbn in *. apply Hlater. lia. }
    split.
    { intros _. exists (Forecast.entry_at s hires k).
      split; [by apply Hin|done]. }
    split; [|done].
    intros e (k' & Hk' & ->)%Helem Hlt. cbn in *. apply Hbefore. lia.
Qed.

(** An instance: the deficit example over twelve months, whose forecast
    stops at month 10 with a runway of 9 months. *)
Lemma runway_is_last_month_with_positive_balance_witness :
  ∃ r,
    (Forecast.calculate_runway 0 "" "" (Forecast.example_deficit 12)).1 = Ok r ∧
    0 ≤ Forecast.total_months_of_runway r
      ≤ Z.of_nat (length (Forecast.monthly_forecast r)) ∧
    Forecast.final_cash_balance r
      = default (Forecast.current_cash (Forecast.example_deficit 12))
          (Forecast.balance <$> last (Forecast.monthly_forecast r)).
Proof.
  assert (∃ r, (Forecast.calculate_runway 0 "" ""
                  (Forecast.example_deficit 12)).1 = Ok r) as [r Hr]
    by (vm_compute; eauto).
  exists r. split; [exact Hr|].
  destruct (runway_is_last_month_with_positive_balance 0 "" ""
              (Forecast.example_deficit 12) r Hr)
    as (_ & Hrunway & _ & _ & _ & Hfinal).
  split; [exact Hrunway|exact Hfinal].
Defined.

(** ** The scenario and usage endpoints *)

(** [POST /api/scenarios/analyze] counts every call, also one that fails:
    a hire count too large for a float is answered with status 400, is
    counted as an API call and stores nothing. A successful call appends
    its result to [scenarios_db], and [GET /api/usage] then reports that
    result's timestamp as the last scenario time. *)
Theorem analyze_scenario_counts_every_call (now_id now_iso : string)
    (srv : Main.server) (scenario : Forecast.ScenarioInput) :
  match Main.analyze_scenario now_id now_iso srv scenario with
  | (Endpoints.Reply result, srv') =>
      Main.scenarios_db srv' = Main.scenarios_db srv ++ [result] ∧
      Main.usage_counter srv' = Main.usage_counter srv + 1 ∧
      Forecast.input result = scenario ∧
      Forecast.scenario_id result = "scn_" +:+ now_id ∧
      Main.last_scenario_time (Main.get_usage srv') = Some now_iso
  | (Endpoints.Failed status e, srv') =>
      status = 400 ∧ e = OverflowError ∧
      PyNum.float_of_int (Forecast.new_hires scenario) = Raise OverflowError ∧
      Main.scenarios_db srv' = Main.scenarios_db srv ∧
      Main.usage_counter srv' = Main.usage_counter srv + 1
  | (Endpoints.Refused _ _, _) => False
  end.
Proof.
  unfold Main.analyze_scenario. rewrite calculate_runway_unfold.
  destruct (PyNum.float_of_int (Forecast.new_hires scenario)) as [hires|e] eqn:Hh.
  - cbn zeta. unfold Main.get_usage.
    cbn [Main.scenarios_db Main.usage_counter Main.last_scenario_time
         Forecast.input Forecast.scenario_id].
    rewrite last_snoc. done.
  - cbn [Main.scenarios_db Main.usage_counter].
    apply float_of_int_raise in Hh as Heq. subst e. done.
Qed.

Lemma handle_usage (srv : Main.server) (r : Main.request) :
  Main.usage_counter srv ≤ Main.usage_counter (Main.handle srv r)
    ≤ Main.usage_counter srv + 1 ∧
  (length (Main.scenarios_db srv)
     ≤ length (Main.scenarios_db (Main.handle srv r)))%nat ∧
  Z.of_nat (length (Main.scenarios_db (Main.handle srv r)))
    - Z.of_nat (length (Main.scenarios_db srv))
    ≤ Main.usage_counter (Main.handle srv r) - Main.usage_counter srv.
Proof.
  destruct r as [now_id now_iso scenario|r|]; cbn [Main.handle].
  - unfold Main.analyze_scenario. rewrite calculate_runway_unfold.
    destruct (PyNum.float_of_int (Forecast.new_hires scenario));
      cbn [snd Main.scenarios_db Main.usage_counter];
      rewrite ?length_app; cbn [length]; lia.
  - unfold Main.analyze_pathway_scenario.
    destruct (Pathway.fallback_figures r);
      cbn [snd Main.scenarios_db Main.usage_counter]; lia.
  - lia.
Qed.

Lemma handle_all_usage (requests : list Main.request) (srv : Main.server) :
  Main.usage_counter srv
    ≤ Main.usage_counter (foldl Main.handle srv requests)
    ≤ Main.usage_counter srv + Z.of_nat (length requests) ∧
  Z.of_nat (length (Main.scenarios_db (foldl Main.handle srv requests)))
    - Z.of_nat (length (Main.scenarios_db srv))
    ≤ Main.usage_counter (foldl Main.handle srv requests)
      - Main.usage_counter srv.
Proof.
  revert srv. induction requests as [|r requests IH]; intros srv.
  - cbn. lia.
  - cbn [foldl length]. pose proof (handle_usage srv r).
    pose proof (IH (Main.handle srv r)). lia.
Qed.

(** After any sequence of requests to a freshly started server,
    [GET /api/usage] reports at most as many scenarios run as API calls, and
    at most as many API calls as requests were made; the last scenario time
    is absent exactly when no scenario has been stored. *)
Theorem usage_never_below_stored_scenarios (requests : list Main.request) :
  let usage := Main.get_usage (foldl Main.handle Main.start requests) in
  0 ≤ Main.total_scenarios_run usage ≤ Main.api_calls usage ∧
  Main.api_calls usage ≤ Z.of_nat (length requests) ∧
  (Main.last_scenario_time usage = None ↔ Main.total_scenarios_run usage = 0).
Proof.
  cbn zeta. pose proof (handle_all_usage requests Main.start) as H.
  unfold Main.get_usage.
  cbn [Main.total_scenarios_run Main.api_calls Main.last_scenario_time].
  cbn [Main.start Main.scenarios_db Main.usage_counter length] in H.
  split; [lia|]. split; [lia|].
  destruct (Main.scenarios_db (foldl Main.handle Main.start requests))
    as [|x l] using rev_ind; [done|].
  rewrite last_snoc, length_app. cbn. split; [done|lia].
Qed.

(** The fallback branch of [POST /api/pathway/scenario] never divides by
    zero: the projected runway is [200000 / new_expenses] when the projected
    expenses are positive and infinite otherwise (a NaN included). The only
    exception of the figures is the [OverflowError] of a hire count too
    large for a float; it escapes before the counter is touched, so only
    answered requests count as API calls. *)
Theorem pathway_fallback_counts_only_answered_requests (srv : Main.server)
    (request : Pathway.PathwayScenarioRequest) :
  match Main.analyze_pathway_scenario srv request with
  | (Ok (new_revenue, new_expenses, new_runway), srv') =>
      Main.usage_counter srv' = Main.usage_counter srv + 1 ∧
      Main.scenarios_db srv' = Main.scenarios_db srv ∧
      new_revenue
        = (50000 * (1 + Pathway.pricing_change request / 100))%float ∧
      (if (0 <? new_expenses)%float
       then (new_expenses =? 0)%float = false ∧
            new_runway = (200000 / new_expenses)%float
       else new_runway = infinity)
  | (Raise e, srv') =>
      e = OverflowError ∧ srv' = srv ∧
      PyNum.float_of_int (Pathway.hiring_count request * 8000)
        = Raise OverflowError
  end.
Proof.
  unfold Main.analyze_pathway_scenario, Pathway.fallback_figures.
  destruct (PyNum.float_of_int (Pathway.hiring_count request * 8000))
    as [hiring|e] eqn:Hh; cbn [mbind result_bind].
  2:{ apply float_of_int_raise in Hh as Heq. subst e. done. }
  set (new_expenses := (35000 * (1 + Pathway.spending_change request / 100)
                          + hiring + Pathway.marketing_budget request)%float).
  destruct (0 <? new_expenses)%float eqn:Hpos; cbn [mbind result_bind].
  - unfold PyNum.float_truediv.
    assert ((new_expenses =? 0)%float = false) as Hnz.
    { apply ltb_0_not_leb_0 in Hpos. revert Hpos.
      rewrite FloatAxioms.leb_spec, FloatAxioms.eqb_spec.
      replace (Prim2SF 0) with (S754_zero false) by reflexivity.
      destruct (Prim2SF new_expenses) as [sg|sg| |sg m e];
        try destruct sg; cbn; congruence. }
    rewrite Hnz. cbn [mbind result_bind Main.usage_counter Main.scenarios_db].
    rewrite Hpos. done.
  - cbn [Main.usage_counter Main.scenarios_db]. rewrite Hpos. done.
Qed.

(** ** Combining uploaded files *)

Lemma foldl_extend_data (tables : list Main.table)
    (acc : list (list (string * pyvalue))) :
  foldl (λ acc item, acc ++ Main.data item) acc tables
  = acc ++ concat (Main.data <$> tables).
Proof.
  revert acc. induction tables as [|t tables IH]; intros acc; cbn.
  - by rewrite app_nil_r.
  - by rewrite IH, app_assoc.
Qed.

Lemma foldl_first_stats (tables : list Main.table)
    (acc : gmap string (gmap string float)) (col : string) :
  foldl (λ acc item, acc ∪ Main.stats item) acc tables !! col
  = match acc !! col with
    | Some v => Some v
    | None => head (omap (λ t, Main.stats t !! col) tables)
    end.
Proof.
  revert acc. induction tables as [|t tables IH]; intros acc; cbn.
  - by destruct (acc !! col).
  - rewrite IH, lookup_union.
    destruct (acc !! col), (Main.stats t !! col); reflexivity.
Qed.

(** [POST /api/analyze] refuses with status 400 exactly when no file could
    be processed. Otherwise the rows of the answer are the rows of the
    processed files, in order; the row count is their number; the columns
    are those of the first processed file only; and the statistics of a
    column are those of the first processed file that has the column: later
    files never update them. *)
Theorem analyze_files_combines_processed_tables
    (files : list (string * option Main.table)) :
  match Main.analyze_files files with
  | Endpoints.Reply body =>
      ∃ first rest,
        omap snd files = first :: rest ∧
        Main.combined_data body = concat (Main.data <$> first :: rest) ∧
        Main.combined_total_rows body
          = Z.of_nat (sum_list (length ∘ Main.data <$> first :: rest)) ∧
        Main.combined_columns body = Main.columns first ∧
        ∀ col, Main.combined_stats body !! col
               = head (omap (λ t, Main.stats t !! col) (first :: rest))
  | Endpoints.Refused status _ =>
      status = 400 ∧ Forall (λ file, file.2 = None) files
  | Endpoints.Failed _ _ => False
  end.
Proof.
  unfold Main.analyze_files. destruct files as [|file files]; [done|].
  destruct (omap snd (file :: files)) as [|first rest] eqn:Hprocessed.
  - split; [done|]. clear -Hprocessed.
    induction (file :: files) as [|[name [t|]] l IH]; [done|done|].
    constructor; [done|]. by apply IH.
  - exists first, rest. split; [done|].
    cbn [Main.combined_data Main.combined_total_rows Main.combined_columns
         Main.combined_stats].
    rewrite foldl_extend_data. cbn [app].
    split; [done|]. split.
    { f_equal. generalize (first :: rest). intros l.
      induction l as [|t l IH]; [done|].
      cbn. rewrite length_app. by rewrite IH. }
    split; [done|]. intros col. rewrite foldl_first_stats.
    by rewrite lookup_empty.
Qed.

(** ** Where a division by zero can come from *)

(** When [analyze_scenario] raises [ZeroDivisionError], the scenario and
    its company's context are both stored, the context's monthly revenue is
    zero, and the scenario names [monthly_revenue]: the revenue line of the
    proposed changes is the only division without a test. *)
Theorem zero_division_only_from_zero_revenue (L : Pydantic.lax)
    (now : datetime) (o : generation) (self : RAGAgent.t)
    (scenario_id : string) :
  (RAGAgent.analyze_scenario L now o self scenario_id).1
    = Raise ZeroDivisionError →
  ∃ scenario context,
    RAGAgent.scenario_store self !! scenario_id = Some scenario ∧
    RAGAgent.context_store self !! UserScenario.company_id scenario
      = Some context ∧
    (FinancialContext.monthly_revenue context =? 0)%float = true ∧
    "monthly_revenue" ∈ (UserScenario.changes scenario).*1.
Proof.
  unfold RAGAgent.analyze_scenario, RAGAgent.get_financial_context.
  destruct (RAGAgent.scenario_store self !! scenario_id) as [scenario|] eqn:Hs;
    [|done].
  destruct (RAGAgent.context_store self !! UserScenario.company_id scenario)
    as [context|] eqn:Hc; [|done].
  intros H. exists scenario, context. split; [done|]. split; [done|].
  destruct (RAGAgent.apply_changes _ _) as [updated_data|e1] eqn:Hmerge;
    cbn [mbind result_bind] in H.
  2:{ injection H as ->. by apply apply_changes_raise in Hmerge as [?|?]. }
  unfold FinancialContext.make in H.
  destruct (FinancialContext.validate L now updated_data) as [updated|] eqn:Hval;
    cbn [mbind result_bind] in H; [|done].
  destruct (RAGAgent._generate_summary context updated _ o) as [summary|e1] eqn:Hsum;
    cbn [mbind result_bind fst] in H; [done|].
  injection H as ->.
  apply generate_summary_zero_division in Hsum as [Hzero Hne].
  split; [exact Hzero|].
  destruct (decide ("monthly_revenue" ∈ (UserScenario.changes scenario).*1))
    as [|Hnotin]; [done|exfalso].
  pose proof (apply_changes_unchanged _ _ _ _ Hnotin Hmerge) as Hsame.
  assert (FinancialContext.dict context !! "monthly_revenue"
          = Some (VFloat (FinancialContext.monthly_revenue context))) as Hd
    by (destruct context; reflexivity).
  rewrite Hd in Hsame.
  pose proof (validate_field L now updated_data updated "monthly_revenue" _
                Hval Hsame) as Hfield.
  assert (FinancialContext.dict updated !! "monthly_revenue"
          = Some (VFloat (FinancialContext.monthly_revenue updated))) as Hu
    by (destruct updated; reflexivity).
  rewrite Hu in Hfield.
  assert (FinancialContext.monthly_revenue updated
          = FinancialContext.monthly_revenue context) as Heq.
  { assert ("monthly_revenue" ∈ FinancialContext.fields) as Hin
      by (unfold FinancialContext.fields; set_solver).
    specialize (Hfield Hin).
    rewrite (field_validator_of_dict L context _ _ _ Hd) in Hfield.
    cbn in Hfield. congruence. }
  rewrite Heq, (eqb_zero_self _ Hzero) in Hne. done.
Qed.

(** An instance: the company without revenue and a scenario that adds
    revenue. *)
Lemma zero_division_only_from_zero_revenue_witness :
  ∃ scenario context,
    RAGAgent.scenario_store
      (Examples.agent_with Examples.no_revenue_context
         [("monthly_revenue", VFloat 1000)]) !! "scenario_1" = Some scenario ∧
    RAGAgent.context_store
      (Examples.agent_with Examples.no_revenue_context
         [("monthly_revenue", VFloat 1000)])
      !! UserScenario.company_id scenario = Some context ∧
    (FinancialContext.monthly_revenue context =? 0)%float = true.
Proof.
  destruct (zero_division_only_from_zero_revenue Pydantic.strict (Datetime 2)
              (Returned "ok")
              (Examples.agent_with Examples.no_revenue_context
                 [("monthly_revenue", VFloat 1000)])
              "scenario_1")
    as (scenario & context & Hs & Hc & Hzero & _).
  { vm_compute. reflexivity. }
  exists scenario, context. split; [exact Hs|]. split; [exact Hc|exact Hzero].
Defined.

(** ** Real-time insights *)

Lemma compare_cases (v : pyvalue) (on_int : Z → bool) (on_float : float → bool) :
  (∃ b, Realtime.compare v on_int on_float = Ok b ∧
        Py.isinstance_int_float v = true) ∨
  (Realtime.compare v on_int on_float = Raise TypeError ∧
   Py.isinstance_int_float v = false).
Proof. destruct v; cbn; eauto. Qed.

Lemma health_score_range (runway score : pyvalue) :
  Realtime.health_score runway = Ok score → Realtime.score_in_range score.
Proof.
  unfold Realtime.health_score, Realtime.score_in_range.
  intros (ratio & _ & H)%bind_ok. injection H as <-.
  destruct (0 <? ratio * 100)%float eqn:Hpos; [|by left].
  destruct (ratio * 100 <? 100)%float eqn:Hlt; [|by right; left].
  right; right. eauto.
Qed.

Lemma health_score_raise (runway : pyvalue) (e : exn) :
  Realtime.health_score runway = Raise e → e = TypeError ∨ e = OverflowError.
Proof.
  unfold Realtime.health_score. intros [H|(ratio & _ & [=])]%bind_raise.
  destruct runway; try (injection H as <-; by left); try done;
    apply int_truediv_raise in H as [[_ Hz]|H]; auto; done.
Qed.

Ltac split_ifs :=
  repeat match goal with
         | |- context [if ?c then _ else _] => destruct c
         end;
  cbn [mbind result_bind Realtime.score Realtime.status Realtime.runway_months];
  (split; [done|]); (split; [set_solver|done]).

(** [_assess_financial_health] gives a score between 0 and 100 for every
    runway that is a number, a NaN, an infinity and a negative value
    included, and one of the four statuses; it raises only [TypeError]
    (the runway is not a number) or [OverflowError] (an int too large to
    divide into a float). *)
Theorem assess_financial_health_score_in_range
    (key_metrics : gmap string pyvalue) :
  match Realtime._assess_financial_health key_metrics with
  | Ok h =>
      Realtime.score_in_range (Realtime.score h) ∧
      Realtime.status h ∈ ["excellent"; "good"; "concerning"; "critical"] ∧
      Py.isinstance_int_float (Realtime.runway_months h) = true ∧
      Realtime.runway_months h
        = Realtime.get key_metrics "runway_months" (VInt 0)
  | Raise e =>
      (e = TypeError ∧
       Py.isinstance_int_float
         (Realtime.get key_metrics "runway_months" (VInt 0)) = false) ∨
      (e = OverflowError ∧
       ∃ z, Realtime.get key_metrics "runway_months" (VInt 0) = VInt z)
  end.
Proof.
  unfold Realtime._assess_financial_health.
  destruct (Realtime.get key_metrics "runway_months" (VInt 0)) as
    [ |b|z|f|s|t|l|d] eqn:Hrunway; cbn [Realtime.compare mbind result_bind];
    try (left; done).
  - destruct (Realtime.health_score (VBool b)) as [score|e] eqn:Hscore.
    + apply health_score_range in Hscore. by split_ifs.
    + exfalso. unfold Realtime.health_score in Hscore.
      apply bind_raise in Hscore as [H|(? & _ & [=])].
      destruct b; vm_compute in H; done.
  - destruct (Realtime.health_score (VInt z)) as [score|e] eqn:Hscore.
    + apply health_score_range in Hscore. by split_ifs.
    + assert (e = OverflowError) as ->.
      { unfold Realtime.health_score in Hscore.
        apply bind_raise in Hscore as [H|(? & _ & [=])].
        by apply int_truediv_raise in H as [[_ Hz]|H]. }
      repeat match goal with
             | |- context [if ?c then _ else _] => destruct c
             end; cbn [mbind result_bind]; right; eauto.
  - destruct (Realtime.health_score (VFloat f)) as [score|e] eqn:Hscore.
    + apply health_score_range in Hscore. by split_ifs.
    + exfalso. unfold Realtime.health_score in Hscore.
      by apply bind_raise in Hscore as [H|(? & _ & [=])].
Qed.

(** [_generate_combined_recommendations] always ends with the three
    standing recommendations, preceded by at most two situational ones: the
    limit of five never cuts anything. It raises only [TypeError], when the
    runway or the growth rate is not a number. *)
Theorem combined_recommendations_keep_the_standing_ones
    (key_metrics indicators : gmap string pyvalue) :
  match Realtime._generate_combined_recommendations key_metrics indicators with
  | Ok recommendations =>
      ∃ situational,
        recommendations = situational ++ Realtime.standing_recommendations ∧
        (length situational ≤ 2)%nat ∧
        (3 ≤ length recommendations ≤ 5)%nat
  | Raise e =>
      e = TypeError ∧
      (Py.isinstance_int_float
         (Realtime.get key_metrics "runway_months" (VInt 0)) = false ∨
       Py.isinstance_int_float
         (Realtime.get key_metrics "growth_rate" (VInt 0)) = false)
  end.
Proof.
  unfold Realtime._generate_combined_recommendations.
  destruct (compare_cases (Realtime.get key_metrics "runway_months" (VInt 0))
              (λ z, z <? 12) (λ f, f <? 12)%float)
    as [(below_12 & -> & Hnum)|[-> Hnot]]; cbn [mbind result_bind]; [|auto].
  destruct (compare_cases (Realtime.get key_metrics "runway_months" (VInt 0))
              (λ z, 18 <? z) (λ f, 18 <? f)%float)
    as [(above_18 & -> & _)|[_ Hnot]]; [|congruence].
  destruct (compare_cases (Realtime.get key_metrics "growth_rate" (VInt 0))
              (λ z, z <? 0) (λ f, f <? 0)%float)
    as [(declining & -> & _)|[-> Hnot]].
  - destruct (Realtime.is_str _ "bearish"), (Realtime.is_str _ "bullish"),
      below_12, above_18, declining;
      cbn [andb mbind result_bind app take Realtime.standing_recommendations];
      match goal with
      | |- ∃ _, ?l = _ ∧ _ => exists (take (length l - 3) l)
      end; cbn; (split; [reflexivity|lia]).
  - destruct (Realtime.is_str _ "bearish"), (Realtime.is_str _ "bullish"),
      below_12, above_18; cbn [andb mbind result_bind]; auto.
Qed.


(** Whatever the random draws, [get_latest_insights] recommends exactly the
    three standing recommendations and raises no revenue alert: the helpers
    read ["market_sentiment"] and ["growth_rate"], and the snapshots it
    passes have ["sentiment"] and no growth rate, so the sentiment and
    growth branches are never taken. The health score is between 0 and
    100. The call raises only if the runway draw makes the divisor zero. *)
Theorem latest_insights_only_standing_recommendations (now_iso : string)
    (d : Realtime.draws) (company_id : string) :
  match Realtime.get_latest_insights now_iso d company_id with
  | Ok i =>
      Realtime.recommendations i = Realtime.standing_recommendations ∧
      (Realtime.alerts i = [] ∨
       ∃ runway,
         Realtime.financial_snapshot i !! "runway_months" = Some (VFloat runway) ∧
         (Realtime.alerts i
          = [ {| Realtime.level := "critical";
                 Realtime.alert_message := Realtime.OnlyMonthsRemaining runway;
                 Realtime.action := "Immediate action required" |} ] ∨
          Realtime.alerts i
          = [ {| Realtime.level := "warning";
                 Realtime.alert_message := Realtime.MonthsRemaining runway;
                 Realtime.action := "Consider cost optimization" |} ])) ∧
      Realtime.score_in_range (Realtime.insights_health_score i) ∧
      Realtime.market_conditions i !! "market_sentiment" = None ∧
      Realtime.financial_snapshot i !! "growth_rate" = None
  | Raise e =>
      e = ZeroDivisionError ∧
      (35000 * Realtime.runway_factor d =? 0)%float = true
  end.
Proof.
  unfold Realtime.get_latest_insights, PyNum.float_truediv.
  destruct (35000 * Realtime.runway_factor d =? 0)%float eqn:Hzero;
    cbn [mbind result_bind]; [done|].
  set (runway := (200000 / (35000 * Realtime.runway_factor d))%float).
  destruct (Realtime.health_score (VFloat runway)) as [score|e] eqn:Hscore;
    cbn [mbind result_bind].
  2:{ exfalso. unfold Realtime.health_score in Hscore.
      by apply bind_raise in Hscore as [H|(? & _ & [=])]. }
  apply health_score_range in Hscore.
  unfold Realtime._generate_combined_recommendations, Realtime._generate_alerts.
  set (financial_data := <["monthly_revenue" := _]> _).
  set (market_data := <["sentiment" := _]> _).
  assert (Realtime.get financial_data "runway_months" (VInt 0) = VFloat runway)
    as -> by reflexivity.
  assert (Realtime.get financial_data "growth_rate" (VInt 0) = VInt 0)
    as -> by reflexivity.
  assert (Realtime.get market_data "market_sentiment" (VStr "neutral")
          = VStr "neutral") as -> by reflexivity.
  cbn [Realtime.compare Realtime.is_str Realtime.format_f mbind result_bind].
  replace (bool_decide ("neutral" = "bearish")) with false by reflexivity.
  replace (bool_decide ("neutral" = "bullish")) with false by reflexivity.
  rewrite !andb_false_r. cbn [mbind result_bind].
  replace (0 <? 0) with false by reflexivity.
  replace (0 <? -10) with false by reflexivity.
  cbn [mbind result_bind app take Realtime.standing_recommendations].
  destruct (runway <? 6)%float; cbn [mbind result_bind app].
  - cbn [Realtime.recommendations Realtime.alerts Realtime.financial_snapshot
         Realtime.insights_health_score Realtime.market_conditions].
    split; [done|]. split; [right; exists runway; split; [reflexivity|by left]|].
    split; [done|]. split; reflexivity.
  - destruct (runway <? 12)%float; cbn [mbind result_bind app].
    + cbn [Realtime.recommendations Realtime.alerts Realtime.financial_snapshot
           Realtime.insights_health_score Realtime.market_conditions].
      split; [done|].
      split; [right; exists runway; split; [reflexivity|by right]|].
      split; [done|]. split; reflexivity.
    + cbn [Realtime.recommendations Realtime.alerts Realtime.financial_snapshot
           Realtime.insights_health_score Realtime.market_conditions].
      split; [done|]. split; [by left|]. split; [done|]. split; reflexivity.
Qed.

(** ** The two modes of the Pathway scenario endpoint *)

Lemma ltb_0_eqb_0 (x : float) :
  (0 <? x)%float = true → (x =? 0)%float = false.
Proof.
  intros Hpos. apply ltb_0_not_leb_0 in Hpos. revert Hpos.
  rewrite FloatAxioms.leb_spec, FloatAxioms.eqb_spec.
  replace (Prim2SF 0) with (S754_zero false) by reflexivity.
  destruct (Prim2SF x) as [sg|sg| |sg m e]; try destruct sg; cbn; congruence.
Qed.

(** On the base data of [main.py] (revenue 50000, expenses 35000, cash
    200000) the Pathway processor and the fallback branch of the endpoint
    succeed on the same requests and fail on the same requests, with
    [OverflowError] for a hire count too large for a float. When they
    succeed they agree on the projected expenses and on the projected
    runway, but not on the revenue: the processor adds a tenth of the
    marketing budget to it, the fallback does not. The processor's current
    runway is [200000 / 35000] months, not the 13 months of the base data. *)
Theorem pathway_modes_agree_on_expenses_not_revenue
    (request : Pathway.PathwayScenarioRequest) :
  match Pathway.fallback_figures request,
        PathwayProcessor.scenario_figures 50000 35000 200000 request with
  | Ok (new_revenue, new_expenses, new_runway), Ok f =>
      PathwayProcessor.new_expenses f = new_expenses ∧
      PathwayProcessor.projected_runway f = new_runway ∧
      PathwayProcessor.new_revenue f
        = (new_revenue
           + Pathway.marketing_budget request * PathwayProcessor.one_tenth)%float ∧
      PathwayProcessor.marketing_roi f
        = (Pathway.marketing_budget request * PathwayProcessor.one_tenth)%float ∧
      PathwayProcessor.current_runway f = (200000 / 35000)%float ∧
      (PathwayProcessor.current_runway f <? 13)%float = true
  | Raise e, Raise e' => e = OverflowError ∧ e' = OverflowError
  | _, _ => False
  end.
Proof.
  unfold Pathway.fallback_figures, PathwayProcessor.scenario_figures.
  replace (PyNum.float_of_int 50000) with (Ok 50000%float : result float)
    by (vm_compute; reflexivity).
  replace (PyNum.float_of_int 35000) with (Ok 35000%float : result float)
    by (vm_compute; reflexivity).
  replace (PyNum.float_of_int 200000) with (Ok 200000%float : result float)
    by (vm_compute; reflexivity).
  replace (PyNum.float_of_int (50000 - 35000))
    with (Ok 15000%float : result float) by (vm_compute; reflexivity).
  replace (0 <? 35000) with true by reflexivity.
  replace (PyNum.int_truediv 200000 35000)
    with (Ok (200000 / 35000)%float : result float) by (vm_compute; reflexivity).
  cbn [mbind result_bind].
  destruct (PyNum.float_of_int (Pathway.hiring_count request * 8000))
    as [hiring|e] eqn:Hh; cbn [mbind result_bind].
  2:{ apply float_of_int_raise in Hh. done. }
  set (new_expenses := (35000 * (1 + Pathway.spending_change request / 100)
                          + hiring + Pathway.marketing_budget request)%float).
  destruct (0 <? new_expenses)%float eqn:Hpos; cbn [mbind result_bind].
  - unfold PyNum.float_truediv. rewrite (ltb_0_eqb_0 _ Hpos).
    cbn [mbind result_bind].
    cbn [PathwayProcessor.new_expenses PathwayProcessor.projected_runway
         PathwayProcessor.new_revenue PathwayProcessor.marketing_roi
         PathwayProcessor.current_runway].
    repeat split; vm_compute; reflexivity.
  - cbn [PathwayProcessor.new_expenses PathwayProcessor.projected_runway
         PathwayProcessor.new_revenue PathwayProcessor.marketing_roi
         PathwayProcessor.current_runway].
    repeat split; vm_compute; reflexivity.
Qed.
